(** * Resource addressing and retrieval of the MCP handbook servers

  A shallow embedding of the two chapter-3 resource servers:

  - [ResourceServer]   : chapter03/resource-server/python/server.py
    (three static documents and two URI templates);
  - [FilesystemServer] : chapter03/filesystem-server/python/server.py
    (files of a folder served as text or base64 blobs).

  Python [str] values are modelled by [string]; a character stands for the
  code point with the same number, so the model covers the strings made of
  code points below 256.  Exceptions are values of [outcome].  The file
  system is POSIX and has no symbolic links; what the servers print on
  standard error is left out. *)

From Stdlib Require Import List String Ascii Bool Arith ZArith NArith QArith Lia.
From Stdlib Require Import DecimalString.
From Stdlib Require Import Permutation.
From Stdlib.Strings Require Import Byte.
Import ListNotations.
Open Scope string_scope.
Open Scope nat_scope.

Set Warnings "-register-all".

(** ** Python string operations *)

Module PyStr.

Definition quote_char : ascii := ascii_of_nat 34.
Definition newline : string := String (ascii_of_nat 10) EmptyString.

(** [s.startswith(p)] *)
Definition startswith (s p : string) : bool := String.prefix p s.

(** [s.endswith(p)] *)
Definition endswith (s p : string) : bool :=
  let n := String.length s in
  let m := String.length p in
  if (m <=? n)%nat then String.eqb (substring (n - m) m s) p else false.

(** [s[n:]] *)
Fixpoint drop (n : nat) (s : string) : string :=
  match n, s with
  | O, _ => s
  | S n', String _ s' => drop n' s'
  | S _, EmptyString => EmptyString
  end.

(** [s.split(sep)] for a separator of one character: every occurrence
    cuts, empty pieces are kept, and the result is never empty. *)
Fixpoint split (s : string) (sep : ascii) : list string :=
  match s with
  | EmptyString => [EmptyString]
  | String c s' =>
      let pieces := split s' sep in
      if Ascii.eqb c sep then EmptyString :: pieces
      else String c (hd EmptyString pieces) :: tl pieces
  end.

(** [sep.join(parts)] *)
Fixpoint join (sep : string) (parts : list string) : string :=
  match parts with
  | [] => EmptyString
  | [p] => p
  | p :: rest => p ++ sep ++ join sep rest
  end.

(** [s.replace(a, b)] for strings [a] and [b] of one character *)
Fixpoint replace (s : string) (a b : ascii) : string :=
  match s with
  | EmptyString => EmptyString
  | String c s' => String (if Ascii.eqb c a then b else c) (replace s' a b)
  end.

(** [c in s] *)
Fixpoint contains (c : ascii) (s : string) : bool :=
  match s with
  | EmptyString => false
  | String d s' => Ascii.eqb c d || contains c s'
  end.

(** [str.lower] on one code point below 256: the letters A-Z and the
    Latin-1 capitals U+00C0-U+00DE (U+00D7, the multiplication sign,
    apart) move up by 32; every other code point is kept. *)
Definition lower_char (c : ascii) : ascii :=
  let n := nat_of_ascii c in
  if ((65 <=? n) && (n <=? 90))
     || ((192 <=? n) && (n <=? 222) && negb (n =? 215))
  then ascii_of_nat (n + 32) else c.

(** [s.lower()] *)
Fixpoint lower (s : string) : string :=
  match s with
  | EmptyString => EmptyString
  | String c s' => String (lower_char c) (lower s')
  end.

Definition hex_digit (n : nat) : ascii :=
  if (n <? 10)%nat then ascii_of_nat (48 + n) else ascii_of_nat (87 + n).

End PyStr.

(** ** The [json] module: values and [json.dumps(obj, indent=2)] *)

Module Json.
Import PyStr.

(** The values the server serialises.  A [dict] keeps insertion order,
    which is the order [json.dumps] writes the members in. *)
Inductive value : Type :=
| JStr (s : string)
| JBool (b : bool)
| JList (items : list value)
| JDict (members : list (string * value)).

(** [d.get(key)] *)
Fixpoint get (key : string) (members : list (string * value)) : option value :=
  match members with
  | [] => None
  | (k, v) :: rest => if String.eqb k key then Some v else get key rest
  end.

(** Escaping of one character with [ensure_ascii=True]: the quote and the
    backslash get a backslash, five control characters have a short form,
    and every other character outside [' '..'~'] is written backslash-u
    and four lower-case hex digits. *)
Definition escape_char (c : ascii) : string :=
  let n := nat_of_ascii c in
  let bs := ascii_of_nat 92 in
  if (n =? 34)%nat then String bs (String quote_char EmptyString)
  else if (n =? 92)%nat then String bs (String bs EmptyString)
  else if (n =? 10)%nat then String bs "n"
  else if (n =? 13)%nat then String bs "r"
  else if (n =? 9)%nat then String bs "t"
  else if (n =? 8)%nat then String bs "b"
  else if (n =? 12)%nat then String bs "f"
  else if ((32 <=? n) && (n <=? 126))%nat then String c EmptyString
  else String bs ("u00" ++ String (hex_digit (n / 16))
                              (String (hex_digit (n mod 16)) EmptyString)).

Fixpoint escape (s : string) : string :=
  match s with
  | EmptyString => EmptyString
  | String c s' => escape_char c ++ escape s'
  end.

Definition encode_str (s : string) : string :=
  String quote_char (escape s ++ String quote_char EmptyString).

Fixpoint spaces (n : nat) : string :=
  match n with
  | O => EmptyString
  | S n' => String " " (spaces n')
  end.

(** Line break followed by the indentation of nesting level [lvl]. *)
Definition break (lvl : nat) : string := newline ++ spaces (2 * lvl).

Fixpoint dumps_at (lvl : nat) (v : value) : string :=
  match v with
  | JStr s => encode_str s
  | JBool b => if b then "true" else "false"
  | JList [] => "[]"
  | JList (x :: xs) =>
      "[" ++ break (S lvl) ++ dumps_at (S lvl) x
      ++ (fix more (l : list value) : string :=
            match l with
            | [] => EmptyString
            | y :: ys => "," ++ break (S lvl) ++ dumps_at (S lvl) y ++ more ys
            end) xs
      ++ break lvl ++ "]"
  | JDict [] => "{}"
  | JDict ((k, x) :: ms) =>
      "{" ++ break (S lvl) ++ encode_str k ++ ": " ++ dumps_at (S lvl) x
      ++ (fix more (l : list (string * value)) : string :=
            match l with
            | [] => EmptyString
            | (k', y) :: ys =>
                "," ++ break (S lvl) ++ encode_str k' ++ ": "
                ++ dumps_at (S lvl) y ++ more ys
            end) ms
      ++ break lvl ++ "}"
  end.

(** [json.dumps(v, indent=2)] *)
Definition dumps (v : value) : string := dumps_at 0 v.

End Json.

(** ** Exceptions *)

Inductive exn : Type :=
| ValueError (msg : string)
| UnicodeDecodeError
| IsADirectoryError
| OverflowError
| TypeError
| FileNotFoundError.

Inductive outcome (A : Type) : Type :=
| Return (a : A)
| Raise (e : exn).
Arguments Return {A} a.
Arguments Raise {A} e.

Definition succeeds {A : Type} (o : outcome A) : bool :=
match o with Return _ => true | Raise _ => false end.

(** ** chapter03/resource-server/python/server.py *)

Module ResourceServer.
Import PyStr.

Record Resource : Type := mkResource
  { uri : string; name : string; mimeType : string; description : string }.

Record ResourceTemplate : Type := mkResourceTemplate
  { uriTemplate : string; t_name : string; t_mimeType : string;
    t_description : string }.

Inductive Content : Type :=
| TextContent (text : string).

Record ReadResourceResult : Type := mkReadResourceResult
  { contents : list Content }.

Definition list_resources : list Resource :=
  [ mkResource "docs://company/handbook" "Company Handbook" "text/markdown"
      "The company handbook with policies and guidelines";
    mkResource "docs://company/coding-standards" "Coding Standards"
      "text/markdown" "The coding standards and best practices guide";
    mkResource "docs://api/endpoints" "API Endpoints" "application/json"
      "Documentation of available API endpoints" ].

Definition list_resource_templates : list ResourceTemplate :=
  [ mkResourceTemplate "config://user/{userId}/preferences"
      "User Preferences" "application/json"
      "User-specific preferences and settings";
    mkResourceTemplate "config://project/{projectId}/settings"
      "Project Settings" "application/json"
      "Project-specific configuration and settings" ].

Definition handbook_text : string :=
"# Company Handbook

## Mission Statement
We build tools that empower developers to create better software.

## Core Values
- **Quality**: We ship code we're proud of
- **Collaboration**: We succeed as a team
- **Transparency**: We communicate openly and honestly
- **Growth**: We continuously learn and improve

## Policies

### Remote Work
All team members may work remotely. Core hours are 10am-3pm in your local timezone.

### Code Review
All code changes require at least one approving review before merge.

### On-Call
Engineering teams rotate on-call responsibilities weekly.
".

Definition coding_standards_text : string :=
"# Coding Standards

## General Principles
- Write self-documenting code with clear naming
- Keep functions small and focused (< 20 lines preferred)
- Prefer composition over inheritance

## C# Specific
- Use `var` when the type is obvious from the right side
- Prefer `async/await` over raw `Task` continuations
- Use records for immutable data types
- Enable nullable reference types in all projects

## Testing
- Aim for 80%+ code coverage on business logic
- Use descriptive test names: `MethodName_Scenario_ExpectedResult`
- Mock external dependencies, not internal classes
".

Definition endpoint (path description : string) : Json.value :=
  Json.JDict [ ("path", Json.JStr path); ("method", Json.JStr "GET");
               ("description", Json.JStr description);
               ("auth", Json.JStr "required") ].

Definition api_docs : Json.value :=
  Json.JDict
    [ ("endpoints",
       Json.JList [ endpoint "/api/users" "List all users";
                    endpoint "/api/users/{id}" "Get user by ID";
                    endpoint "/api/projects" "List all projects" ]) ].

Definition get_user_preferences (user_id : string) : list (string * Json.value) :=
  let user_id_lower := lower user_id in
  if String.eqb user_id_lower "alice" then
    [ ("theme", Json.JStr "dark"); ("language", Json.JStr "en");
      ("notifications", Json.JBool true);
      ("timezone", Json.JStr "America/New_York") ]
  else if String.eqb user_id_lower "bob" then
    [ ("theme", Json.JStr "light"); ("language", Json.JStr "es");
      ("notifications", Json.JBool false);
      ("timezone", Json.JStr "Europe/Madrid") ]
  else
    [ ("theme", Json.JStr "system"); ("language", Json.JStr "en");
      ("notifications", Json.JBool true); ("timezone", Json.JStr "UTC") ].

Definition get_project_settings (project_id : string) : list (string * Json.value) :=
  let project_id_lower := lower project_id in
  if String.eqb project_id_lower "frontend" then
    [ ("framework", Json.JStr "React"); ("buildTool", Json.JStr "Vite");
      ("testRunner", Json.JStr "Vitest"); ("linter", Json.JStr "ESLint");
      ("deployTarget", Json.JStr "Vercel") ]
  else if String.eqb project_id_lower "backend" then
    [ ("framework", Json.JStr "ASP.NET Core");
      ("database", Json.JStr "PostgreSQL"); ("cache", Json.JStr "Redis");
      ("testRunner", Json.JStr "xUnit"); ("deployTarget", Json.JStr "Azure") ]
  else if String.eqb project_id_lower "mobile" then
    [ ("framework", Json.JStr "MAUI");
      ("platforms", Json.JList [Json.JStr "iOS"; Json.JStr "Android"]);
      ("testRunner", Json.JStr "NUnit");
      ("deployTarget", Json.JStr "App Store / Play Store") ]
  else
    [ ("framework", Json.JStr "Unknown");
      ("note", Json.JStr ("No configuration found for project '"
                          ++ project_id ++ "'")) ].

Definition text_result (text : string) : outcome ReadResourceResult :=
  Return (mkReadResourceResult [TextContent text]).

Definition not_found (uri : string) : outcome ReadResourceResult :=
  Raise (ValueError ("Resource not found: " ++ uri)).

Definition read_resource (uri : string) : outcome ReadResourceResult :=
  if String.eqb uri "docs://company/handbook" then
    text_result handbook_text
  else if String.eqb uri "docs://company/coding-standards" then
    text_result coding_standards_text
  else if String.eqb uri "docs://api/endpoints" then
    text_result (Json.dumps api_docs)
  else if startswith uri "config://user/" && endswith uri "/preferences" then
    let parts := split uri "/" in
    if (4 <=? List.length parts)%nat then
      let user_id := nth 3 parts EmptyString in
      let preferences := get_user_preferences user_id in
      text_result (Json.dumps (Json.JDict preferences))
    else not_found uri
  else if startswith uri "config://project/" && endswith uri "/settings" then
    let parts := split uri "/" in
    if (4 <=? List.length parts)%nat then
      let project_id := nth 3 parts EmptyString in
      let settings := get_project_settings project_id in
      text_result (Json.dumps (Json.JDict settings))
    else not_found uri
  else not_found uri.

(** A session of the server: the requests the transport delivers, each
    answered by its handler.  The module keeps no variable between calls,
    so a handler gets its request and nothing else. *)
Inductive Request : Type :=
| ListResources
| ListResourceTemplates
| ReadResource (uri : string).

Inductive Response : Type :=
| Resources (rs : list Resource)
| Templates (ts : list ResourceTemplate)
| Read (r : outcome ReadResourceResult).

Definition handle (q : Request) : Response :=
  match q with
  | ListResources => Resources list_resources
  | ListResourceTemplates => Templates list_resource_templates
  | ReadResource u => Read (read_resource u)
  end.

Definition serve (session : list Request) : list Response :=
  map handle session.

End ResourceServer.

(** ** chapter03/filesystem-server/python/server.py *)

Module FilesystemServer.
Import PyStr.

(** *** The file system and [pathlib] paths

    A POSIX file system without symbolic links: a tree of directories whose
    leaves are files holding bytes. *)

Definition os_sep : ascii := "/"%char.

Inductive node : Type :=
| File (data : list byte)
| Dir (entries : list (string * node)).

Fixpoint find_entry (name : string) (entries : list (string * node)) : option node :=
  match entries with
  | [] => None
  | (k, n) :: rest => if String.eqb k name then Some n else find_entry name rest
  end.

(** The node reached from [n] through the names [parts]. *)
Fixpoint lookup (n : node) (parts : list string) : option node :=
  match parts with
  | [] => Some n
  | p :: ps =>
      match n with
      | Dir entries =>
          match find_entry p entries with
          | Some c => lookup c ps
          | None => None
          end
      | File _ => None
      end
  end.

(** A name a directory entry can have. *)
Definition valid_name (s : string) : bool :=
  negb (String.eqb s EmptyString) && negb (String.eqb s ".")
  && negb (String.eqb s "..") && negb (contains "/" s)
  && negb (contains (ascii_of_nat 0) s).

Fixpoint names_distinct (names : list string) : bool :=
  match names with
  | [] => true
  | k :: rest => negb (existsb (String.eqb k) rest) && names_distinct rest
  end.

(** Every directory holds valid names, each one once, and the size of a
    file fits the signed 64 bits of [st_size]. *)
Fixpoint wf_node (n : node) : bool :=
  match n with
  | File data => (Z.of_nat (List.length data) <? 2 ^ 63)%Z
  | Dir entries =>
      names_distinct (map fst entries)
      && (fix each (l : list (string * node)) : bool :=
            match l with
            | [] => true
            | (k, c) :: rest => valid_name k && wf_node c && each rest
            end) entries
  end.

(** A [PurePosixPath]: whether it starts at the root, and its components.
    Components are never empty nor ["."]; [".."] is kept.  (A root written
    with two slashes is taken as the root; [resolve] makes it so.) *)
Record Path : Type := mkPath { absolute : bool; parts : list string }.

Definition is_component (s : string) : bool :=
  negb (String.eqb s EmptyString) && negb (String.eqb s ".").

(** [Path(s)] *)
Definition parse_path (s : string) : Path :=
  mkPath (startswith s "/") (filter is_component (split s "/")).

(** [p / q] *)
Definition truediv (p q : Path) : Path :=
  if absolute q then q else mkPath (absolute p) (parts p ++ parts q)%list.

(** [str(p)] *)
Definition str_path (p : Path) : string :=
  if absolute p then "/" ++ join "/" (parts p)
  else match parts p with
       | [] => "."
       | _ => join "/" (parts p)
       end.

(** [p.name] *)
Definition path_name (p : Path) : string := last (parts p) EmptyString.

(** [s.rfind(c)], [None] for -1 *)
Fixpoint rfind (c : ascii) (s : string) : option nat :=
  match s with
  | EmptyString => None
  | String d s' =>
      match rfind c s' with
      | Some i => Some (S i)
      | None => if Ascii.eqb d c then Some 0 else None
      end
  end.

(** [p.suffix] of a path whose name is [name]: the part from the last dot,
    unless that dot starts or ends the name. *)
Definition suffix (name : string) : string :=
  match rfind "." name with
  | Some i => if (0 <? i) && (i <? String.length name - 1) then drop i name
              else EmptyString
  | None => EmptyString
  end.

(** Canonical form without symbolic links: [".."] removes the component
    before it and is dropped at the root.  [acc] is the path walked so far,
    last component first. *)
Fixpoint walk_up (acc : list string) (ps : list string) : list string :=
  match ps with
  | [] => rev acc
  | p :: ps' =>
      if String.eqb p ".." then walk_up (tl acc) ps' else walk_up (p :: acc) ps'
  end.

(** The path the operating system reaches: as [walk_up], but every
    component is entered from a directory that exists. *)
Fixpoint os_walk (root : node) (acc : list string) (ps : list string) : option (list string) :=
  match ps with
  | [] => Some (rev acc)
  | p :: ps' =>
      match lookup root (rev acc) with
      | Some (Dir _) =>
          if String.eqb p ".." then os_walk root (tl acc) ps'
          else os_walk root (p :: acc) ps'
      | _ => None
      end
  end.

(** The process: the file system from its root, the working directory
    (canonical) and the module's global [RESOURCE_FOLDER]. *)
Record World : Type := mkWorld
  { fs : node; cwd : list string; RESOURCE_FOLDER : option Path }.

Definition start (w : World) (p : Path) : list string :=
  if absolute p then [] else rev (cwd w).

(** A component of a path given to the program. *)
Definition path_component (s : string) : bool :=
  is_component s && negb (contains "/" s)
  && negb (contains (ascii_of_nat 0) s).

(** The worlds the server runs in. *)
Definition wf_world (w : World) : bool :=
  wf_node (fs w) && forallb valid_name (cwd w)
  && match RESOURCE_FOLDER w with
     | Some folder => forallb path_component (parts folder)
     | None => true
     end.

(** [p.resolve()]: without symbolic links, the canonical form of the
    absolute path *)
Definition resolve (w : World) (p : Path) : Path :=
  mkPath true (walk_up (start w p) (parts p)).

(** The canonical path of a folder. *)
Definition canonical (w : World) (folder : Path) : list string :=
  walk_up (start w folder) (parts folder).

(** The node a path names, if any. *)
Definition node_at (w : World) (p : Path) : option node :=
  match os_walk (fs w) (start w p) (parts p) with
  | Some reached => lookup (fs w) reached
  | None => None
  end.

(** [p.exists()], for a path within the limits of the system on the
    length of names and paths *)
Definition exists_ (w : World) (p : Path) : bool :=
  match node_at w p with Some _ => true | None => false end.


(** [Path.rglob("*")] from a directory: every entry below it, with its
    path relative to the directory.  The order is the directory order and
    nothing below depends on it. *)
Fixpoint rglob (n : node) : list (list string * node) :=
  match n with
  | File _ => []
  | Dir entries =>
      (fix each (l : list (string * node)) : list (list string * node) :=
         match l with
         | [] => []
         | (k, c) :: rest =>
             (([k], c) :: map (fun x => (k :: fst x, snd x)) (rglob c)
              ++ each rest)%list
         end) entries
  end.

(** *** MIME types *)

Definition mime_types : list (string * string) :=
  [ (* Text types *)
    (".txt", "text/plain");
    (".md", "text/markdown");
    (".html", "text/html");
    (".htm", "text/html");
    (".css", "text/css");
    (".csv", "text/csv");
    (".xml", "text/xml");
    (* Application types *)
    (".json", "application/json");
    (".js", "application/javascript");
    (".pdf", "application/pdf");
    (".zip", "application/zip");
    (* Image types *)
    (".png", "image/png");
    (".jpg", "image/jpeg");
    (".jpeg", "image/jpeg");
    (".gif", "image/gif");
    (".svg", "image/svg+xml");
    (".ico", "image/x-icon");
    (".webp", "image/webp");
    (".bmp", "image/bmp");
    (* Code types (treat as text) *)
    (".cs", "text/x-csharp");
    (".py", "text/x-python");
    (".ts", "text/typescript");
    (".rs", "text/x-rust");
    (".go", "text/x-go");
    (".java", "text/x-java");
    (".cpp", "text/x-c++");
    (".cc", "text/x-c++");
    (".cxx", "text/x-c++");
    (".c", "text/x-c");
    (".h", "text/x-c");
    (".sh", "text/x-shellscript");
    (".yaml", "text/yaml");
    (".yml", "text/yaml") ].

Fixpoint assoc (key : string) (table : list (string * string)) : option string :=
  match table with
  | [] => None
  | (k, v) :: rest => if String.eqb k key then Some v else assoc key rest
  end.

Definition get_mime_type (file_path : string) : string :=
  let ext := lower (suffix (path_name (parse_path file_path))) in
  match assoc ext mime_types with
  | Some m => m
  | None => "application/octet-stream"
  end.

Definition is_text_mime_type (mime_type : string) : bool :=
  startswith mime_type "text/"
  || String.eqb mime_type "application/json"
  || String.eqb mime_type "application/javascript"
  || String.eqb mime_type "image/svg+xml".

(** *** File sizes

    [float(size)] is the double nearest to [size], ties to even, and
    raises [OverflowError] when that is no finite double.  A double that
    comes from an integer and is divided by 1024 while it is at least 1024
    is divided exactly, so the values of [size_float] are kept as exact
    rationals. *)

Definition nearest_double (n : Z) : option Z :=
  let e := (Z.log2 n - 52)%Z in
  if (e <=? 0)%Z then Some n
  else
    let ulp := (2 ^ e)%Z in
    let q := (n / ulp)%Z in
    let r := (n mod ulp)%Z in
    let half := (ulp / 2)%Z in
    let q' := if (r <? half)%Z then q
              else if (half <? r)%Z then (q + 1)%Z
              else if Z.even q then q else (q + 1)%Z in
    let v := (q' * ulp)%Z in
    if (2 ^ 1024 <=? v)%Z then None else Some v.

Definition float_of_int (n : Z) : outcome Q :=
  match (if (n <? 0)%Z then option_map Z.opp (nearest_double (- n))
         else nearest_double n) with
  | Some v => Return (inject_Z v)
  | None => Raise OverflowError
  end.

Definition suffixes : list string := ["B"; "KB"; "MB"; "GB"].

(** Nearest integer to [n / d], ties to even ([0 < d]). *)
Definition round_half_even (n d : Z) : Z :=
  let q := (n / d)%Z in
  let r := (n mod d)%Z in
  if (2 * r <? d)%Z then q
  else if (d <? 2 * r)%Z then (q + 1)%Z
  else if Z.even q then q else (q + 1)%Z.

Definition decimal (z : Z) : string :=
  NilZero.string_of_uint (N.to_uint (Z.to_N z)).

(** [f"{x:.1f}"] *)
Definition format_1f (x : Q) : string :=
  let tenths := round_half_even (10 * Z.abs (Qnum x)) (Zpos (Qden x)) in
  (if (Qnum x <? 0)%Z then "-" else EmptyString)
  ++ decimal (tenths / 10) ++ "." ++ decimal (tenths mod 10).

(** The [while] loop; [left] counts the suffixes after [suffixes[counter]],
    so [left] is [0] exactly when [counter < len(suffixes) - 1] fails. *)
Fixpoint scale (left : nat) (size_float : Q) (counter : nat) : Q * nat :=
  match left with
  | O => (size_float, counter)
  | S left' =>
      if Qle_bool (inject_Z 1024) size_float
      then scale left' (Qdiv size_float (inject_Z 1024)) (S counter)
      else (size_float, counter)
  end.

Definition format_file_size (size : Z) : outcome string :=
  match float_of_int size with
  | Raise e => Raise e
  | Return size_float =>
      let (x, counter) := scale (List.length suffixes - 1) size_float 0 in
      Return (format_1f x ++ " " ++ nth counter suffixes EmptyString)
  end.

(** *** Text and binary content *)

(** A decoded text: its code points. *)
Definition text := list N.

Definition is_continuation (b : byte) : bool :=
  let n := Byte.to_N b in ((128 <=? n) && (n <=? 191))%N.

Definition low6 (b : byte) : N := (Byte.to_N b mod 64)%N.

(** [bytes.decode("utf-8")] with strict errors: shortest forms only, no
    surrogates, nothing above U+10FFFF.  [None] is [UnicodeDecodeError]. *)
Fixpoint utf8_decode (bs : list byte) : option text :=
  match bs with
  | [] => Some []
  | b0 :: rest =>
      let n0 := Byte.to_N b0 in
      if (n0 <? 128)%N then option_map (cons n0) (utf8_decode rest)
      else if (n0 <? 194)%N then None
      else if (n0 <? 224)%N then
        match rest with
        | b1 :: rest1 =>
            if is_continuation b1
            then option_map (cons ((n0 mod 32) * 64 + low6 b1)%N)
                            (utf8_decode rest1)
            else None
        | _ => None
        end
      else if (n0 <? 240)%N then
        match rest with
        | b1 :: b2 :: rest2 =>
            let cp := ((n0 mod 16) * 4096 + low6 b1 * 64 + low6 b2)%N in
            if is_continuation b1 && is_continuation b2
               && (2048 <=? cp)%N && negb ((55296 <=? cp) && (cp <=? 57343))%N
            then option_map (cons cp) (utf8_decode rest2)
            else None
        | _ => None
        end
      else if (n0 <? 245)%N then
        match rest with
        | b1 :: b2 :: b3 :: rest3 =>
            let cp := ((n0 mod 8) * 262144 + low6 b1 * 4096
                       + low6 b2 * 64 + low6 b3)%N in
            if is_continuation b1 && is_continuation b2 && is_continuation b3
               && (65536 <=? cp)%N && (cp <=? 1114111)%N
            then option_map (cons cp) (utf8_decode rest3)
            else None
        | _ => None
        end
      else None
  end.

(** Reading in text mode with [newline=None]: a carriage return, with the
    line feed after it if there is one, is read as one line feed. *)
Fixpoint universal_newlines (t : text) : text :=
  match t with
  | [] => []
  | c :: rest =>
      if (c =? 13)%N then
        match rest with
        | d :: rest' =>
            if (d =? 10)%N then (10 :: universal_newlines rest')%N
            else (10 :: universal_newlines rest)%N
        | [] => [10%N]
        end
      else c :: universal_newlines rest
  end.

(** [base64.b64encode] and [base64.b64decode] (RFC 4648, with padding). *)
Definition b64_char (n : N) : ascii :=
  (if n <? 26 then ascii_of_N (65 + n)
   else if n <? 52 then ascii_of_N (71 + n)
   else if n <? 62 then ascii_of_N (n - 4)
   else if n =? 62 then "+"%char else "/"%char)%N.

Definition b64_index (c : ascii) : option N :=
  let n := N_of_ascii c in
  (if (65 <=? n) && (n <=? 90) then Some (n - 65)
   else if (97 <=? n) && (n <=? 122) then Some (n - 71)
   else if (48 <=? n) && (n <=? 57) then Some (n + 4)
   else if n =? 43 then Some 62
   else if n =? 47 then Some 63
   else None)%N.

(** The [k]-th of the four 6-bit groups of a 24-bit number. *)
Definition b64_quad (n : N) (k : N) : ascii :=
  b64_char ((n / 64 ^ (3 - k)) mod 64)%N.

Fixpoint b64encode (data : list byte) : string :=
  match data with
  | [] => EmptyString
  | [a] =>
      let n := (Byte.to_N a * 65536)%N in
      String (b64_quad n 0) (String (b64_quad n 1) "==")
  | [a; b] =>
      let n := (Byte.to_N a * 65536 + Byte.to_N b * 256)%N in
      String (b64_quad n 0) (String (b64_quad n 1) (String (b64_quad n 2) "="))
  | a :: b :: c :: rest =>
      let n := (Byte.to_N a * 65536 + Byte.to_N b * 256 + Byte.to_N c)%N in
      String (b64_quad n 0) (String (b64_quad n 1)
        (String (b64_quad n 2) (String (b64_quad n 3) (b64encode rest))))
  end.

(** The first [count] of the three bytes of a 24-bit number. *)
Definition bytes_of (n : N) (count : nat) : option (list byte) :=
  match Byte.of_N (n / 65536), Byte.of_N ((n / 256) mod 256),
        Byte.of_N (n mod 256) with
  | Some a, Some b, Some c => Some (firstn count [a; b; c])
  | _, _, _ => None
  end.

Fixpoint b64decode (s : string) : option (list byte) :=
  match s with
  | EmptyString => Some []
  | String c0 (String c1 (String c2 (String c3 rest))) =>
      match b64_index c0, b64_index c1 with
      | Some i0, Some i1 =>
          let hi := (i0 * 262144 + i1 * 4096)%N in
          match b64_index c2, b64_index c3 with
          | Some i2, Some i3 =>
              match bytes_of (hi + i2 * 64 + i3) 3, b64decode rest with
              | Some l, Some more => Some (l ++ more)%list
              | _, _ => None
              end
          | Some i2, None =>
              if Ascii.eqb c3 "=" && String.eqb rest EmptyString
              then bytes_of (hi + i2 * 64) 2 else None
          | None, _ =>
              if Ascii.eqb c2 "=" && Ascii.eqb c3 "="
                 && String.eqb rest EmptyString
              then bytes_of hi 1 else None
          end
      | _, _ => None
      end
  | _ => None
  end.

(** *** The handlers *)

Record Resource : Type := mkResource
  { uri : string; name : string; mimeType : string; description : string }.

Inductive Content : Type :=
| TextContent (text_ : text)
| BlobContent (blob : string) (mimeType_ : string).

Record ReadResourceResult : Type := mkReadResourceResult
  { contents : list Content }.

Definition prefix : string := "file://resources/".

(** The body of the [for] loop of [list_resources] for a file of content
    [data]; [relative_path] is [file_path.relative_to(RESOURCE_FOLDER)]. *)
Definition resource_of (folder : Path) (relative_path : list string) (data : list byte) : outcome Resource :=
  let file_path := truediv folder (mkPath false relative_path) in
  let uri_path := replace (str_path (mkPath false relative_path)) os_sep "/" in
  let uri := prefix ++ uri_path in
  let mime_type := get_mime_type (str_path file_path) in
  let file_size := Z.of_nat (List.length data) in
  match format_file_size file_size with
  | Raise e => Raise e
  | Return size =>
      Return (mkResource uri (path_name file_path) mime_type
                ("File: " ++ str_path (mkPath false relative_path)
                 ++ " (" ++ size ++ ")"))
  end.

(** The [for] loop over what [rglob] has found; only files get a
    resource. *)
Fixpoint collect (folder : Path) (found : list (list string * node)) : outcome (list Resource) :=
  match found with
  | [] => Return []
  | (relative_path, n) :: rest =>
      match n with
      | File data =>
          match resource_of folder relative_path data with
          | Raise e => Raise e
          | Return r =>
              match collect folder rest with
              | Raise e => Raise e
              | Return resources => Return (r :: resources)
              end
          end
      | Dir _ => collect folder rest
      end
  end.

Definition list_resources (w : World) : outcome (list Resource) :=
  match RESOURCE_FOLDER w with
  | None => Return []
  | Some folder =>
      match node_at w folder with
      | Some n => collect folder (rglob n)
      | None => Return []
      end
  end.

(** [p.read_bytes()] and [p.read_text(encoding="utf-8")] *)
Definition read_bytes (w : World) (p : Path) : outcome (list byte) :=
  match node_at w p with
  | Some (File data) => Return data
  | Some (Dir _) => Raise IsADirectoryError
  | None => Raise FileNotFoundError
  end.

Definition read_text (w : World) (p : Path) : outcome text :=
  match read_bytes w p with
  | Return data =>
      match utf8_decode data with
      | Some t => Return (universal_newlines t)
      | None => Raise UnicodeDecodeError
      end
  | Raise e => Raise e
  end.

Definition denied : string := "Access denied: path traversal attempt".

Definition read_resource (w : World) (uri : string) : outcome ReadResourceResult :=
  if String.eqb uri EmptyString then Raise (ValueError "Missing URI parameter")
  else if negb (startswith uri prefix) then
    Raise (ValueError ("Invalid URI format: " ++ uri))
  else
    let relative_path := drop (String.length prefix) uri in
    match RESOURCE_FOLDER w with
    | None => Raise TypeError
    | Some folder =>
        let file_path :=
          truediv folder (parse_path (replace relative_path "/" os_sep)) in
        (* try: *)
        if contains (ascii_of_nat 0) relative_path then
          (* resolve() raises ValueError, which the except clause wraps *)
          Raise (ValueError "Invalid path: embedded null byte")
        else
          let file_path := resolve w file_path in
          let resource_folder_resolved := resolve w folder in
          if negb (startswith (str_path file_path)
                              (str_path resource_folder_resolved))
          then Raise (ValueError ("Invalid path: " ++ denied))
          else if negb (exists_ w file_path) then
            Raise (ValueError ("Resource not found: " ++ uri))
          else
            let mime_type := get_mime_type (str_path file_path) in
            if is_text_mime_type mime_type then
              match read_text w file_path with
              | Raise e => Raise e
              | Return t => Return (mkReadResourceResult [TextContent t])
              end
            else
              match read_bytes w file_path with
              | Raise e => Raise e
              | Return data =>
                  let blob := b64encode data in
                  Return (mkReadResourceResult [BlobContent blob mime_type])
              end
    end.

(** *** The seed files of [create_sample_files] *)

Definition requote (s : string) : string :=
  string_of_list_ascii
    (map (fun c => if Ascii.eqb c "'" then quote_char else c)
         (list_ascii_of_string s)).

Definition readme_text : string :=
"# Sample Resources

This folder contains sample resources for the FileSystem Resource Server demo.

## Contents
- readme.md (this file)
- config.json (sample configuration)
- notes.txt (plain text notes)
- logo.png (sample image - demonstrates binary resources)
".

Definition config_text : string :=
requote "{
  'appName': 'FileSystem Resource Server Demo',
  'version': '1.0.0',
  'settings': {
    'maxFileSize': '10MB',
    'allowedExtensions': ['.txt', '.md', '.json', '.png', '.jpg'],
    'cacheEnabled': true
  }
}
".

Definition notes_text : string :=
"Development Notes
==================

This server demonstrates dynamic resource loading from a filesystem.

Key features:
- Files are discovered dynamically (no hardcoded list)
- Binary files (images) are served as base64-encoded blobs
- Text files are served as plain text
- MIME types are inferred from file extensions

Try adding more files to this folder and they'll appear automatically!
".

Definition minimal_png : list byte :=
  [ x89; x50; x4e; x47; x0d; x0a; x1a; x0a;
    x00; x00; x00; x0d;
    x49; x48; x44; x52;
    x00; x00; x00; x01;
    x00; x00; x00; x01;
    x08; x02;
    x00; x00; x00;
    x90; x77; x53; xde;
    x00; x00; x00; x0c;
    x49; x44; x41; x54;
    x08; xd7; x63; xf8; xcf; xc0; x00; x00;
    x01; x01; x01; x00;
    x1b; xb6; xee; x56;
    x00; x00; x00; x00;
    x49; x45; x4e; x44;
    xae; x42; x60; x82 ].

(** [create_sample_files(folder)] on the empty folder [main] has just
    made: the entries it leaves there. *)
Definition create_sample_files : list (string * node) :=
  [ ("readme.md", File (list_byte_of_string readme_text));
    ("config.json", File (list_byte_of_string config_text));
    ("notes.txt", File (list_byte_of_string notes_text));
    ("logo.png", File minimal_png) ].

End FilesystemServer.

(** ** Notions of the specification *)

Module Spec.
Import PyStr.

(** The URI of a template instance. *)
Definition user_uri (id : string) : string :=
  "config://user/" ++ id ++ "/preferences".

Definition project_uri (id : string) : string :=
  "config://project/" ++ id ++ "/settings".

(** The two template shapes: a literal before the identifier, a literal
    after it, and at least four pieces between slashes. *)
Definition user_shape (uri : string) : bool :=
  startswith uri "config://user/" && endswith uri "/preferences"
  && (4 <=? List.length (split uri "/")).

Definition project_shape (uri : string) : bool :=
  startswith uri "config://project/" && endswith uri "/settings"
  && (4 <=? List.length (split uri "/")).

Definition is_static (uri : string) : bool :=
  existsb (String.eqb uri) (map ResourceServer.uri ResourceServer.list_resources).


Definition recognised_user (id : string) : bool :=
  String.eqb (lower id) "alice" || String.eqb (lower id) "bob".

Definition recognised_project (id : string) : bool :=
  String.eqb (lower id) "frontend" || String.eqb (lower id) "backend"
  || String.eqb (lower id) "mobile".

(** The fallback preferences of a user nobody knows. *)
Definition default_preferences : list (string * Json.value) :=
  [ ("theme", Json.JStr "system"); ("language", Json.JStr "en");
    ("notifications", Json.JBool true); ("timezone", Json.JStr "UTC") ].

(** The MIME type the extension table gives a file name. *)
Definition mime_of_name (name : string) : string :=
  match FilesystemServer.assoc (lower (FilesystemServer.suffix name))
          FilesystemServer.mime_types with
  | Some m => m
  | None => "application/octet-stream"
  end.

(** The URI of the file at [relative_path] below the resource folder. *)
Definition uri_of (relative_path : list string) : string :=
  FilesystemServer.prefix ++ join "/" relative_path.

Definition same_path (a b : list string) : bool :=
  if list_eq_dec string_dec a b then true else false.

(** Whether a canonical path is the folder or lies below it, component by
    component. *)
Definition under (folder path : list string) : bool :=
  same_path (firstn (List.length folder) path) folder.

(** How often a value is divided by 1024: once per power of 1024 it
    reaches, three times at most. *)
Definition steps (v : Z) : nat :=
  if (v <? 1024)%Z then 0
  else if (v <? 1024 ^ 2)%Z then 1
  else if (v <? 1024 ^ 3)%Z then 2
  else 3.

(** The text of a size whose double is [v]: [v] over [1024 ^ steps v],
    rounded to tenths, ties to even, then the unit. *)
Definition size_text (v : Z) : string :=
  let tenths :=
    FilesystemServer.round_half_even (10 * v) (1024 ^ Z.of_nat (steps v)) in
  FilesystemServer.decimal (tenths / 10) ++ "."
  ++ FilesystemServer.decimal (tenths mod 10)
  ++ " " ++ nth (steps v) FilesystemServer.suffixes EmptyString.

(** What [read_resource] makes of the bytes of a file, by MIME type. *)
Definition content_of (mime_type : string) (data : list byte)
  : outcome FilesystemServer.ReadResourceResult :=
  if FilesystemServer.is_text_mime_type mime_type then
    match FilesystemServer.utf8_decode data with
    | Some t =>
        Return (FilesystemServer.mkReadResourceResult
                  [FilesystemServer.TextContent
                     (FilesystemServer.universal_newlines t)])
    | None => Raise UnicodeDecodeError
    end
  else
    Return (FilesystemServer.mkReadResourceResult
              [FilesystemServer.BlobContent
                 (FilesystemServer.b64encode data) mime_type]).

(** The resource the listing has for the file of [size] bytes at
    [relative_path]; [v] is the double of [size]. *)
Definition listed (relative_path : list string) (v : Z)
  : FilesystemServer.Resource :=
  FilesystemServer.mkResource
    (uri_of relative_path) (last relative_path EmptyString)
    (mime_of_name (last relative_path EmptyString))
    ("File: " ++ join "/" relative_path ++ " (" ++ size_text v ++ ")").

End Spec.


(** ** Sample worlds *)

Module Examples.
Import FilesystemServer.

(** The server started in [/srv] on the folder [/srv/root], which holds the
    seed files; next to the folder there is a directory [root-evil]. *)
Definition sample_world : World :=
  mkWorld
    (Dir [ ("etc", Dir [("passwd", File (list_byte_of_string "root:x:0:0"))]);
           ("srv",
            Dir [ ("root", Dir create_sample_files);
                  ("root-evil",
                   Dir [("secret.txt",
                         File (list_byte_of_string "top secret"))]) ]) ])
    ["srv"]
    (Some (parse_path "/srv/root")).

(** What the server lists there. *)
Definition sample_listing : list Resource :=
  [ mkResource "file://resources/readme.md" "readme.md" "text/markdown"
      "File: readme.md (262.0 B)";
    mkResource "file://resources/config.json" "config.json"
      "application/json" "File: config.json (213.0 B)";
    mkResource "file://resources/notes.txt" "notes.txt" "text/plain"
      "File: notes.txt (393.0 B)";
    mkResource "file://resources/logo.png" "logo.png" "image/png"
      "File: logo.png (69.0 B)" ].

(** A folder [data], given by a relative path, with files that are not
    UTF-8 or have other line ends: a Latin-1 text, a UTF-16 table, a text
    with carriage returns, and raw bytes in a sub-directory. *)
Definition mixed_world : World :=
  mkWorld
    (Dir [ ("home",
            Dir [ ("data",
                   Dir [ ("legacy.txt", File [x63; x61; x66; xe9]);
                         ("export.csv", File [xff; xfe; x61; x00]);
                         ("windows.txt", File [x61; x0d; x0a; x62; x0d]);
                         ("raw", Dir [("dump.bin", File [x00; xff; x10])]) ])
                ]) ])
    ["home"]
    (Some (parse_path "./data")).

End Examples.

(** ** Notions of the further properties *)

Module Props.
Import PyStr.

(** Bytes of plain ASCII text without carriage returns. *)
Definition plain_ascii (data : list byte) : bool :=
  forallb (fun b => (Byte.to_N b <? 128)%N && negb (Byte.to_N b =? 13)%N) data.

(** The URI a client makes of a template: the placeholder, from the
    opening to the closing brace, replaced by [value]. *)
Fixpoint after_brace (template : string) : string :=
  match template with
  | EmptyString => EmptyString
  | String c rest => if Ascii.eqb c "}" then rest else after_brace rest
  end.

Fixpoint fill (template value : string) : string :=
  match template with
  | EmptyString => EmptyString
  | String c rest =>
      if Ascii.eqb c "{" then value ++ after_brace rest
      else String c (fill rest value)
  end.

(** The piece of an identifier before its first slash. *)
Definition first_piece (id : string) : string :=
  hd EmptyString (split id "/").



End Props.

Module MoreExamples.
Import FilesystemServer.

(** A project checkout served from [/work/app]: files without extension,
    a dot file, upper-case names and a nested folder. *)
Definition checkout_world : World :=
  mkWorld
    (Dir [ ("work",
            Dir [ ("app",
                   Dir [ ("README", File (list_byte_of_string "read me"));
                         (".env", File (list_byte_of_string "KEY=1"));
                         ("LOGO.PNG", File minimal_png);
                         ("src",
                          Dir [("Main.PY",
                                File (list_byte_of_string "print(1)"))]) ])
                ]) ])
    []
    (Some (parse_path "/work/app")).

Definition checkout_folder : node :=
  Dir [ ("README", File (list_byte_of_string "read me"));
        (".env", File (list_byte_of_string "KEY=1"));
        ("LOGO.PNG", File minimal_png);
        ("src", Dir [("Main.PY", File (list_byte_of_string "print(1)"))]) ].

End MoreExamples.

(** ** Start of the file system server: [main] and [create_sample_files]

    The calls that change the file system, in the same world as before.
    The errors of the operating system are their [errno]: [ENOENT] is
    [FileNotFoundError], [ENOTDIR] is [NotADirectoryError], [EEXIST] is
    [FileExistsError] and [EISDIR] is [IsADirectoryError]. *)

Module Bootstrap.
Import PyStr FilesystemServer.

Inductive errno : Type := ENOENT | ENOTDIR | EEXIST | EISDIR.

Inductive os_outcome (A : Type) : Type :=
| Done (a : A)
| Failed (e : errno).
Arguments Done {A} a.
Arguments Failed {A} e.

(** A directory listing with [new] under [name]: in the place of the entry
    of that name, or after the last entry.  (Where a new entry stands is
    the file system's own business; what is proved about a listing is
    stated up to its order.) *)
Fixpoint set_entry (name : string) (new : node) (entries : list (string * node)) : list (string * node) :=
  match entries with
  | [] => [(name, new)]
  | (k, n) :: rest =>
      if String.eqb k name then (k, new) :: rest
      else (k, n) :: set_entry name new rest
  end.

(** The tree with [new] at [path]; the path leads through directories that
    exist, its last name need not. *)
Fixpoint put (root : node) (path : list string) (new : node) : option node :=
  match path with
  | [] => Some new
  | p :: ps =>
      match root with
      | File _ => None
      | Dir entries =>
          match ps with
          | [] => Some (Dir (set_entry p new entries))
          | _ :: _ =>
              match find_entry p entries with
              | Some c =>
                  match put c ps new with
                  | Some c' => Some (Dir (set_entry p c' entries))
                  | None => None
                  end
              | None => None
              end
          end
      end
  end.

(** The canonical path of the directory that [ps] leads to, every step
    being made from a directory. *)
Fixpoint os_enter (root : node) (acc : list string) (ps : list string) : os_outcome (list string) :=
  match lookup root (rev acc) with
  | None => Failed ENOENT
  | Some (File _) => Failed ENOTDIR
  | Some (Dir _) =>
      match ps with
      | [] => Done (rev acc)
      | p :: ps' =>
          if String.eqb p ".." then os_enter root (tl acc) ps'
          else os_enter root (p :: acc) ps'
      end
  end.

Definition with_fs (w : World) (tree : node) : World :=
  mkWorld tree (cwd w) (RESOURCE_FOLDER w).

(** [p.write_bytes(data)]: the file is made, or its content replaced. *)
Definition write_bytes (w : World) (p : Path) (data : list byte) : os_outcome World :=
  match rev (parts p) with
  | [] => Failed EISDIR
  | name :: rparent =>
      match os_enter (fs w) (start w p) (rev rparent) with
      | Failed e => Failed e
      | Done dir =>
          if String.eqb name ".." then Failed EISDIR
          else
            match lookup (fs w) (dir ++ [name]) with
            | Some (Dir _) => Failed EISDIR
            | _ =>
                match put (fs w) (dir ++ [name]) (File data) with
                | Some tree => Done (with_fs w tree)
                | None => Failed ENOENT
                end
            end
      end
  end.

(** [s.encode("utf-8")] for code points below 256 *)
Fixpoint encode (s : string) : list byte :=
  match s with
  | EmptyString => []
  | String c rest =>
      let n := N_of_ascii c in
      if (n <? 128)%N then byte_of_ascii c :: encode rest
      else
        match Byte.of_N (192 + n / 64), Byte.of_N (128 + n mod 64) with
        | Some hi, Some lo => hi :: lo :: encode rest
        | _, _ => encode rest
        end
  end.

(** [p.write_text(s)], the encoding being UTF-8 *)
Definition write_text (w : World) (p : Path) (s : string) : os_outcome World :=
  write_bytes w p (encode s).

Definition child (folder : Path) (name : string) : Path :=
  truediv folder (parse_path name).

Definition create_sample_files (w : World) (folder : Path) : os_outcome World :=
  match write_text w (child folder "readme.md") readme_text with
  | Failed e => Failed e
  | Done w1 =>
      match write_text w1 (child folder "config.json") config_text with
      | Failed e => Failed e
      | Done w2 =>
          match write_text w2 (child folder "notes.txt") notes_text with
          | Failed e => Failed e
          | Done w3 => write_bytes w3 (child folder "logo.png") minimal_png
          end
      end
  end.

(** [os.mkdir(p)] *)
Definition os_mkdir (w : World) (p : Path) : os_outcome World :=
  match rev (parts p) with
  | [] => Failed EEXIST
  | name :: rparent =>
      match os_enter (fs w) (start w p) (rev rparent) with
      | Failed e => Failed e
      | Done dir =>
          if String.eqb name ".." then Failed EEXIST
          else
            match lookup (fs w) (dir ++ [name]) with
            | Some _ => Failed EEXIST
            | None =>
                match put (fs w) (dir ++ [name]) (Dir []) with
                | Some tree => Done (with_fs w tree)
                | None => Failed ENOENT
                end
            end
      end
  end.

(** [p.is_dir()] *)
Definition is_dir (w : World) (p : Path) : bool :=
  match node_at w p with Some (Dir _) => true | _ => false end.

(** [p.mkdir(parents=False, exist_ok=exist_ok)] *)
Definition mkdir (w : World) (p : Path) (exist_ok : bool) : os_outcome World :=
  match os_mkdir w p with
  | Done w' => Done w'
  | Failed ENOENT => Failed ENOENT
  | Failed e => if exist_ok && is_dir w p then Done w else Failed e
  end.

(** [p.mkdir(parents=True, exist_ok=exist_ok)] for the path whose parts
    are [rparts], last part first: when the parent is missing it is made
    the same way, and then the directory itself. *)
Fixpoint mkdir_parents (w : World) (is_absolute : bool) (rparts : list string) (exist_ok : bool) : os_outcome World :=
  let self := mkPath is_absolute (rev rparts) in
  match os_mkdir w self with
  | Done w' => Done w'
  | Failed ENOENT =>
      match rparts with
      | [] => Failed ENOENT
      | _ :: rparent =>
          match mkdir_parents w is_absolute rparent true with
          | Failed e => Failed e
          | Done w1 => mkdir w1 self exist_ok
          end
      end
  | Failed e => if exist_ok && is_dir w self then Done w else Failed e
  end.

(** The folder [main] serves: [sys.argv[1]] if there is one, else
    [sample-resources] in the working directory. *)
Definition resource_folder (w : World) (argv : list string) : Path :=
  if 1 <? List.length argv then parse_path (nth 1 argv EmptyString)
  else truediv (mkPath true (cwd w)) (parse_path "sample-resources").

(** [main], up to the start of the web server. *)
Definition main (w : World) (argv : list string) : os_outcome World :=
  let folder := resource_folder w argv in
  let w := mkWorld (fs w) (cwd w) (Some folder) in
  if negb (exists_ w folder) then
    match mkdir_parents w (absolute folder) (rev (parts folder)) false with
    | Failed e => Failed e
    | Done w1 => create_sample_files w1 folder
    end
  else Done w.

End Bootstrap.

(** The limits of the operating system on a path (Linux): a name has at
    most 255 bytes and a path fewer than 4096.  A call on a longer path
    fails with [OSError] (ENAMETOOLONG), which [Path.exists] does not
    catch. *)

Module Limits.
Import PyStr.




End Limits.

(** Worlds for the start of the file system server. *)

Module StartExamples.
Import FilesystemServer Bootstrap.

(** A home directory with one file, no folder of resources yet. *)
Definition fresh_world : World :=
  mkWorld (Dir [("home", Dir [("me", Dir [("todo", File [x68; x69])])])])
          ["home"; "me"] None.

(** The world [main] leaves, if it gets to the web server. *)
Definition started (w : World) (argv : list string) : World :=
  match main w argv with
  | Done w' => w'
  | Failed _ => w
  end.

(** A folder that already holds a [readme.md] of its own and another
    file. *)
Definition stocked_world : World :=
  mkWorld
    (Dir [("srv",
           Dir [("root",
                 Dir [ ("readme.md", File (list_byte_of_string "old"));
                       ("keep.txt", File (list_byte_of_string "mine")) ])])])
    ["srv"]
    (Some (parse_path "root")).

Definition stocked_entries : list (string * node) :=
  [ ("readme.md", File (list_byte_of_string "old"));
    ("keep.txt", File (list_byte_of_string "mine")) ].

End StartExamples.

(** ** src/server/python/server.py and src/http-server/python/server.py

    The two echo servers have the same [call_tool]. *)

Module EchoServer.
Import PyStr.

(** A text of any characters: its code points. *)
Definition text := list N.

(** The text of a string of the model, whose characters are below 256. *)
Definition text_of (s : string) : text :=
  map N_of_ascii (list_ascii_of_string s).

Section Upper.

(** [str.upper] maps each code point by the upper-case table of the
    Unicode database.  The part of the table from U+0100 on is taken as it
    is given; nothing is assumed of it. *)
Variable upper_above : N -> text.

(** The table below U+0100: a-z and the Latin-1 small letters
    U+00E0-U+00FE (U+00F7, the division sign, apart) move down by 32; the
    micro sign becomes the Greek capital mu, the sharp s becomes two
    capitals S, and y with diaeresis becomes U+0178; every other code
    point is kept. *)
Definition upper_char (n : N) : text :=
  (if n <? 256 then
     if ((97 <=? n) && (n <=? 122))
        || ((224 <=? n) && (n <=? 254) && negb (n =? 247))
     then [n - 32]
     else if n =? 181 then [924]
     else if n =? 223 then [83; 83]
     else if n =? 255 then [376]
     else [n]
   else upper_above n)%N.

(** [s.upper()] *)
Fixpoint upper (s : text) : text :=
  match s with
  | [] => []
  | c :: s' => (upper_char c ++ upper s')%list
  end.

(** The [arguments] of a call, with the types the input schema of the tool
    gives them; a key can be missing. *)
Record Arguments : Type := mkArguments
  { message : option text; uppercase : option bool }.

Record TextContent : Type := mkTextContent { text_ : text }.

Definition call_tool (name : string) (arguments : Arguments) : outcome (list TextContent) :=
  if String.eqb name "echo" then
    let message := match message arguments with
                   | Some m => m
                   | None => []
                   end in
    let uppercase := match uppercase arguments with
                     | Some b => b
                     | None => false
                     end in
    let result :=
      match message with
      | [] => text_of "No message provided"
      | _ :: _ =>
          let result := if uppercase then upper message else message in
          (text_of "Echo: " ++ result)%list
      end in
    Return [mkTextContent result]
  else Raise (ValueError ("Unknown tool: " ++ name)).

End Upper.

(** The texts whose characters are all below U+0100. *)
Definition latin1 (s : text) : Prop := Forall (fun c => (c < 256)%N) s.

End EchoServer.

(** ** The chat clients: src/client/python/client.py and
    chapter03/model-resource-client/python/client.py

    What the language model and the MCP server answer is not in the
    program: it is given to a turn of the chat as functions. *)

Module Chat.
Import PyStr.

(** [c.isspace()] for a code point below 256 *)
Definition is_space (c : ascii) : bool :=
  let n := nat_of_ascii c in
  ((9 <=? n) && (n <=? 13)) || ((28 <=? n) && (n <=? 32))
  || (n =? 133) || (n =? 160).

Fixpoint lstrip (s : string) : string :=
  match s with
  | EmptyString => EmptyString
  | String c s' => if is_space c then lstrip s' else s
  end.

Fixpoint rstrip (s : string) : string :=
  match s with
  | EmptyString => EmptyString
  | String c s' =>
      match rstrip s' with
      | EmptyString => if is_space c then EmptyString else String c EmptyString
      | r => String c r
      end
  end.

(** [s.strip()] *)
Definition strip (s : string) : string := rstrip (lstrip s).

Section Messages.

(** The arguments of a tool call, as the model gives them. *)
Variable A : Type.

Record ToolCall : Type := mkToolCall
  { function_name : string; function_arguments : A }.

(** A message of the history: a dictionary with [role], [content] and,
    for some messages of the assistant, [tool_calls]. *)
Record Message : Type := mkMessage
  { role : string;
    content : option string;
    tool_calls : option (list ToolCall) }.

(** What the model answers, whole or as one chunk of a stream. *)
Record Reply : Type := mkReply
  { reply_content : option string;
    reply_tool_calls : option (list ToolCall) }.

(** Truth value of [tool_calls]: neither [None] nor empty. *)
Definition some_calls (calls : option (list ToolCall)) : bool :=
  match calls with
  | Some (_ :: _) => true
  | _ => false
  end.

(** Truth value of a content: neither [None] nor empty. *)
Definition some_text (c : option string) : bool :=
  match c with
  | Some (String _ _) => true
  | _ => false
  end.

Definition text_or_empty (c : option string) : string :=
  match c with
  | Some s => s
  | None => EmptyString
  end.

(** The [async for] over a stream: the contents are joined, and the tool
    calls are those of the last chunk that has any. *)
Fixpoint stream (chunks : list Reply) (full_response : string) (tool_calls_list : option (list ToolCall)) : string * option (list ToolCall) :=
  match chunks with
  | [] => (full_response, tool_calls_list)
  | chunk :: rest =>
      let full_response :=
        if some_text (reply_content chunk)
        then full_response ++ text_or_empty (reply_content chunk)
        else full_response in
      let tool_calls_list :=
        if some_calls (reply_tool_calls chunk) then reply_tool_calls chunk
        else tool_calls_list in
      stream rest full_response tool_calls_list
  end.

Definition user (prompt : string) : Message :=
  mkMessage "user" (Some prompt) None.

Definition tool (result : string) : Message :=
  mkMessage "tool" (Some result) None.

Definition is_role (r : string) (m : Message) : bool := String.eqb (role m) r.

End Messages.

Arguments mkToolCall {A} _ _.
Arguments function_name {A} _.
Arguments function_arguments {A} _.
Arguments mkMessage {A} _ _ _.
Arguments role {A} _.
Arguments content {A} _.
Arguments tool_calls {A} _.
Arguments mkReply {A} _ _.
Arguments reply_content {A} _.
Arguments reply_tool_calls {A} _.
Arguments some_calls {A} _.
Arguments stream {A} _ _ _.
Arguments user {A} _.
Arguments tool {A} _.
Arguments is_role {A} _ _.

End Chat.

(** *** src/client/python/client.py *)

Module Client.
Import PyStr Chat.

(** An item of the result of a tool: with a [text] attribute or not. *)
Inductive Content : Type :=
| TextItem (text : string)
| OtherItem.

(** The [for content in result.content] loop *)
Fixpoint tool_text (items : list Content) (tool_result : string) : string :=
  match items with
  | [] => tool_result
  | TextItem t :: rest => tool_text rest (tool_result ++ t)
  | OtherItem :: rest => tool_text rest tool_result
  end.

Section Turn.

Variable A : Type.

(** [client.chat(messages=...)], first and second call of a turn, and
    [session.call_tool] for the call at a position of the list the
    assistant has asked for. *)
Variable chat : list (Message A) -> list (Reply A).
Variable chat_final : list (Message A) -> list (Reply A).
Variable call_tool : nat -> ToolCall A -> outcome (list Content).

(** The [for tool_call in tool_calls_list] loop; a call that raises is
    printed and leaves no message. *)
Fixpoint tool_loop (position : nat) (calls : list (ToolCall A)) (messages : list (Message A)) : list (Message A) :=
  match calls with
  | [] => messages
  | tool_call :: rest =>
      match call_tool position tool_call with
      | Return result =>
          tool_loop (S position) rest
            (messages ++ [tool (tool_text result EmptyString)])
      | Raise _ => tool_loop (S position) rest messages
      end
  end.

(** One pass of the [while True] loop, for the line [input()] returns. *)
Definition turn (messages : list (Message A)) (user_prompt : string) : list (Message A) :=
  if String.eqb (strip user_prompt) EmptyString then messages
  else
    let messages := (messages ++ [user user_prompt])%list in
    let (full_response, tool_calls_list) :=
      stream (chat messages) EmptyString None in
    if some_calls tool_calls_list then
      let messages :=
        (messages
         ++ [mkMessage "assistant" (Some full_response) tool_calls_list])%list in
      let messages :=
        tool_loop 0 (match tool_calls_list with Some l => l | None => [] end)
                  messages in
      let full_final := fst (stream (chat_final messages) EmptyString None) in
      (messages ++ [mkMessage "assistant" (Some full_final) None])%list
    else
      (messages ++ [mkMessage "assistant" (Some full_response) None])%list.

(** The loop over the lines typed, from an empty history. *)
Definition session (prompts : list string) : list (Message A) :=
  fold_left turn prompts [].

End Turn.

End Client.

(** Notions used to state what a turn of the chat does. *)

Module ChatProps.
Import Chat.

(** How many of the calls return, the first being at [position]. *)
Fixpoint returned {A C : Type} (call_tool : nat -> ToolCall A -> outcome C) (position : nat) (calls : list (ToolCall A)) : nat :=
  match calls with
  | [] => 0
  | c :: rest =>
      (if succeeds (call_tool position c) then 1 else 0)
      + returned call_tool (S position) rest
  end.

(** A prompt the loop skips. *)
Definition blank (prompt : string) : bool :=
  String.eqb (strip prompt) EmptyString.

(** An answer of the assistant that asks for no tool. *)
Definition closing {A : Type} (m : Message A) : bool :=
  String.eqb (role m) "assistant"
  && match tool_calls m with None => true | Some _ => false end.

End ChatProps.

(** *** chapter03/model-resource-client/python/client.py *)

Module ModelResourceClient.
Import PyStr Chat.

(** An item of the contents of a resource, as the client looks at it: with
    a [text] attribute, else with a [blob] attribute, or with neither. *)
Inductive Content : Type :=
| TextItem (text : string)
| BlobItem (blob : string) (mimeType : string)
| OtherItem.

(** What [session.read_resource] does: it returns contents, or raises an
    exception whose [str] is a text. *)
Inductive Fetched : Type :=
| Contents (contents : list Content)
| Failure (text : string).

(** The arguments of a call of [read_resource], with the type the tool's
    parameters give them; the key can be missing. *)
Record Arguments : Type := mkArguments { uri : option string }.

Definition resource_entry (r : ResourceServer.Resource) : Json.value :=
  Json.JDict
    [ ("name", Json.JStr (ResourceServer.name r));
      ("uri", Json.JStr (ResourceServer.uri r));
      ("description", Json.JStr (ResourceServer.description r));
      ("mimeType", Json.JStr (ResourceServer.mimeType r)) ].

Definition list_resources_tool (resources : list ResourceServer.Resource) : string :=
  Json.dumps (Json.JList (map resource_entry resources)).

Definition template_entry (t : ResourceServer.ResourceTemplate) : Json.value :=
  Json.JDict
    [ ("name", Json.JStr (ResourceServer.t_name t));
      ("uriTemplate", Json.JStr (ResourceServer.uriTemplate t));
      ("description", Json.JStr (ResourceServer.t_description t));
      ("mimeType", Json.JStr (ResourceServer.t_mimeType t)) ].

Definition list_resource_templates_tool (templates : list ResourceServer.ResourceTemplate) : string :=
  Json.dumps (Json.JList (map template_entry templates)).

(** The [for content in result.contents] loop *)
Fixpoint pieces (contents : list Content) : list string :=
  match contents with
  | [] => []
  | TextItem text :: rest => text :: pieces rest
  | BlobItem blob mimeType :: rest =>
      ("[Binary content: " ++ mimeType ++ ", "
       ++ FilesystemServer.decimal (Z.of_nat (String.length blob))
       ++ " bytes base64]") :: pieces rest
  | OtherItem :: rest => pieces rest
  end.

Definition separator : string := newline ++ "---" ++ newline.

Definition read_resource_tool (read_resource : string -> Fetched) (uri : string) : string :=
  match read_resource uri with
  | Contents contents => join separator (pieces contents)
  | Failure text => "Error reading resource: " ++ text
  end.

Definition system_message : string :=
"You are a helpful assistant with access to a company's resource system.
You can list and read resources to help answer questions.

Available tools:
- list_resources: See what static resources are available
- list_resource_templates: See what templated resources are available
- read_resource: Read the content of a specific resource by URI

When users ask about company policies, coding standards, user preferences,
or project settings, use these tools to find and retrieve the relevant information.

Always check what resources are available before trying to read them.
".

Section Turn.

(** The server, as the session shows it, and the model: [client.chat]
    without and with streaming. *)
Variable resources : list ResourceServer.Resource.
Variable templates : list ResourceServer.ResourceTemplate.
Variable read_resource : string -> Fetched.
Variable chat : list (Message Arguments) -> Reply Arguments.
Variable chat_final : list (Message Arguments) -> list (Reply Arguments).

Definition run_tool (tool_call : ToolCall Arguments) : string :=
  let tool_name := function_name tool_call in
  let tool_args := function_arguments tool_call in
  if String.eqb tool_name "list_resources" then
    list_resources_tool resources
  else if String.eqb tool_name "list_resource_templates" then
    list_resource_templates_tool templates
  else if String.eqb tool_name "read_resource" then
    let uri := match uri tool_args with
               | Some u => u
               | None => EmptyString
               end in
    read_resource_tool read_resource uri
  else "Unknown tool: " ++ tool_name.

(** The [for tool_call in response.message.tool_calls] loop *)
Fixpoint tool_loop (calls : list (ToolCall Arguments)) (messages : list (Message Arguments)) : list (Message Arguments) :=
  match calls with
  | [] => messages
  | tool_call :: rest =>
      tool_loop rest (messages ++ [tool (run_tool tool_call)])
  end.

(** The body of the loop for a prompt that is neither blank nor [quit]. *)
Definition turn (messages : list (Message Arguments)) (user_prompt : string) : list (Message Arguments) :=
  let messages := (messages ++ [user user_prompt])%list in
  let response := chat messages in
  if some_calls (reply_tool_calls response) then
    let messages :=
      (messages
       ++ [mkMessage "assistant"
             (Some (text_or_empty (reply_content response)))
             (reply_tool_calls response)])%list in
    let messages :=
      tool_loop (match reply_tool_calls response with
                 | Some l => l
                 | None => []
                 end) messages in
    let full_content := fst (stream (chat_final messages) EmptyString None) in
    (messages ++ [mkMessage "assistant" (Some full_content) None])%list
  else
    (messages ++ [mkMessage "assistant" (reply_content response) None])%list.

(** The [while True] loop over the lines typed. *)
Fixpoint loop (prompts : list string) (messages : list (Message Arguments)) : list (Message Arguments) :=
  match prompts with
  | [] => messages
  | user_prompt :: rest =>
      if String.eqb (strip user_prompt) EmptyString then loop rest messages
      else if String.eqb (lower user_prompt) "quit" then messages
      else loop rest (turn messages user_prompt)
  end.

Definition session (prompts : list string) : list (Message Arguments) :=
  loop prompts [mkMessage "system" (Some system_message) None].

End Turn.

(** The resource server behind the session: the text of an exception
    reaches the client as the text of the error. *)
Definition describe (e : exn) : option string :=
  match e with
  | ValueError msg => Some msg
  | _ => None
  end.

Definition session_read_resource (uri : string) : option Fetched :=
  match ResourceServer.read_resource uri with
  | Return result =>
      Some (Contents
              (map (fun c => match c with
                             | ResourceServer.TextContent text => TextItem text
                             end)
                   (ResourceServer.contents result)))
  | Raise e => option_map Failure (describe e)
  end.

End ModelResourceClient.

(** *** The clients that inject a resource:
    chapter03/user-message-injection, system-message-injection and
    hybrid-attestation (python/client.py)

    The three share the choice of the resource, the first text of its
    contents and the rows of the boxes they print. *)

Module Injection.
Import PyStr.

(** [l[index]]; [None] is [IndexError]. *)
Definition getitem {T : Type} (l : list T) (index : Z) : option T :=
  let len := Z.of_nat (List.length l) in
  if (index <? 0)%Z then
    if (- index <=? len)%Z then nth_error l (Z.to_nat (len + index)) else None
  else nth_error l (Z.to_nat index).

Inductive Choice (T : Type) : Type :=
| Invalid
| Selected (resource : T)
| IndexError.
Arguments Invalid {T}.
Arguments Selected {T} resource.
Arguments IndexError {T}.

(** The lines [enumerate(resources, 1)] prints: the number shown with each
    resource. *)
Fixpoint enumerate {T : Type} (l : list T) (start : Z) : list (Z * T) :=
  match l with
  | [] => []
  | x :: rest => (start, x) :: enumerate rest (start + 1)
  end.

(** From [index = int(selection) - 1] to [resources[index]]; [int] is
    Python's, [None] for its [ValueError]. *)
Definition choose {T : Type} (int : string -> option Z) (resources : list T) (selection : string) : Choice T :=
  match int selection with
  | None => Invalid
  | Some n =>
      let index := (n - 1)%Z in
      if (index <? 0)%Z || (Z.of_nat (List.length resources) <=? index)%Z
      then Invalid
      else match getitem resources index with
           | Some r => Selected r
           | None => IndexError
           end
  end.

(** [s[:n]] *)
Fixpoint take (n : nat) (s : string) : string :=
  match n, s with
  | S n', String c s' => String c (take n' s')
  | _, _ => EmptyString
  end.

(** [' ' * n] *)
Fixpoint blanks (n : nat) : string :=
  match n with
  | O => EmptyString
  | S n' => String " " (blanks n')
  end.

(** What stands between the borders of a row: the line, cut to 60
    characters, and the padding. *)
Definition cell (line : string) : string :=
  let display_line :=
    if 60 <? String.length line then take 60 line else line in
  let padding := 60 - String.length display_line in
  display_line ++ blanks padding.

(** A row as printed, in code points: the border U+2502 and a blank on
    each side of the cell. *)
Definition row (line : string) : list N :=
  ([9474; 32]%N ++ EchoServer.text_of (cell line) ++ [32; 9474]%N)%list.

(** The rows printed for a [content], one for each of its lines. *)
Definition rows (content : string) : list (list N) :=
  map row (split content (ascii_of_nat 10)).

(** The line that closes a box: the corner U+2514, 62 times U+2500, the
    corner U+2518. *)
Definition closing_line : list N :=
  ([9492%N] ++ repeat 9472%N 62 ++ [9496%N])%list.

End Injection.

(** ** The resource server on the objects of the interpreter

    The handlers of chapter03/resource-server/python/server.py once more,
    now with the state a Python process has: the objects on its heap.  A
    dict or list display makes a new object, [json.dumps] reads the objects
    it is given, and a call starts from whatever heap the process has
    reached.  Strings and booleans are values without identity. *)

Module Heap.

Inductive pyval : Type :=
| Str (s : string)
| Bool (b : bool)
| Ref (address : nat).

Inductive pyobj : Type :=
| DictObj (members : list (string * pyval))
| ListObj (items : list pyval).

(** The objects, each at the address that is its position. *)
Definition heap : Type := list pyobj.

(** A computation on the heap. *)
Definition M (A : Type) : Type := heap -> A * heap.

Definition ret {A : Type} (a : A) : M A := fun h => (a, h).

Definition bind {A B : Type} (m : M A) (f : A -> M B) : M B :=
  fun h => let (a, h') := m h in f a h'.

(** A new object, after the ones there are. *)
Definition new (o : pyobj) : M pyval :=
  fun h => (Ref (List.length h), (h ++ [o])%list).

(** Evaluation of a display, written as the tree of its members: the
    members are evaluated from left to right, then the object is made. *)
Fixpoint display (e : Json.value) : M pyval :=
  match e with
  | Json.JStr s => ret (Str s)
  | Json.JBool b => ret (Bool b)
  | Json.JList items =>
      bind ((fix each (l : list Json.value) : M (list pyval) :=
               match l with
               | [] => ret []
               | x :: rest =>
                   bind (display x) (fun v =>
                   bind (each rest) (fun vs => ret (v :: vs)))
               end) items)
           (fun vs => new (ListObj vs))
  | Json.JDict members =>
      bind ((fix each (l : list (string * Json.value)) : M (list (string * pyval)) :=
               match l with
               | [] => ret []
               | (k, x) :: rest =>
                   bind (display x) (fun v =>
                   bind (each rest) (fun vs => ret ((k, v) :: vs)))
               end) members)
           (fun vs => new (DictObj vs))
  end.

(** What [json.dumps] sees from a value: the tree of the objects reached
    from it.  [fuel] bounds the number of objects on a path; [None] when
    it runs out, as it does on an object that contains itself, or at an
    address without an object. *)
Fixpoint load (fuel : nat) (h : heap) (v : pyval) {struct fuel} : option Json.value :=
  match v with
  | Str s => Some (Json.JStr s)
  | Bool b => Some (Json.JBool b)
  | Ref a =>
      match fuel with
      | O => None
      | S fuel' =>
          match nth_error h a with
          | Some (ListObj items) =>
              option_map Json.JList
                ((fix each (l : list pyval) : option (list Json.value) :=
                    match l with
                    | [] => Some []
                    | x :: rest =>
                        match load fuel' h x, each rest with
                        | Some j, Some js => Some (j :: js)
                        | _, _ => None
                        end
                    end) items)
          | Some (DictObj members) =>
              option_map Json.JDict
                ((fix each (l : list (string * pyval)) : option (list (string * Json.value)) :=
                    match l with
                    | [] => Some []
                    | (k, x) :: rest =>
                        match load fuel' h x, each rest with
                        | Some j, Some js => Some ((k, j) :: js)
                        | _, _ => None
                        end
                    end) members)
          | None => None
          end
      end
  end.

(** [json.dumps(obj, indent=2)]: a path through the objects that is longer
    than their number goes through one of them twice, which [json.dumps]
    refuses. *)
Definition json_dumps (obj : pyval) : M (outcome string) :=
  fun h =>
    (match load (List.length h) h obj with
     | Some j => Return (Json.dumps j)
     | None => Raise (ValueError "Circular reference detected")
     end, h).

(** The number of objects a display makes. *)
Fixpoint size (e : Json.value) : nat :=
  match e with
  | Json.JStr _ => 0
  | Json.JBool _ => 0
  | Json.JList items =>
      S ((fix sum (l : list Json.value) : nat :=
            match l with
            | [] => 0
            | x :: rest => size x + sum rest
            end) items)
  | Json.JDict members =>
      S ((fix sum (l : list (string * Json.value)) : nat :=
            match l with
            | [] => 0
            | (_, x) :: rest => size x + sum rest
            end) members)
  end.

(** The loops of [display], [load] and [size] over the members, by name. *)
Fixpoint display_items (l : list Json.value) : M (list pyval) :=
  match l with
  | [] => ret []
  | x :: rest =>
      bind (display x) (fun v =>
      bind (display_items rest) (fun vs => ret (v :: vs)))
  end.

Fixpoint display_members (l : list (string * Json.value)) : M (list (string * pyval)) :=
  match l with
  | [] => ret []
  | (k, x) :: rest =>
      bind (display x) (fun v =>
      bind (display_members rest) (fun vs => ret ((k, v) :: vs)))
  end.

Fixpoint load_items (fuel : nat) (h : heap) (l : list pyval) : option (list Json.value) :=
  match l with
  | [] => Some []
  | x :: rest =>
      match load fuel h x, load_items fuel h rest with
      | Some j, Some js => Some (j :: js)
      | _, _ => None
      end
  end.

Fixpoint load_members (fuel : nat) (h : heap) (l : list (string * pyval)) : option (list (string * Json.value)) :=
  match l with
  | [] => Some []
  | (k, x) :: rest =>
      match load fuel h x, load_members fuel h rest with
      | Some j, Some js => Some ((k, j) :: js)
      | _, _ => None
      end
  end.

Fixpoint sizes (l : list Json.value) : nat :=
  match l with
  | [] => 0
  | x :: rest => size x + sizes rest
  end.

Fixpoint sizes_members (l : list (string * Json.value)) : nat :=
  match l with
  | [] => 0
  | (_, x) :: rest => size x + sizes_members rest
  end.

(** Induction on a tree of members. *)
Fixpoint value_induction (P : Json.value -> Prop) (HS : forall s, P (Json.JStr s)) (HB : forall b, P (Json.JBool b)) (HL : forall items, Forall P items -> P (Json.JList items)) (HD : forall members, Forall (fun m => P (snd m)) members -> P (Json.JDict members)) (e : Json.value) {struct e} : P e :=
  match e with
  | Json.JStr s => HS s
  | Json.JBool b => HB b
  | Json.JList items =>
      HL items
         ((fix each (l : list Json.value) : Forall P l :=
             match l with
             | [] => Forall_nil P
             | x :: rest =>
                 Forall_cons x (value_induction P HS HB HL HD x) (each rest)
             end) items)
  | Json.JDict members =>
      HD members
         ((fix each (l : list (string * Json.value)) : Forall (fun m => P (snd m)) l :=
             match l with
             | [] => Forall_nil _
             | m :: rest =>
                 Forall_cons m (value_induction P HS HB HL HD (snd m))
                             (each rest)
             end) members)
  end.

(** What [display] does to a heap and what [load] then reads there. *)
Definition displayed (e : Json.value) : Prop :=
  forall h : heap,
    exists v added,
      display e h = (v, (h ++ added)%list)
      /\ List.length added = size e
      /\ forall more fuel,
           size e <= fuel -> load fuel (h ++ added ++ more)%list v = Some e.

End Heap.

Module ResourceServerRun.
Import PyStr Heap.

Definition get_user_preferences (user_id : string) : M pyval :=
  display (Json.JDict (ResourceServer.get_user_preferences user_id)).

Definition get_project_settings (project_id : string) : M pyval :=
  display (Json.JDict (ResourceServer.get_project_settings project_id)).

(** [ReadResourceResult(contents=[TextContent(type="text", text=...)])]
    for the text [json.dumps] has returned *)
Definition text_result (dumped : outcome string) : outcome ResourceServer.ReadResourceResult :=
  match dumped with
  | Return text => ResourceServer.text_result text
  | Raise e => Raise e
  end.

Definition read_resource (uri : string) : M (outcome ResourceServer.ReadResourceResult) :=
  if String.eqb uri "docs://company/handbook" then
    ret (ResourceServer.text_result ResourceServer.handbook_text)
  else if String.eqb uri "docs://company/coding-standards" then
    ret (ResourceServer.text_result ResourceServer.coding_standards_text)
  else if String.eqb uri "docs://api/endpoints" then
    bind (display ResourceServer.api_docs) (fun api_docs =>
    bind (json_dumps api_docs) (fun text => ret (text_result text)))
  else if startswith uri "config://user/" && endswith uri "/preferences" then
    let parts := split uri "/" in
    if (4 <=? List.length parts)%nat then
      let user_id := nth 3 parts EmptyString in
      bind (get_user_preferences user_id) (fun preferences =>
      bind (json_dumps preferences) (fun text => ret (text_result text)))
    else ret (ResourceServer.not_found uri)
  else if startswith uri "config://project/" && endswith uri "/settings" then
    let parts := split uri "/" in
    if (4 <=? List.length parts)%nat then
      let project_id := nth 3 parts EmptyString in
      bind (get_project_settings project_id) (fun settings =>
      bind (json_dumps settings) (fun text => ret (text_result text)))
    else ret (ResourceServer.not_found uri)
  else ret (ResourceServer.not_found uri).

Definition handle (q : ResourceServer.Request) : M ResourceServer.Response :=
  match q with
  | ResourceServer.ListResources =>
      ret (ResourceServer.Resources ResourceServer.list_resources)
  | ResourceServer.ListResourceTemplates =>
      ret (ResourceServer.Templates ResourceServer.list_resource_templates)
  | ResourceServer.ReadResource u =>
      bind (read_resource u) (fun r => ret (ResourceServer.Read r))
  end.

(** A session: each request is handled on the heap the one before has
    left. *)
Fixpoint serve (session : list ResourceServer.Request) : M (list ResourceServer.Response) :=
  match session with
  | [] => ret []
  | q :: rest =>
      bind (handle q) (fun a =>
      bind (serve rest) (fun answers => ret (a :: answers)))
  end.

End ResourceServerRun.
(** ** String lemmas *)

Section Strings.
Import PyStr.

Lemma split_not_nil (s : string) (sep : ascii) : split s sep <> [].
Proof. destruct s as [|c s]; simpl; [|destruct (Ascii.eqb c sep)]; discriminate. Qed.

Lemma split_length (s : string) (sep : ascii) : 1 <= List.length (split s sep).
Proof.
  pose proof (split_not_nil s sep) as H.
  destruct (split s sep); [congruence | simpl; lia].
Qed.

Lemma split_cons (c : ascii) (s : string) (sep : ascii) :
  split (String c s) sep =
  if Ascii.eqb c sep then EmptyString :: split s sep
  else String c (hd EmptyString (split s sep)) :: tl (split s sep).
Proof. reflexivity. Qed.

(** Without a separator inside, a string is its only piece. *)
Lemma split_no_sep (s : string) (sep : ascii) :
  contains sep s = false -> split s sep = [s].
Proof.
  induction s as [|c s IH]; simpl; intros H; [reflexivity|].
  apply orb_false_iff in H as [Hc Hs].
  rewrite Ascii.eqb_sym, Hc, (IH Hs). reflexivity.
Qed.

(** The first piece of [s ++ sep ++ t] is the first piece of [s]. *)
Lemma split_hd_append (s t : string) (sep : ascii) :
  hd EmptyString (split (s ++ String sep t) sep) = hd EmptyString (split s sep).
Proof.
  induction s as [|c s IH]; simpl.
  - rewrite Ascii.eqb_refl. reflexivity.
  - destruct (Ascii.eqb c sep); simpl; [reflexivity | now rewrite IH].
Qed.

Lemma length_append (s t : string) :
  String.length (s ++ t) = String.length s + String.length t.
Proof. induction s; simpl; congruence. Qed.

Lemma substring_all (s : string) : substring 0 (String.length s) s = s.
Proof. induction s; simpl; congruence. Qed.

Lemma substring_append (s t : string) :
  substring (String.length s) (String.length t) (s ++ t) = t.
Proof. induction s; simpl; [apply substring_all | assumption]. Qed.

Lemma endswith_append (s t : string) : endswith (s ++ t) t = true.
Proof.
  unfold endswith. rewrite length_append.
  replace (String.length t <=? String.length s + String.length t) with true
    by (symmetry; apply Nat.leb_le; lia).
  replace (String.length s + String.length t - String.length t)
    with (String.length s) by lia.
  rewrite substring_append. apply String.eqb_refl.
Qed.

Lemma prefix_append (p s : string) : String.prefix p (p ++ s) = true.
Proof.
  induction p as [|c p IH]; simpl; [now destruct s|].
  destruct (ascii_dec c c); [assumption | congruence].
Qed.

Lemma prefix_inv (p s : string) :
  String.prefix p s = true -> exists r, s = p ++ r.
Proof.
  revert s; induction p as [|c p IH]; intros s H; simpl in *.
  - now exists s.
  - destruct s as [|d s]; simpl in H; [discriminate|].
    destruct (ascii_dec c d); [subst d | discriminate].
    destruct (IH s H) as [r ->]. now exists r.
Qed.

Lemma drop_append (p s : string) : drop (String.length p) (p ++ s) = s.
Proof. induction p; simpl; [now destruct s | assumption]. Qed.

Lemma append_assoc (a b c : string) : (a ++ b) ++ c = a ++ (b ++ c).
Proof. induction a; simpl; congruence. Qed.

End Strings.

(** ** The static and templated resolver *)

Section ResourceServerFacts.
Import PyStr ResourceServer Spec.

(** What a read of a user URI comes to: the preferences of the first piece
    of the identifier. *)
Lemma read_user_uri (id : string) :
  read_resource (user_uri id) =
  text_result (Json.dumps (Json.JDict
    (get_user_preferences (hd EmptyString (split id "/"))))).
Proof.
  unfold read_resource, user_uri.
  change (String.eqb ("config://user/" ++ _) "docs://company/handbook") with false.
  change (String.eqb ("config://user/" ++ _) "docs://company/coding-standards") with false.
  change (String.eqb ("config://user/" ++ _) "docs://api/endpoints") with false.
  cbv iota.
  unfold startswith at 1. rewrite prefix_append.
  rewrite <- append_assoc, endswith_append. cbv [andb].
  rewrite append_assoc.
  change (split ("config://user/" ++ id ++ "/preferences") "/")
    with ("config:" :: EmptyString :: "user" :: split (id ++ "/preferences") "/").
  pose proof (split_length (id ++ "/preferences") "/") as Hl.
  replace (4 <=? _) with true by (symmetry; apply Nat.leb_le; simpl; lia).
  cbv [nth].
  pose proof (split_hd_append id "preferences" "/") as Hh.
  destruct (split (id ++ "/preferences") "/") as [|h t] eqn:E;
    [ exfalso; simpl in Hl; lia |].
  simpl in Hh. rewrite Hh. reflexivity.
Qed.

(** A read of a user URI never raises, whatever the identifier. *)
Lemma read_user_uri_succeeds (id : string) :
  succeeds (read_resource (user_uri id)) = true.
Proof. rewrite read_user_uri. reflexivity. Qed.

Lemma theme_of_preferences (key : string) :
  Json.get "theme" (get_user_preferences key) =
  Some (Json.JStr (if String.eqb (lower key) "alice" then "dark"
                   else if String.eqb (lower key) "bob" then "light"
                   else "system")).
Proof.
  unfold get_user_preferences.
  destruct (String.eqb (lower key) "alice"); [reflexivity|].
  destruct (String.eqb (lower key) "bob"); reflexivity.
Qed.



Lemma is_static_false (uri : string) :
  is_static uri = false ->
  String.eqb uri "docs://company/handbook" = false
  /\ String.eqb uri "docs://company/coding-standards" = false
  /\ String.eqb uri "docs://api/endpoints" = false.
Proof.
  unfold is_static. simpl. intros H.
  repeat (apply orb_false_iff in H as [? H]). auto.
Qed.

(** C3 (amended).  For every identifier [id] without a slash, reading
    [config://user/<id>/preferences] succeeds with the JSON text of the
    preferences looked up under the lower-cased [id]: theme [dark] when that
    is [alice], [light] when it is [bob], and otherwise the fallback payload
    (theme [system], time zone [UTC]). *)
Theorem user_preferences_template (id : string)
    (Hid : contains "/" id = false) :
  succeeds (read_resource (user_uri id)) = true
  /\ read_resource (user_uri id)
     = text_result (Json.dumps (Json.JDict (get_user_preferences id)))
  /\ Json.get "theme" (get_user_preferences id)
     = Some (Json.JStr (if String.eqb (lower id) "alice" then "dark"
                        else if String.eqb (lower id) "bob" then "light"
                        else "system"))
  /\ (recognised_user id = true
      \/ (get_user_preferences id = default_preferences
          /\ Json.get "theme" default_preferences = Some (Json.JStr "system")
          /\ Json.get "timezone" default_preferences = Some (Json.JStr "UTC"))).
Proof.
  split; [apply read_user_uri_succeeds|].
  split; [rewrite read_user_uri, (split_no_sep _ _ Hid); reflexivity|].
  split; [apply theme_of_preferences|].
  unfold recognised_user, get_user_preferences.
  destruct (String.eqb (lower id) "alice"); [now left|].
  destruct (String.eqb (lower id) "bob"); [now left|].
  right. repeat split.
Qed.

Lemma user_preferences_template_witness :
  contains "/" "Carol" = false
  /\ read_resource (user_uri "Carol")
     = text_result (Json.dumps (Json.JDict default_preferences)).
Proof.
  split; [reflexivity|].
  destruct (user_preferences_template "Carol" eq_refl) as (_ & H & _).
  exact H.
Defined.

(** C3 as stated fails: an identifier with a slash is looked up under its
    first piece only, so the unrecognised ["alice/x"] gets the preferences
    of alice and not the fallback payload. *)
Lemma unrecognised_id_with_slash :
  ~ (forall id : string, recognised_user id = false ->
       read_resource (user_uri id)
       = text_result (Json.dumps (Json.JDict default_preferences))).
Proof.
  intros H. specialize (H "alice/x" eq_refl).
  vm_compute in H. discriminate H.
Qed.

(** What a read of a project URI comes to: the settings of the first piece
    of the identifier. *)
Lemma read_project_uri (id : string) :
  read_resource (project_uri id) =
  text_result (Json.dumps (Json.JDict
    (get_project_settings (Props.first_piece id)))).
Proof.
  unfold read_resource, project_uri, Props.first_piece.
  change (String.eqb ("config://project/" ++ _) "docs://company/handbook")
    with false.
  change (String.eqb ("config://project/" ++ _)
                     "docs://company/coding-standards") with false.
  change (String.eqb ("config://project/" ++ _) "docs://api/endpoints")
    with false.
  change (startswith ("config://project/" ++ id ++ "/settings")
                     "config://user/") with false.
  cbv iota. cbn [andb].
  unfold startswith at 1. rewrite prefix_append.
  rewrite <- append_assoc, endswith_append. cbv [andb].
  rewrite append_assoc.
  change (split ("config://project/" ++ id ++ "/settings") "/")
    with ("config:" :: EmptyString :: "project"
          :: split (id ++ "/settings") "/").
  pose proof (split_length (id ++ "/settings") "/") as Hl.
  replace (4 <=? _) with true by (symmetry; apply Nat.leb_le; simpl; lia).
  cbv [nth].
  pose proof (split_hd_append id "settings" "/") as Hh.
  destruct (split (id ++ "/settings") "/") as [|h t] eqn:E;
    [ exfalso; simpl in Hl; lia |].
  simpl in Hh. rewrite Hh. reflexivity.
Qed.

(** C4 (amended).  Reading [config://project/backend/settings] gives the
    JSON text of the backend settings, whose [database] is [PostgreSQL].
    For every project identifier without a slash that is not [frontend],
    [backend] or [mobile] after lower-casing, reading
    [config://project/<id>/settings] gives the JSON text of a payload of
    exactly two members: the framework ["Unknown"] and a note that names
    the identifier as it was written. *)
Theorem project_settings_template (project_id : string)
    (Hid : contains "/" project_id = false)
    (Hunknown : recognised_project project_id = false) :
  read_resource (project_uri "backend")
  = text_result (Json.dumps (Json.JDict (get_project_settings "backend")))
  /\ Json.get "database" (get_project_settings "backend")
     = Some (Json.JStr "PostgreSQL")
  /\ read_resource (project_uri project_id)
     = text_result (Json.dumps (Json.JDict
         [ ("framework", Json.JStr "Unknown");
           ("note", Json.JStr ("No configuration found for project '"
                               ++ project_id ++ "'")) ])).
Proof.
  split; [reflexivity|]. split; [reflexivity|].
  rewrite read_project_uri. unfold Props.first_piece.
  rewrite (split_no_sep _ _ Hid). cbn [hd].
  unfold recognised_project in Hunknown.
  apply orb_false_iff in Hunknown as [Hfb Hm].
  apply orb_false_iff in Hfb as [Hf Hb].
  unfold get_project_settings. now rewrite Hf, Hb, Hm.
Qed.

Lemma project_settings_template_witness :
  contains "/" "Payments" = false
  /\ recognised_project "Payments" = false
  /\ read_resource (project_uri "Payments")
     = text_result (Json.dumps (Json.JDict
         [ ("framework", Json.JStr "Unknown");
           ("note",
            Json.JStr "No configuration found for project 'Payments'") ])).
Proof.
  split; [reflexivity|]. split; [reflexivity|].
  destruct (project_settings_template "Payments" eq_refl eq_refl)
    as (_ & _ & H).
  exact H.
Defined.

(** C4 as stated fails: an identifier with a slash is looked up under its
    first piece only, so the unrecognised ["backend/eu"] gets the settings
    of the backend, which have no note, and not the placeholder payload. *)
Lemma unrecognised_project_with_slash :
  ~ (forall id : string, recognised_project id = false ->
       read_resource (project_uri id)
       = text_result (Json.dumps (Json.JDict
           [ ("framework", Json.JStr "Unknown");
             ("note", Json.JStr ("No configuration found for project '"
                                 ++ id ++ "'")) ])))
  /\ recognised_project "backend/eu" = false
  /\ read_resource (project_uri "backend/eu")
     = text_result (Json.dumps (Json.JDict (get_project_settings "backend")))
  /\ Json.get "note" (get_project_settings "backend") = None.
Proof.
  split; [|repeat split].
  intros H. specialize (H "backend/eu" eq_refl).
  vm_compute in H. discriminate H.
Qed.

(** C5.  A URI that is none of the three static URIs and has neither
    template shape is answered by [ValueError("Resource not found: <uri>")];
    the call returns nothing else, and the calls before and after it in a
    session are answered as they would be without it. *)
Theorem unmatched_uri_not_found (uri : string)
    (Hstatic : is_static uri = false)
    (Huser : user_shape uri = false)
    (Hproject : project_shape uri = false) :
  read_resource uri = Raise (ValueError ("Resource not found: " ++ uri))
  /\ forall before after : list Request,
       serve (before ++ ReadResource uri :: after)
       = (serve before
          ++ Read (Raise (ValueError ("Resource not found: " ++ uri)))
          :: serve after)%list.
Proof.
  assert (E : read_resource uri
              = Raise (ValueError ("Resource not found: " ++ uri))).
  { apply is_static_false in Hstatic as (H1 & H2 & H3).
    unfold read_resource, not_found. rewrite H1, H2, H3.
    unfold user_shape in Huser. unfold project_shape in Hproject.
    destruct (startswith uri "config://user/" && endswith uri "/preferences");
      cbv [andb] in Huser.
    - rewrite Huser. reflexivity.
    - destruct (startswith uri "config://project/" && endswith uri "/settings");
        cbv [andb] in Hproject; [rewrite Hproject|]; reflexivity. }
  split; [exact E|].
  intros before after. unfold serve. rewrite map_app. simpl. now rewrite E.
Qed.

Lemma unmatched_uri_not_found_witness :
  read_resource "docs://company/payroll"
  = Raise (ValueError "Resource not found: docs://company/payroll").
Proof.
  exact (proj1 (unmatched_uri_not_found "docs://company/payroll"
                  eq_refl eq_refl eq_refl)).
Defined.







(** Every listed static resource can be read. *)
Lemma static_listing_readable (r : Resource) :
  In r list_resources -> succeeds (read_resource (uri r)) = true.
Proof.
  simpl. intros [<- | [<- | [<- | []]]]; reflexivity.
Qed.

End ResourceServerFacts.

(** ** File sizes *)

Section FileSizes.
Import PyStr FilesystemServer Spec.
Local Open Scope Z_scope.

(** The loop divides [steps v] times. *)
Lemma scale_steps (v : Z) :
  0 <= v ->
  scale 3 (inject_Z v) 0
  = (Qmake v (Z.to_pos (1024 ^ Z.of_nat (steps v))), steps v).
Proof.
  intros Hv. unfold steps, scale, Qle_bool, inject_Z, Qdiv, Qmult, Qinv.
  cbn [Qnum Qden Z.mul Pos.mul].
  rewrite !Z.mul_1_r.
  destruct (Z.ltb_spec v 1024); destruct (Z.leb_spec 1024 v); try lia;
    [reflexivity|].
  destruct (Z.ltb_spec v (1024 ^ 2)); destruct (Z.leb_spec 1048576 v);
    try lia; [reflexivity|].
  destruct (Z.ltb_spec v (1024 ^ 3)); destruct (Z.leb_spec 1073741824 v);
    try lia; reflexivity.
Qed.

(** The text of a size, from the double [v] that [float] makes of it. *)
Lemma format_of_double (size v : Z) :
  0 <= v ->
  float_of_int size = Return (inject_Z v) ->
  format_file_size size = Return (size_text v).
Proof.
  intros Hv Hf. unfold format_file_size, size_text. rewrite Hf.
  change (List.length suffixes - 1)%nat with 3%nat.
  rewrite (scale_steps v Hv). unfold format_1f. cbn [Qnum Qden].
  rewrite (Z.abs_eq v Hv).
  destruct (Z.ltb_spec v 0); [lia|].
  replace (Z.pos (Z.to_pos (1024 ^ Z.of_nat (steps v))))
    with (1024 ^ Z.of_nat (steps v))
    by (unfold steps; repeat destruct (_ <? _); reflexivity).
  cbv zeta. rewrite !append_assoc. reflexivity.
Qed.

(** A size below [2 ^ 53] is a double. *)
Lemma nearest_double_exact (n : Z) :
  0 <= n < 2 ^ 53 -> nearest_double n = Some n.
Proof.
  intros [H0 H53]. unfold nearest_double.
  assert (Z.log2 n < 53) as Hl.
  { destruct (Z.eq_dec n 0) as [->|]; [reflexivity|].
    apply Z.log2_lt_pow2; lia. }
  destruct (Z.leb_spec (Z.log2 n - 52) 0); [reflexivity | lia].
Qed.

(** One decimal digit. *)
Lemma decimal_digit (d : Z) :
  0 <= d < 10 -> String.length (decimal d) = 1%nat.
Proof.
  intros H.
  assert (d = 0 \/ d = 1 \/ d = 2 \/ d = 3 \/ d = 4 \/ d = 5 \/ d = 6
          \/ d = 7 \/ d = 8 \/ d = 9) as Hd by lia.
  repeat (destruct Hd as [-> | Hd]; [reflexivity|]). subst d. reflexivity.
Qed.

End FileSizes.

Section Doubles.
Import FilesystemServer.
Local Open Scope Z_scope.

(** Below [2 ^ 1024 - 2 ^ 970], the mid-point between the largest double
    and [2 ^ 1024], an integer has a nearest double. *)
Lemma nearest_double_finite (n : Z) :
  0 <= n < 2 ^ 1024 - 2 ^ 970 ->
  exists v, nearest_double n = Some v /\ 0 <= v.
Proof.
  intros [H0 Hn]. unfold nearest_double.
  destruct (Z.leb_spec (Z.log2 n - 52) 0) as [He|He]; [now exists n|].
  set (e := Z.log2 n - 52) in *.
  assert (0 < n) as Hpos.
  { destruct (Z.eq_dec n 0) as [->|]; [discriminate He | lia]. }
  destruct (Z.log2_spec n Hpos) as [Hlo Hhi].
  assert (Z.log2 n < 1024) as Hlog.
  { apply Z.log2_lt_pow2; [lia|]. lia. }
  assert (0 < 2 ^ e) as Hulp by (apply Z.pow_pos_nonneg; lia).
  assert (n / 2 ^ e < 2 ^ 53) as Hq.
  { apply Z.div_lt_upper_bound; [lia|].
    rewrite <- Z.pow_add_r by lia.
    replace (e + 53) with (Z.succ (Z.log2 n)) by (unfold e; lia). exact Hhi. }
  assert (0 <= n / 2 ^ e) as Hq0 by (apply Z.div_pos; lia).
  pose proof (Z.div_mod n (2 ^ e) ltac:(lia)) as Hdm.
  pose proof (Z.mod_pos_bound n (2 ^ e) Hulp) as Hr.
  assert (2 ^ e = 2 * 2 ^ (e - 1)) as Hhalf.
  { rewrite <- Z.pow_succ_r by lia. f_equal. lia. }
  assert (2 ^ e / 2 = 2 ^ (e - 1)) as Hhalf'.
  { rewrite Hhalf, Z.mul_comm. apply Z.div_mul. lia. }
  rewrite Hhalf'.
  set (q := n / 2 ^ e) in *. set (r := n mod 2 ^ e) in *.
  (* rounding down is always finite *)
  assert (q * 2 ^ e < 2 ^ 1024) as Hdown by nia.
  (* rounding up is finite unless the remainder is below the half *)
  assert (2 ^ (e - 1) <= r -> (q + 1) * 2 ^ e < 2 ^ 1024) as Hup.
  { intros Hge.
    assert (e <= 971) as He' by (unfold e; lia).
    destruct (Z.eq_dec e 971) as [E|E].
    - rewrite E in *. change (971 - 1) with 970 in *.
      assert (2 ^ 1024 = 2 ^ 53 * 2 ^ 971) as -> by reflexivity.
      assert (2 ^ 1024 - 2 ^ 970 = (2 ^ 53 - 1) * 2 ^ 971 + 2 ^ 970) as Ht
        by reflexivity.
      assert (2 ^ 971 = 2 * 2 ^ 970) as Hd by reflexivity.
      nia.
    - assert (2 ^ e <= 2 ^ 970) by (apply Z.pow_le_mono_r; lia).
      assert (2 ^ 1024 = 2 ^ 54 * 2 ^ 970) as -> by reflexivity.
      assert (0 < 2 ^ 970) by reflexivity.
      nia. }
  assert (forall v, v < 2 ^ 1024 -> (2 ^ 1024 <=? v) = false) as Hfin
    by (intros; apply Z.leb_gt; assumption).
  destruct (Z.ltb_spec r (2 ^ (e - 1))).
  { rewrite (Hfin _ Hdown). eexists; split; [reflexivity | nia]. }
  destruct (Z.ltb_spec (2 ^ (e - 1)) r).
  { rewrite (Hfin _ (Hup ltac:(lia))). eexists; split; [reflexivity | nia]. }
  destruct (Z.even q).
  { rewrite (Hfin _ Hdown). eexists; split; [reflexivity | nia]. }
  rewrite (Hfin _ (Hup ltac:(lia))). eexists; split; [reflexivity | nia].
Qed.

End Doubles.

(** ** Base64 *)

Section Base64.
Import FilesystemServer.
Local Open Scope N_scope.

Local Ltac euclid := zify; Z.to_euclidean_division_equations; lia.

Lemma b64_index_char (n : N) : n < 64 -> b64_index (b64_char n) = Some n.
Proof.
  intros H. rewrite <- (N2Nat.id n).
  assert (N.to_nat n < 64)%nat as Hk by lia.
  generalize dependent (N.to_nat n). clear. intros k Hk.
  do 64 (destruct k as [|k]; [reflexivity|]). lia.
Qed.

Lemma b64_index_quad (n k : N) : b64_index (b64_quad n k) = Some ((n / 64 ^ (3 - k)) mod 64).
Proof. apply b64_index_char. apply N.mod_lt. discriminate. Qed.

Lemma bytes_of_three (a b c : byte) :
  bytes_of (Byte.to_N a * 65536 + Byte.to_N b * 256 + Byte.to_N c) 3
  = Some [a; b; c].
Proof.
  pose proof (Byte.to_N_bounded a). pose proof (Byte.to_N_bounded b).
  pose proof (Byte.to_N_bounded c). unfold bytes_of.
  replace (_ / 65536) with (Byte.to_N a) by euclid.
  replace ((_ / 256) mod 256) with (Byte.to_N b) by euclid.
  replace (_ mod 256) with (Byte.to_N c) by euclid.
  now rewrite !Byte.of_to_N.
Qed.

Lemma bytes_of_two (a b : byte) :
  bytes_of (Byte.to_N a * 65536 + Byte.to_N b * 256) 2 = Some [a; b].
Proof.
  pose proof (Byte.to_N_bounded a). pose proof (Byte.to_N_bounded b).
  unfold bytes_of.
  replace (_ / 65536) with (Byte.to_N a) by euclid.
  replace ((_ / 256) mod 256) with (Byte.to_N b) by euclid.
  replace (_ mod 256) with 0 by euclid.
  now rewrite !Byte.of_to_N.
Qed.

Lemma bytes_of_one (a : byte) : bytes_of (Byte.to_N a * 65536) 1 = Some [a].
Proof.
  pose proof (Byte.to_N_bounded a). unfold bytes_of.
  replace (_ / 65536) with (Byte.to_N a) by euclid.
  replace ((_ / 256) mod 256) with 0 by euclid.
  replace (_ mod 256) with 0 by euclid.
  now rewrite !Byte.of_to_N.
Qed.

(** The four 6-bit groups of a number below [2 ^ 24] put it together again. *)
Lemma quads_of (n : N) :
  n < 16777216 ->
  ((n / 64 ^ (3 - 0)) mod 64) * 262144 + ((n / 64 ^ (3 - 1)) mod 64) * 4096
  + ((n / 64 ^ (3 - 2)) mod 64) * 64 + (n / 64 ^ (3 - 3)) mod 64 = n.
Proof.
  intros H.
  change (64 ^ (3 - 0)) with 262144. change (64 ^ (3 - 1)) with 4096.
  change (64 ^ (3 - 2)) with 64. change (64 ^ (3 - 3)) with 1.
  euclid.
Qed.

(** Decoding an encoded sequence of bytes gives the bytes back. *)
Lemma b64decode_b64encode (data : list byte) :
  b64decode (b64encode data) = Some data.
Proof.
  assert (forall k (l : list byte), (List.length l <= k)%nat ->
            b64decode (b64encode l) = Some l) as Hgen.
  { induction k as [|k IH]; intros l Hl.
    - destruct l; [reflexivity | simpl in Hl; lia].
    - destruct l as [|a [|b [|c rest]]]; [reflexivity | | |].
      + cbn [b64encode b64decode]. rewrite !b64_index_quad.
        change (b64_index "=") with (@None N).
        rewrite !Ascii.eqb_refl. cbn [String.eqb andb].
        pose proof (Byte.to_N_bounded a).
        rewrite <- (bytes_of_one a). f_equal.
        change (64 ^ (3 - 0)) with 262144. change (64 ^ (3 - 1)) with 4096.
        euclid.
      + cbn [b64encode b64decode]. rewrite !b64_index_quad.
        change (b64_index "=") with (@None N).
        rewrite !Ascii.eqb_refl. cbn [String.eqb andb].
        pose proof (Byte.to_N_bounded a). pose proof (Byte.to_N_bounded b).
        rewrite <- (bytes_of_two a b). f_equal.
        change (64 ^ (3 - 0)) with 262144. change (64 ^ (3 - 1)) with 4096.
        change (64 ^ (3 - 2)) with 64.
        euclid.
      + cbn [b64encode b64decode]. rewrite !b64_index_quad.
        pose proof (Byte.to_N_bounded a). pose proof (Byte.to_N_bounded b).
        pose proof (Byte.to_N_bounded c).
        rewrite quads_of by lia.
        rewrite bytes_of_three, IH by (simpl in Hl; lia). reflexivity. }
  apply (Hgen (List.length data)). lia.
Qed.

End Base64.

(** ** Joining and splitting paths *)

Section PathStrings.
Import PyStr.

Lemma split_append_sep (p t : string) (sep : ascii) :
  contains sep p = false ->
  split (p ++ String sep t) sep = p :: split t sep.
Proof.
  induction p as [|c p IH]; intros H.
  - simpl. now rewrite Ascii.eqb_refl.
  - simpl in H. apply orb_false_iff in H as [Hc Hp].
    change (split (String c (p ++ String sep t)) sep = String c p :: split t sep).
    rewrite split_cons, Ascii.eqb_sym, Hc, (IH Hp). reflexivity.
Qed.

Lemma join_cons (sep p q : string) (rest : list string) :
  join sep (p :: q :: rest) = p ++ sep ++ join sep (q :: rest).
Proof. reflexivity. Qed.

(** Components without a slash are found again by splitting. *)
Lemma split_join (l : list string) :
  l <> [] ->
  Forall (fun p => contains "/" p = false) l ->
  split (join "/" l) "/" = l.
Proof.
  induction l as [|p [|q rest] IH]; intros Hne Hall; [congruence | |].
  - simpl. apply split_no_sep. now inversion Hall.
  - rewrite join_cons. inversion Hall as [|? ? Hp Hrest]; subst.
    change ("/" ++ join "/" (q :: rest)) with (String "/" (join "/" (q :: rest))).
    rewrite (split_append_sep _ _ _ Hp), IH; [reflexivity | discriminate | assumption].
Qed.

Lemma contains_append (c : ascii) (a b : string) :
  contains c (a ++ b) = contains c a || contains c b.
Proof. induction a as [|d a IH]; simpl; [reflexivity|]. now rewrite IH, orb_assoc. Qed.

Lemma contains_join (c : ascii) (l : list string) :
  Ascii.eqb c "/" = false ->
  Forall (fun p => contains c p = false) l ->
  contains c (join "/" l) = false.
Proof.
  intros Hc. induction l as [|p [|q rest] IH]; intros Hall; [reflexivity | |].
  - now inversion Hall.
  - rewrite join_cons, !contains_append. inversion Hall; subst.
    rewrite IH by assumption. simpl. rewrite Hc.
    rewrite orb_false_r. assumption.
Qed.

Lemma prefix_empty (s : string) : String.prefix EmptyString s = true.
Proof. now destruct s. Qed.

Lemma prefix_refl (s : string) : String.prefix s s = true.
Proof.
  induction s as [|c s IH]; [reflexivity|]. simpl.
  destruct (ascii_dec c c); [assumption | congruence].
Qed.

Lemma prefix_append_same (p x y : string) :
  String.prefix (p ++ x) (p ++ y) = String.prefix x y.
Proof.
  induction p as [|c p IH]; [reflexivity|]. simpl.
  destruct (ascii_dec c c); [assumption | congruence].
Qed.

(** The text of a path starts with the text of each of its ancestors. *)
Lemma prefix_join_app (a b : list string) :
  String.prefix (join "/" a) (join "/" (a ++ b)) = true.
Proof.
  induction a as [|p [|q rest] IH].
  - apply prefix_empty.
  - destruct b as [|q b]; [apply prefix_refl|].
    change (([p] ++ q :: b)%list) with (p :: q :: b).
    rewrite join_cons. apply prefix_append.
  - change (((p :: q :: rest) ++ b)%list) with (p :: q :: (rest ++ b)%list).
    rewrite !join_cons, !prefix_append_same. exact IH.
Qed.

(** A path that starts with a name does not start with a slash. *)
Lemma join_not_absolute (p : string) (rest : list string) :
  String.eqb p EmptyString = false -> contains "/" p = false ->
  startswith (join "/" (p :: rest)) "/" = false.
Proof.
  intros Hne Hp. destruct p as [|c p]; [discriminate|].
  cbn [contains] in Hp. apply orb_false_iff in Hp as [Hc _].
  assert (forall t, String.prefix "/" (String c t) = false) as H.
  { intros t. cbn [String.prefix].
    destruct (ascii_dec "/" c) as [E|]; [|reflexivity].
    rewrite E, Ascii.eqb_refl in Hc. discriminate. }
  unfold startswith. destruct rest as [|q rest]; [apply H|].
  rewrite join_cons. apply H.
Qed.

Lemma replace_same (s : string) (c : ascii) : replace s c c = s.
Proof.
  induction s as [|d s IH]; [reflexivity|]. simpl. rewrite IH.
  destruct (Ascii.eqb_spec d c) as [->|]; reflexivity.
Qed.

Lemma last_app_nonempty (a b : list string) (d : string) :
  b <> [] -> last (a ++ b) d = last b d.
Proof.
  intros Hb. induction a as [|x a IH]; [reflexivity|].
  simpl. rewrite IH. destruct (a ++ b)%list eqn:E; [|reflexivity].
  apply app_eq_nil in E as [_ ->]. congruence.
Qed.

End PathStrings.

(** ** Paths *)

Section Paths.
Import PyStr FilesystemServer.

Lemma valid_name_component (s : string) :
  valid_name s = true -> path_component s = true.
Proof.
  unfold valid_name, path_component, is_component. intros H.
  repeat (apply andb_true_iff in H as [H ?]).
  repeat (apply andb_true_iff; split); assumption.
Qed.

Lemma component_valid_name (s : string) :
  path_component s = true -> String.eqb s ".." = false -> valid_name s = true.
Proof.
  unfold valid_name, path_component, is_component. intros H Hdd.
  repeat (apply andb_true_iff in H as [H ?]).
  rewrite Hdd. repeat (apply andb_true_iff; split); auto.
Qed.

Lemma component_facts (s : string) :
  path_component s = true ->
  is_component s = true /\ String.eqb s EmptyString = false
  /\ contains "/" s = false /\ contains (ascii_of_nat 0) s = false.
Proof.
  unfold path_component, is_component. intros H.
  repeat (apply andb_true_iff in H as [H ?]).
  repeat match goal with H : negb _ = true |- _ => apply negb_true_iff in H end.
  repeat split; try assumption.
  apply andb_true_iff; split; apply negb_true_iff; assumption.
Qed.

Lemma components_forall (l : list string) :
  forallb path_component l = true ->
  filter is_component l = l
  /\ Forall (fun p => contains "/" p = false) l
  /\ Forall (fun p => contains (ascii_of_nat 0) p = false) l.
Proof.
  induction l as [|s l IH]; intros H; [repeat split; constructor|].
  simpl in H. apply andb_true_iff in H as [Hs Hl].
  destruct (IH Hl) as (Hf & Hsl & Hnul).
  destruct (component_facts s Hs) as (Hc & _ & Hs1 & Hs2).
  simpl. rewrite Hc, Hf. repeat split; constructor; assumption.
Qed.

(** Writing a path and reading it again gives the path. *)
Lemma parse_str_path (p : Path) :
  forallb path_component (parts p) = true -> parse_path (str_path p) = p.
Proof.
  destruct p as [a l]. cbn [parts]. intros H.
  destruct (components_forall l H) as (Hf & Hsl & _).
  unfold parse_path, str_path. cbn [absolute parts].
  destruct a, l as [|q r]; try reflexivity.
  - change ("/" ++ join "/" (q :: r)) with (String "/" (join "/" (q :: r))).
    rewrite split_cons, Ascii.eqb_refl, split_join by (discriminate || assumption).
    change (filter is_component (EmptyString :: q :: r))
      with (filter is_component (q :: r)).
    rewrite Hf.
    replace (startswith (String "/" (join "/" (q :: r))) "/") with true
      by (symmetry; apply (prefix_append "/")).
    reflexivity.
  - rewrite split_join by (discriminate || assumption). rewrite Hf.
    simpl in H. apply andb_true_iff in H as [Hq _].
    destruct (component_facts q Hq) as (_ & Hne & Hq1 & _).
    now rewrite join_not_absolute.
Qed.

Lemma walk_up_app (acc ps qs : list string) :
  walk_up acc (ps ++ qs) = walk_up (rev (walk_up acc ps)) qs.
Proof.
  revert acc. induction ps as [|p ps IH]; intros acc; simpl.
  - now rewrite rev_involutive.
  - destruct (String.eqb p ".."); apply IH.
Qed.

Lemma walk_up_plain (acc qs : list string) :
  forallb valid_name qs = true -> walk_up acc qs = (rev acc ++ qs)%list.
Proof.
  revert acc. induction qs as [|q qs IH]; intros acc H; simpl.
  - now rewrite app_nil_r.
  - simpl in H. apply andb_true_iff in H as [Hq Hqs].
    assert (String.eqb q ".." = false) as ->.
    { unfold valid_name in Hq. repeat (apply andb_true_iff in Hq as [Hq ?]).
      now apply negb_true_iff. }
    rewrite (IH _ Hqs). simpl. now rewrite <- app_assoc.
Qed.

(** Below a canonical path, names add up. *)
Lemma walk_up_below (acc ps rel : list string) :
  forallb valid_name rel = true ->
  walk_up acc (ps ++ rel) = (walk_up acc ps ++ rel)%list.
Proof.
  intros H. now rewrite walk_up_app, (walk_up_plain _ _ H), rev_involutive.
Qed.

Lemma forallb_tl (f : string -> bool) (l : list string) :
  forallb f l = true -> forallb f (tl l) = true.
Proof. destruct l; simpl; [auto|]. intros H. now apply andb_true_iff in H. Qed.

(** A canonical path is made of names. *)
Lemma walk_up_names (acc ps : list string) :
  forallb valid_name acc = true ->
  forallb path_component ps = true ->
  forallb valid_name (walk_up acc ps) = true.
Proof.
  revert acc. induction ps as [|p ps IH]; intros acc Hacc Hps; simpl.
  - rewrite forallb_forall in *. intros x Hx. apply Hacc. now apply in_rev.
  - simpl in Hps. apply andb_true_iff in Hps as [Hp Hps].
    destruct (String.eqb p "..") eqn:E.
    + apply IH; [now apply forallb_tl | assumption].
    + apply IH; [|assumption]. simpl.
      now rewrite (component_valid_name p Hp E).
Qed.

Lemma lookup_app (n : node) (a b : list string) :
  lookup n (a ++ b) =
  match lookup n a with Some m => lookup m b | None => None end.
Proof.
  revert n. induction a as [|x a IH]; intros n; [reflexivity|].
  simpl. destruct n as [|es]; [reflexivity|].
  destruct (find_entry x es); [apply IH | reflexivity].
Qed.

(** What the operating system reaches is at the canonical path. *)
Lemma os_walk_canonical (root : node) (acc ps c : list string) :
  os_walk root acc ps = Some c -> c = walk_up acc ps.
Proof.
  revert acc. induction ps as [|p ps IH]; intros acc H; simpl in *.
  - congruence.
  - destruct (lookup root (rev acc)) as [[|es]|]; try discriminate.
    destruct (String.eqb p ".."); now apply IH.
Qed.

(** A path of names that leads to a node is walked as it is written. *)
Lemma os_walk_names (root n : node) (acc ps : list string) :
  forallb valid_name ps = true ->
  lookup root (rev acc ++ ps) = Some n ->
  os_walk root acc ps = Some (rev acc ++ ps)%list.
Proof.
  revert acc. induction ps as [|p ps IH]; intros acc Hps Hn; simpl.
  - now rewrite app_nil_r.
  - simpl in Hps. apply andb_true_iff in Hps as [Hp Hps].
    assert (String.eqb p ".." = false) as Hdd.
    { unfold valid_name in Hp. repeat (apply andb_true_iff in Hp as [Hp ?]).
      now apply negb_true_iff. }
    pose proof Hn as Hdir. rewrite lookup_app in Hdir.
    destruct (lookup root (rev acc)) as [[|es]|]; try discriminate.
    rewrite Hdd.
    replace (rev acc ++ p :: ps)%list with (rev (p :: acc) ++ ps)%list
      by (simpl; now rewrite <- app_assoc).
    apply IH; [assumption|].
    simpl. now rewrite <- app_assoc.
Qed.

End Paths.

(** ** The tree of files *)

Section Tree.
Import PyStr FilesystemServer.

Lemma wf_node_dir (es : list (string * node)) :
  wf_node (Dir es)
  = names_distinct (map fst es)
    && forallb (fun e => valid_name (fst e) && wf_node (snd e)) es.
Proof.
  cbn [wf_node]. f_equal.
  induction es as [|[k c] es IH]; [reflexivity|].
  cbn [forallb fst snd]. now rewrite <- IH.
Qed.

Lemma rglob_dir (es : list (string * node)) :
  rglob (Dir es)
  = flat_map (fun e => ([fst e], snd e)
                       :: map (fun x => (fst e :: fst x, snd x)) (rglob (snd e)))
             es.
Proof.
  cbn [rglob].
  induction es as [|[k c] es IH]; [reflexivity|].
  cbn [flat_map fst snd]. now rewrite <- IH.
Qed.

Lemma find_entry_in (k : string) (c : node) (es : list (string * node)) :
  find_entry k es = Some c -> In (k, c) es.
Proof.
  induction es as [|[k' c'] es IH]; simpl; [discriminate|].
  destruct (String.eqb_spec k' k) as [->|_].
  - intros [= ->]. now left.
  - intros H. right. now apply IH.
Qed.

Lemma in_find_entry (k : string) (c : node) (es : list (string * node)) :
  names_distinct (map fst es) = true -> In (k, c) es ->
  find_entry k es = Some c.
Proof.
  induction es as [|[k' c'] es IH]; simpl; [intros _ []|].
  intros Hd [E|Hin].
  - injection E as -> ->. now rewrite String.eqb_refl.
  - apply andb_true_iff in Hd as [Hk Hd].
    destruct (String.eqb_spec k' k) as [->|_]; [|now apply IH].
    apply negb_true_iff in Hk.
    assert (existsb (String.eqb k) (map fst es) = true) as Hex.
    { apply existsb_exists. exists k. split; [|apply String.eqb_refl].
      apply in_map_iff. now exists (k, c). }
    congruence.
Qed.

Lemma wf_child (es : list (string * node)) (k : string) (c : node) :
  wf_node (Dir es) = true -> In (k, c) es ->
  valid_name k = true /\ wf_node c = true.
Proof.
  rewrite wf_node_dir. intros H Hin.
  apply andb_true_iff in H as [_ H]. rewrite forallb_forall in H.
  specialize (H _ Hin). now apply andb_true_iff in H.
Qed.

(** Well-formedness goes down the tree. *)
Lemma wf_lookup (rel : list string) (n m : node) :
  wf_node n = true -> lookup n rel = Some m -> wf_node m = true.
Proof.
  revert n. induction rel as [|k rel IH]; intros n Hwf H; simpl in H.
  - congruence.
  - destruct n as [|es]; [discriminate|].
    destruct (find_entry k es) as [c|] eqn:E; [|discriminate].
    apply (IH c); [|assumption].
    now apply (wf_child es k c Hwf), find_entry_in.
Qed.

(** The entries [rglob] finds in a directory. *)
Lemma in_rglob_dir (es : list (string * node)) (rel : list string) (n : node) :
  In (rel, n) (rglob (Dir es)) <->
  exists k c rel', In (k, c) es /\ rel = k :: rel'
    /\ ((rel' = [] /\ n = c) \/ In (rel', n) (rglob c)).
Proof.
  rewrite rglob_dir, in_flat_map. split.
  - intros ([k c] & Hin & [E | H]); cbn [fst snd] in *.
    + injection E as <- <-. exists k, c, []. auto.
    + apply in_map_iff in H as ([rel' n'] & E & H). cbn [fst snd] in E.
      injection E as <- <-. exists k, c, rel'. auto.
  - intros (k & c & rel' & Hin & -> & [[-> ->] | H]);
      exists (k, c); (split; [assumption|]); cbn [fst snd].
    + now left.
    + right. apply in_map_iff. now exists (rel', n).
Qed.

(** What [rglob] finds is there, under a path of names. *)
Lemma rglob_sound (rel : list string) (root n : node) :
  wf_node root = true -> In (rel, n) (rglob root) ->
  lookup root rel = Some n /\ rel <> [] /\ forallb valid_name rel = true.
Proof.
  revert root. induction rel as [|k rel IH]; intros root Hwf H.
  - destruct root as [|es]; [destruct H|].
    apply in_rglob_dir in H as (? & ? & ? & _ & E & _). discriminate.
  - destruct root as [|es]; [destruct H|].
    apply in_rglob_dir in H as (k' & c & rel' & Hin & E & H).
    injection E as <- <-.
    destruct (wf_child es k c Hwf Hin) as [Hk Hc].
    rewrite wf_node_dir in Hwf. apply andb_true_iff in Hwf as [Hd _].
    cbn [lookup forallb]. rewrite (in_find_entry k c es Hd Hin), Hk.
    split; [|split; [discriminate|]].
    + destruct H as [[-> ->] | H]; [reflexivity|]. now apply IH.
    + destruct H as [[-> ->] | H]; [reflexivity|]. now apply (IH c).
Qed.

(** Whatever is below a directory is found by [rglob]. *)
Lemma rglob_complete (rel : list string) (root n : node) :
  rel <> [] -> lookup root rel = Some n -> In (rel, n) (rglob root).
Proof.
  revert root. induction rel as [|k rel IH]; intros root Hne H; [congruence|].
  simpl in H. destruct root as [|es]; [discriminate|].
  destruct (find_entry k es) as [c|] eqn:E; [|discriminate].
  apply in_rglob_dir. exists k, c, rel.
  split; [now apply find_entry_in|]. split; [reflexivity|].
  destruct rel as [|k' rel]; [left; split; [reflexivity|]; simpl in H; congruence|].
  right. apply IH; [discriminate | assumption].
Qed.

End Tree.

(** ** One entry per path *)

Section Unique.
Import PyStr FilesystemServer Spec.

Lemma same_path_true (a b : list string) : same_path a b = true <-> a = b.
Proof. unfold same_path. destruct (list_eq_dec string_dec a b); split; congruence. Qed.









End Unique.

(** ** The handlers of the file system server *)

Section Handlers.
Import PyStr FilesystemServer Spec.


Lemma get_mime_type_str (p : Path) :
  forallb path_component (parts p) = true ->
  get_mime_type (str_path p) = mime_of_name (path_name p).
Proof. intros H. unfold get_mime_type. now rewrite (parse_str_path p H). Qed.

Lemma forallb_names_components (l : list string) :
  forallb valid_name l = true -> forallb path_component l = true.
Proof.
  rewrite !forallb_forall. intros H x Hx. apply valid_name_component. now apply H.
Qed.

(** The resource of one file. *)
Lemma resource_of_file (folder : Path) (rel : list string) (data : list byte) (v : Z) :
  forallb path_component (parts folder) = true ->
  rel <> [] -> forallb valid_name rel = true ->
  format_file_size (Z.of_nat (List.length data)) = Return (size_text v) ->
  resource_of folder rel data = Return (listed rel v).
Proof.
  intros Hf Hne Hrel Hsize. unfold resource_of, listed, uri_of.
  rewrite Hsize. unfold os_sep. rewrite replace_same.
  assert (str_path (mkPath false rel) = join "/" rel) as ->
    by (destruct rel; [congruence | reflexivity]).
  assert (truediv folder (mkPath false rel)
          = mkPath (absolute folder) (parts folder ++ rel)) as -> by reflexivity.
  rewrite get_mime_type_str
    by (cbn [parts]; rewrite forallb_app, Hf; now apply forallb_names_components).
  unfold path_name. cbn [parts]. now rewrite (last_app_nonempty _ _ _ Hne).
Qed.





End Handlers.

Section Reading.
Import PyStr FilesystemServer Spec.

Variable w : World.
Variable folder : Path.
Variable root : node.
Hypothesis Hwf : wf_world w = true.
Hypothesis Hfolder : RESOURCE_FOLDER w = Some folder.
Hypothesis Hroot : node_at w folder = Some root.

Lemma world_facts :
  wf_node (fs w) = true /\ forallb valid_name (cwd w) = true
  /\ forallb path_component (parts folder) = true.
Proof.
  unfold wf_world in Hwf. rewrite Hfolder in Hwf.
  apply andb_true_iff in Hwf as [H ?]. apply andb_true_iff in H as [? ?]. auto.
Qed.

Lemma folder_facts :
  lookup (fs w) (canonical w folder) = Some root /\ wf_node root = true
  /\ forallb valid_name (canonical w folder) = true.
Proof.
  destruct world_facts as (Hfs & Hcwd & Hparts).
  unfold node_at in Hroot.
  destruct (os_walk (fs w) (start w folder) (parts folder)) as [c|] eqn:E;
    [|discriminate].
  apply os_walk_canonical in E. fold (canonical w folder) in E. subst c.
  split; [assumption|]. split; [now apply (wf_lookup (canonical w folder) (fs w))|].
  apply walk_up_names; [|assumption].
  unfold start. destruct (absolute folder); [reflexivity|].
  rewrite forallb_forall in *. intros x Hx. apply Hcwd. now apply in_rev.
Qed.

(** The names on the way to a node below the folder are valid. *)
Lemma below_names (rel : list string) (n : node) :
  rel <> [] -> lookup root rel = Some n -> forallb valid_name rel = true.
Proof.
  intros Hne H. destruct folder_facts as (_ & Hr & _).
  now apply (rglob_sound rel root n Hr), rglob_complete.
Qed.

(** Reading the URI of a file below the folder serves the bytes of that
    file under the MIME type of its name. *)
Lemma read_resource_file (rel : list string) (data : list byte) :
  rel <> [] -> lookup root rel = Some (File data) ->
  read_resource w (uri_of rel)
  = content_of (mime_of_name (last rel EmptyString)) data.
Proof.
  intros Hne Hfile.
  pose proof (below_names rel _ Hne Hfile) as Hrel.
  destruct world_facts as (Hfs & Hcwd & Hparts).
  destruct folder_facts as (Hcanon & Hr & Hnames).
  set (canon := canonical w folder) in *.
  pose proof (forallb_names_components rel Hrel) as Hcomp.
  destruct (components_forall rel Hcomp) as (_ & _ & Hnul).
  unfold read_resource, uri_of.
  replace (String.eqb (prefix ++ join "/" rel) EmptyString) with false
    by reflexivity.
  unfold startswith at 1. rewrite prefix_append, drop_append, Hfolder.
  cbn [negb]. unfold os_sep. rewrite replace_same.
  rewrite (contains_join (ascii_of_nat 0) rel eq_refl Hnul).
  assert (parse_path (join "/" rel) = mkPath false rel) as ->.
  { rewrite <- (parse_str_path (mkPath false rel) Hcomp).
    destruct rel; [congruence | reflexivity]. }
  assert (resolve w (truediv folder (mkPath false rel))
          = mkPath true (canon ++ rel)) as ->.
  { unfold resolve, truediv. cbn [absolute parts].
    now rewrite (walk_up_below _ _ _ Hrel). }
  assert (resolve w folder = mkPath true canon) as -> by reflexivity.
  assert (forallb valid_name (canon ++ rel) = true) as Hall
    by now rewrite forallb_app, Hnames, Hrel.
  assert (lookup (fs w) (canon ++ rel) = Some (File data)) as Hlook
    by now rewrite lookup_app, Hcanon.
  assert (startswith (str_path (mkPath true (canon ++ rel)))
                     (str_path (mkPath true canon)) = true) as ->.
  { unfold startswith, str_path. cbn [absolute parts].
    rewrite prefix_append_same. apply prefix_join_app. }
  cbn [negb]. unfold exists_, read_text, read_bytes.
  assert (node_at w (mkPath true (canon ++ rel)) = Some (File data)) as ->.
  { unfold node_at, start. cbn [absolute parts].
    now rewrite (os_walk_names (fs w) (File data) [] _ Hall Hlook). }
  cbn [negb].
  rewrite get_mime_type_str by (now apply forallb_names_components).
  unfold path_name. cbn [parts]. rewrite (last_app_nonempty _ _ _ Hne).
  unfold content_of.
  destruct (is_text_mime_type _); [|reflexivity].
  destruct (utf8_decode data); reflexivity.
Qed.


End Reading.

(** ** Listing and reading files *)

Section ListFacts.
Import PyStr FilesystemServer Spec Examples.





End ListFacts.

(** ** The traversal guard *)

Section Guard.
Import PyStr FilesystemServer Spec.

Lemma prefix_trans_append (d d' x : string) :
  String.prefix d d' = true -> String.prefix d (d' ++ x) = true.
Proof.
  intros H. apply prefix_inv in H as [r ->].
  rewrite append_assoc. apply prefix_append.
Qed.

(** The text of a folder is a prefix of the text of whatever lies in a
    sibling whose name starts with the name of the folder. *)
Lemma prefix_join_sibling (c rest : list string) (d d' : string) :
  String.prefix d d' = true ->
  String.prefix (join "/" (c ++ [d])) (join "/" (c ++ d' :: rest)) = true.
Proof.
  intros H. induction c as [|p c IH].
  - simpl. destruct rest as [|q rest]; [assumption|].
    now apply prefix_trans_append.
  - assert (forall (tail : list string) (x : string),
              join "/" ((p :: c) ++ x :: tail)
              = p ++ "/" ++ join "/" (c ++ x :: tail)) as Hj.
    { intros tail x. simpl. destruct (c ++ x :: tail)%list eqn:E; [|reflexivity].
      now destruct c. }
    rewrite (Hj [] d), (Hj rest d'), !prefix_append_same. exact IH.
Qed.

(** Splitting a concatenation: the last piece of the first string and the
    first piece of the second are one piece. *)
Lemma split_app (a b : string) (sep : ascii) :
  split (a ++ b) sep
  = (removelast (split a sep)
     ++ String.append (last (split a sep) EmptyString)
                      (hd EmptyString (split b sep))
        :: tl (split b sep))%list.
Proof.
  induction a as [|x a IH].
  - simpl. pose proof (split_not_nil b sep).
    destruct (split b sep); [congruence | reflexivity].
  - change (split (String x (a ++ b)) sep
            = (removelast (split (String x a) sep)
               ++ String.append (last (split (String x a) sep) EmptyString)
                                (hd EmptyString (split b sep))
                  :: tl (split b sep))%list).
    rewrite !split_cons, IH. pose proof (split_not_nil a sep) as Hne.
    destruct (split a sep) as [|s [|s2 S]]; [congruence | |];
      destruct (Ascii.eqb x sep); reflexivity.
Qed.

Lemma join_empty (l : list string) :
  forallb valid_name l = true -> join "/" l = EmptyString -> l = [].
Proof.
  destruct l as [|p [|q l]]; [reflexivity | |]; cbn [forallb]; intros Hv H.
  - simpl in H. subst p. discriminate Hv.
  - rewrite join_cons in H. destruct p; [discriminate Hv | discriminate H].
Qed.

(** The text of a path starts with the text of the folder [c ++ [d]]
    exactly when the path goes on from [c] with a name that starts with
    [d]. *)
Lemma prefix_join_inv (c t : list string) (d : string) :
  forallb valid_name (c ++ [d]) = true -> forallb valid_name t = true ->
  String.prefix (join "/" (c ++ [d])) (join "/" t) = true ->
  exists d' rest, t = (c ++ d' :: rest)%list /\ String.prefix d d' = true.
Proof.
  intros HF Ht H. apply prefix_inv in H as [r Hr].
  assert (t <> []) as Hne.
  { intros ->. simpl in Hr. destruct (join "/" (c ++ [d])) eqn:E; [|discriminate].
    apply join_empty in E; [|assumption]. now destruct c. }
  destruct (components_forall t (forallb_names_components t Ht)) as (_ & Hst & _).
  destruct (components_forall _ (forallb_names_components _ HF)) as (_ & HsF & _).
  pose proof (split_join t Hne Hst) as Hsplit.
  rewrite Hr, split_app, split_join in Hsplit;
    [|now destruct c | assumption].
  rewrite removelast_last, last_last in Hsplit.
  exists (d ++ hd EmptyString (split r "/")), (tl (split r "/")).
  split; [now symmetry | apply prefix_append].
Qed.

Lemma split_pieces (s : string) (c : ascii) :
  contains c s = false ->
  Forall (fun p => contains c p = false) (split s "/").
Proof.
  induction s as [|x s IH]; intros H; [repeat constructor|].
  cbn [contains] in H. apply orb_false_iff in H as [Hx Hs].
  specialize (IH Hs). rewrite split_cons.
  pose proof (split_not_nil s "/") as Hne.
  destruct (split s "/") as [|h l]; [congruence|].
  inversion IH; subst.
  destruct (Ascii.eqb x "/").
  - constructor; [reflexivity | assumption].
  - constructor; [|assumption]. cbn [hd contains]. rewrite Hx. assumption.
Qed.

Lemma split_pieces_sep (s : string) :
  Forall (fun p => contains "/" p = false) (split s "/").
Proof.
  induction s as [|x s IH]; [repeat constructor|].
  rewrite split_cons. pose proof (split_not_nil s "/") as Hne.
  destruct (split s "/") as [|h l]; [congruence|].
  inversion IH; subst.
  destruct (Ascii.eqb x "/") eqn:E.
  - constructor; [reflexivity | assumption].
  - constructor; [|assumption].
    cbn [hd contains]. rewrite Ascii.eqb_sym, E. assumption.
Qed.

(** The components of a parsed path. *)
Lemma parse_path_components (s : string) :
  contains (ascii_of_nat 0) s = false ->
  forallb path_component (parts (parse_path s)) = true.
Proof.
  intros Hnul. unfold parse_path. cbn [parts].
  pose proof (split_pieces s _ Hnul) as H0. pose proof (split_pieces_sep s) as H1.
  induction (split s "/") as [|p l IH]; [reflexivity|].
  inversion H0; subst. inversion H1; subst. cbn [filter].
  destruct (is_component p) eqn:E; [|now apply IH].
  cbn [forallb]. rewrite IH by assumption.
  unfold path_component.
  match goal with Ha : contains _ p = false, Hb : contains _ p = false |- _ =>
    rewrite E, Ha, Hb end.
  reflexivity.
Qed.

(** The guard of [read_resource]: when the text of the canonical path does
    not start with the text of the canonical folder, the read is refused. *)
Lemma traversal_denied (w : World) (folder : Path) (relative_path : string) :
  RESOURCE_FOLDER w = Some folder ->
  contains (ascii_of_nat 0) relative_path = false ->
  startswith
    (str_path (resolve w (truediv folder (parse_path relative_path))))
    (str_path (resolve w folder)) = false ->
  read_resource w (prefix ++ relative_path)
  = Raise (ValueError "Invalid path: Access denied: path traversal attempt").
Proof.
  intros Hf Hnul Hout. unfold read_resource.
  replace (String.eqb (prefix ++ relative_path) EmptyString) with false
    by reflexivity.
  unfold startswith at 1. rewrite prefix_append, drop_append, Hf, Hnul.
  unfold os_sep. rewrite replace_same. cbn [negb]. rewrite Hout. reflexivity.
Qed.

Variable w : World.
Variable folder : Path.
Hypothesis Hwf : wf_world w = true.
Hypothesis Hfolder : RESOURCE_FOLDER w = Some folder.

(** Every file of a sibling directory whose name starts with the name of
    the folder is served through [..], although its canonical path is not
    below the folder. *)
Lemma sibling_exposed (c rel : list string) (d d' : string) (data : list byte) :
  canonical w folder = (c ++ [d])%list ->
  startswith d' d = true -> String.eqb d' d = false ->
  lookup (fs w) (c ++ d' :: rel) = Some (File data) ->
  forallb valid_name (d' :: rel) = true -> rel <> [] ->
  under (c ++ [d]) (c ++ d' :: rel) = false
  /\ read_resource w (prefix ++ join "/" (".." :: d' :: rel))
     = content_of (mime_of_name (last rel EmptyString)) data.
Proof.
  intros Hcanon Hpre Hneq Hfile Hnames Hne. split.
  { unfold under. rewrite length_app, firstn_app. cbn [List.length].
    replace (List.length c + 1 - List.length c) with 1 by lia.
    rewrite firstn_all2 by lia. cbn [firstn].
    destruct (same_path (c ++ [d']) (c ++ [d])) eqn:E; [|reflexivity].
    apply same_path_true, app_inv_head in E. injection E as ->.
    now rewrite String.eqb_refl in Hneq. }
  unfold wf_world in Hwf. rewrite Hfolder in Hwf.
  apply andb_true_iff in Hwf as [Hw Hparts].
  apply andb_true_iff in Hw as [Hfs Hcwd].
  assert (forallb valid_name (canonical w folder) = true) as Hvalid.
  { apply walk_up_names; [|assumption].
    unfold start. destruct (absolute folder); [reflexivity|].
    rewrite forallb_forall in *. intros x Hx. apply Hcwd. now apply in_rev. }
  rewrite Hcanon, forallb_app in Hvalid.
  apply andb_true_iff in Hvalid as [Hc _].
  pose proof (forallb_names_components _ Hnames) as Hcomp.
  assert (forallb path_component (".." :: d' :: rel) = true) as Hcomp'
    by (cbn [forallb]; cbn [forallb] in Hcomp; now rewrite Hcomp).
  destruct (components_forall _ Hcomp') as (_ & _ & Hnul).
  unfold read_resource.
  replace (String.eqb (prefix ++ join "/" (".." :: d' :: rel)) EmptyString)
    with false by reflexivity.
  unfold startswith at 1. rewrite prefix_append, drop_append, Hfolder.
  cbn [negb]. unfold os_sep. rewrite replace_same.
  rewrite (contains_join (ascii_of_nat 0) _ eq_refl Hnul).
  assert (parse_path (join "/" (".." :: d' :: rel))
          = mkPath false (".." :: d' :: rel)) as ->
    by (rewrite <- (parse_str_path (mkPath false _) Hcomp'); reflexivity).
  assert (resolve w (truediv folder (mkPath false (".." :: d' :: rel)))
          = mkPath true (c ++ d' :: rel)) as ->.
  { unfold resolve, truediv. cbn [absolute parts]. f_equal.
    change (walk_up (start w folder) (parts folder ++ ".." :: d' :: rel)
            = (c ++ d' :: rel)%list).
    rewrite walk_up_app. fold (canonical w folder). rewrite Hcanon, rev_app_distr.
    change (walk_up (rev [d] ++ rev c) (".." :: d' :: rel))
      with (walk_up (rev c) (d' :: rel)).
    now rewrite (walk_up_plain _ _ Hnames), rev_involutive. }
  assert (resolve w folder = mkPath true (c ++ [d])) as ->
    by (unfold resolve; now fold (canonical w folder); rewrite Hcanon).
  assert (startswith (str_path (mkPath true (c ++ d' :: rel)))
                     (str_path (mkPath true (c ++ [d]))) = true) as ->.
  { unfold startswith, str_path. cbn [absolute parts].
    rewrite prefix_append_same. now apply prefix_join_sibling. }
  cbn [negb]. unfold exists_, read_text, read_bytes.
  assert (forallb valid_name (c ++ d' :: rel) = true) as Hall
    by now rewrite forallb_app, Hc, Hnames.
  assert (node_at w (mkPath true (c ++ d' :: rel)) = Some (File data)) as ->.
  { unfold node_at, start. cbn [absolute parts].
    now rewrite (os_walk_names (fs w) (File data) [] _ Hall Hfile). }
  cbn [negb].
  rewrite get_mime_type_str by (now apply forallb_names_components).
  unfold path_name. cbn [parts].
  replace (c ++ d' :: rel)%list with ((c ++ [d']) ++ rel)%list
    by now rewrite <- app_assoc.
  rewrite (last_app_nonempty _ _ _ Hne).
  unfold content_of.
  destruct (is_text_mime_type _); [|reflexivity].
  destruct (utf8_decode data); reflexivity.
Qed.

(** The guard, exactly: a read is refused unless the canonical path of the
    request goes on from the parent [c] of the folder [c ++ [d]] with a name
    that starts with [d]. *)
Lemma escape_denied (c : list string) (d relative_path : string) :
  canonical w folder = (c ++ [d])%list ->
  contains (ascii_of_nat 0) relative_path = false ->
  (forall d' rest,
     parts (resolve w (truediv folder (parse_path relative_path)))
     = (c ++ d' :: rest)%list -> startswith d' d = false) ->
  read_resource w (prefix ++ relative_path)
  = Raise (ValueError "Invalid path: Access denied: path traversal attempt").
Proof.
  intros Hcanon Hnul Hout. apply (traversal_denied w folder); try assumption.
  unfold wf_world in Hwf. rewrite Hfolder in Hwf.
  apply andb_true_iff in Hwf as [Hw Hparts].
  apply andb_true_iff in Hw as [_ Hcwd].
  assert (forall p, forallb path_component (parts p) = true ->
            forallb valid_name (parts (resolve w p)) = true) as Hres.
  { intros p Hp. cbn [resolve parts]. apply walk_up_names; [|assumption].
    unfold start. destruct (absolute p); [reflexivity|].
    rewrite forallb_forall in *. intros x Hx. apply Hcwd. now apply in_rev. }
  pose proof (Hres folder Hparts) as HF.
  change (parts (resolve w folder)) with (canonical w folder) in HF.
  rewrite Hcanon in HF.
  set (target := truediv folder (parse_path relative_path)) in *.
  assert (forallb valid_name (parts (resolve w target)) = true) as Ht.
  { apply Hres. pose proof (parse_path_components _ Hnul) as Hq.
    unfold target, truediv. destruct (absolute (parse_path relative_path));
      [assumption|]. cbn [parts]. now rewrite forallb_app, Hparts, Hq. }
  destruct (startswith (str_path (resolve w target))
                       (str_path (resolve w folder))) eqn:E; [|reflexivity].
  exfalso. unfold startswith, str_path in E.
  change (absolute (resolve w target)) with true in E.
  change (absolute (resolve w folder)) with true in E.
  change (parts (resolve w folder)) with (canonical w folder) in E.
  cbv iota in E. rewrite Hcanon, prefix_append_same in E.
  destruct (prefix_join_inv c _ d HF Ht E) as (d' & rest & Heq & Hpre).
  specialize (Hout d' rest Heq). unfold startswith in Hout. congruence.
Qed.

End Guard.

Section GuardAtWork.
Import PyStr FilesystemServer Spec Examples.

(** C1 (the code departs from it).  With the folder [/srv/root], the URI
    [file://resources/../root-evil/secret.txt] has the canonical path
    [/srv/root-evil/secret.txt], which is not below the folder; the guard
    compares texts, finds the prefix [/srv/root], and the file is served.
    [file://resources/../../etc/passwd] is refused. *)
Theorem sibling_directory_is_served :
  parts (resolve sample_world
           (truediv (parse_path "/srv/root")
                    (parse_path "../root-evil/secret.txt")))
  = ["srv"; "root-evil"; "secret.txt"]
  /\ under (parts (resolve sample_world (parse_path "/srv/root")))
           ["srv"; "root-evil"; "secret.txt"] = false
  /\ read_resource sample_world "file://resources/../root-evil/secret.txt"
     = Return (mkReadResourceResult
                 [TextContent (map N_of_ascii
                                   (list_ascii_of_string "top secret"))])
  /\ read_resource sample_world "file://resources/../../etc/passwd"
     = Raise (ValueError "Invalid path: Access denied: path traversal attempt").
Proof. repeat split; vm_compute; reflexivity. Qed.

End GuardAtWork.

Section ListingAndReading.
Import PyStr FilesystemServer Spec Examples.




End ListingAndReading.

Section ContentAndSizes.
Import PyStr FilesystemServer Spec Examples.

(** C6 (amended).  Reading a file below the folder looks at the MIME type
    of its name.  When the type starts with [text/] or is
    [application/json], [application/javascript] or [image/svg+xml], the
    bytes are decoded as UTF-8 and returned as text, every carriage return
    (with the line feed after it, if any) read as one line feed; bytes
    that are not UTF-8 raise [UnicodeDecodeError].  For every other type
    the result is a blob tagged with the type, and decoding the blob gives
    the bytes of the file. *)
Theorem content_classification (w : World) (folder : Path) (root : node)
    (rel : list string) (data : list byte)
    (Hwf : wf_world w = true)
    (Hfolder : RESOURCE_FOLDER w = Some folder)
    (Hroot : node_at w folder = Some root)
    (Hne : rel <> [])
    (Hfile : lookup root rel = Some (File data)) :
  let mime := mime_of_name (last rel EmptyString) in
  read_resource w ("file://resources/" ++ join "/" rel)
  = (if startswith mime "text/"
        || String.eqb mime "application/json"
        || String.eqb mime "application/javascript"
        || String.eqb mime "image/svg+xml"
     then match utf8_decode data with
          | Some t =>
              Return (mkReadResourceResult
                        [TextContent (universal_newlines t)])
          | None => Raise UnicodeDecodeError
          end
     else Return (mkReadResourceResult [BlobContent (b64encode data) mime]))
  /\ b64decode (b64encode data) = Some data.
Proof.
  split; [|apply b64decode_b64encode].
  exact (read_resource_file w folder root Hwf Hfolder Hroot rel data Hne Hfile).
Qed.

Lemma content_classification_witness :
  read_resource sample_world "file://resources/logo.png"
  = Return (mkReadResourceResult
              [BlobContent (b64encode minimal_png) "image/png"])
  /\ b64decode (b64encode minimal_png) = Some minimal_png.
Proof.
  exact (content_classification sample_world (parse_path "/srv/root")
           (Dir create_sample_files) ["logo.png"] minimal_png
           eq_refl eq_refl eq_refl ltac:(discriminate) eq_refl).
Defined.

(** C6 as stated fails: [export.csv] is of type [text/csv] and is not
    UTF-8, so no text is returned; [windows.txt] is returned as a text that
    is not its decoded bytes, the carriage returns being gone. *)
Lemma text_files_outside_claim :
  is_text_mime_type (mime_of_name "export.csv") = true
  /\ read_resource mixed_world "file://resources/export.csv"
     = Raise UnicodeDecodeError
  /\ is_text_mime_type (mime_of_name "windows.txt") = true
  /\ utf8_decode [x61; x0d; x0a; x62; x0d] = Some [97; 13; 10; 98; 13]%N
  /\ read_resource mixed_world "file://resources/windows.txt"
     = Return (mkReadResourceResult [TextContent [97; 10; 98; 10]%N]).
Proof. repeat split. Qed.



(** C8 (amended).  For every size from [0] up to the largest integer
    [float] takes (below [2 ^ 1024 - 2 ^ 970]), with [v] the double of the
    size ([v] is the size itself below [2 ^ 53]): the text is [v] divided
    by 1024 once for each power of 1024 it reaches, three times at most,
    rounded to one decimal digit, then a space and the unit [B], [KB],
    [MB] or [GB] of that many divisions.  [0] gives ["0.0 B"], [1536]
    gives ["1.5 KB"] and [1048576] gives ["1.0 MB"]. *)
Theorem format_file_size_units (size : Z)
    (Hlo : (0 <= size)%Z) (Hhi : (size < 2 ^ 1024 - 2 ^ 970)%Z) :
  exists v : Z,
    nearest_double size = Some v
    /\ (v = size \/ 2 ^ 53 <= size)%Z
    /\ (let tenths := round_half_even (10 * v) (1024 ^ Z.of_nat (steps v)) in
        format_file_size size
        = Return (decimal (tenths / 10) ++ "." ++ decimal (tenths mod 10)
                  ++ " " ++ nth (steps v) suffixes EmptyString)
        /\ String.length (decimal (tenths mod 10)) = 1)
    /\ format_file_size 0 = Return "0.0 B"
    /\ format_file_size 1536 = Return "1.5 KB"
    /\ format_file_size 1048576 = Return "1.0 MB".
Proof.
  destruct (nearest_double_finite size (conj Hlo Hhi)) as (v & Hv & Hv0).
  exists v. split; [assumption|]. split.
  { destruct (Z.lt_ge_cases size (2 ^ 53)) as [H|H]; [left | now right].
    rewrite nearest_double_exact in Hv by lia. congruence. }
  split; [|repeat split].
  cbv zeta. split.
  - apply (format_of_double size v Hv0).
    unfold float_of_int. destruct (Z.ltb_spec size 0); [lia|]. now rewrite Hv.
  - apply decimal_digit. apply Z.mod_pos_bound. lia.
Qed.

Lemma format_file_size_units_witness :
  format_file_size 1280 = Return "1.2 KB".
Proof.
  destruct (format_file_size_units 1280 ltac:(vm_compute; discriminate)
              ltac:(vm_compute; reflexivity))
    as (v & Hv & _ & [H _] & _).
  injection Hv as <-. exact H.
Defined.

(** C8 as stated fails: [float] raises [OverflowError] for a size of
    [2 ^ 1024], and no text is made. *)
Lemma format_file_size_overflow :
  ~ (forall size : Z, (0 <= size)%Z ->
       exists s, format_file_size size = Return s).
Proof.
  intros H. destruct (H (2 ^ 1024)%Z ltac:(vm_compute; discriminate)) as [s Hs].
  vm_compute in Hs. discriminate Hs.
Qed.

End ContentAndSizes.

(** ** Reading below the folder: errors and other names of a file *)

Section ReadingBelow.
Import PyStr FilesystemServer Spec Props.

Variable w : World.
Variable folder : Path.
Variable root : node.
Hypothesis Hwf : wf_world w = true.
Hypothesis Hfolder : RESOURCE_FOLDER w = Some folder.
Hypothesis Hroot : node_at w folder = Some root.

(** A request whose canonical path is [rel] below the folder is answered
    from the node at [rel]. *)
Lemma read_resource_resolved (relative_path : string) (rel : list string) :
  contains (ascii_of_nat 0) relative_path = false ->
  parts (resolve w (truediv folder (parse_path relative_path)))
  = (canonical w folder ++ rel)%list ->
  forallb valid_name rel = true ->
  read_resource w (prefix ++ relative_path)
  = match lookup root rel with
    | None => Raise (ValueError ("Resource not found: "
                                 ++ prefix ++ relative_path))
    | Some (Dir _) => Raise IsADirectoryError
    | Some (File data) =>
        content_of (mime_of_name (last (canonical w folder ++ rel) EmptyString))
                   data
    end.
Proof.
  intros Hnul Hres Hrel.
  destruct (folder_facts w folder root Hwf Hfolder Hroot) as (Hcanon & Hr & Hnames).
  set (canon := canonical w folder) in *.
  unfold read_resource.
  replace (String.eqb (prefix ++ relative_path) EmptyString) with false
    by reflexivity.
  unfold startswith at 1. rewrite prefix_append, drop_append, Hfolder, Hnul.
  cbn [negb]. unfold os_sep. rewrite replace_same.
  assert (resolve w (truediv folder (parse_path relative_path))
          = mkPath true (canon ++ rel)) as -> by (rewrite <- Hres; reflexivity).
  assert (resolve w folder = mkPath true canon) as -> by reflexivity.
  assert (startswith (str_path (mkPath true (canon ++ rel)))
                     (str_path (mkPath true canon)) = true) as ->.
  { unfold startswith, str_path. cbn [absolute parts].
    rewrite prefix_append_same. apply prefix_join_app. }
  cbn [negb].
  assert (forallb valid_name (canon ++ rel) = true) as Hall
    by now rewrite forallb_app, Hnames, Hrel.
  assert (lookup (fs w) (canon ++ rel) = lookup root rel) as Hlook
    by now rewrite lookup_app, Hcanon.
  assert (node_at w (mkPath true (canon ++ rel)) = lookup root rel) as Hnode.
  { unfold node_at, start. cbn [absolute parts].
    destruct (lookup root rel) as [n|] eqn:E.
    - now rewrite (os_walk_names (fs w) n [] _ Hall Hlook).
    - destruct (os_walk (fs w) [] (canon ++ rel)) as [c|] eqn:Ew; [|reflexivity].
      apply os_walk_canonical in Ew. subst c.
      now rewrite (walk_up_plain [] _ Hall). }
  unfold exists_, read_text, read_bytes. rewrite Hnode.
  destruct (lookup root rel) as [[data|es]|]; cbn [negb]; [| |reflexivity].
  - rewrite get_mime_type_str by (now apply forallb_names_components).
    unfold path_name, content_of. cbn [parts].
    destruct (is_text_mime_type _); [|reflexivity].
    destruct (utf8_decode data); reflexivity.
  - destruct (is_text_mime_type _); reflexivity.
Qed.

(** The plain URI of a path of names. *)
Lemma read_resource_below (rel : list string) :
  forallb valid_name rel = true ->
  read_resource w (uri_of rel)
  = match lookup root rel with
    | None => Raise (ValueError ("Resource not found: " ++ uri_of rel))
    | Some (Dir _) => Raise IsADirectoryError
    | Some (File data) =>
        content_of (mime_of_name (last (canonical w folder ++ rel) EmptyString))
                   data
    end.
Proof.
  intros Hrel.
  pose proof (forallb_names_components rel Hrel) as Hcomp.
  destruct (components_forall rel Hcomp) as (_ & _ & Hnul).
  apply read_resource_resolved; [|  |assumption].
  - now apply contains_join.
  - assert (parse_path (join "/" rel) = mkPath false rel) as ->.
    { destruct rel as [|p rel']; [reflexivity|].
      now rewrite <- (parse_str_path (mkPath false (p :: rel')) Hcomp). }
    unfold resolve, truediv. cbn [absolute parts].
    apply (walk_up_below _ _ _ Hrel).
Qed.

End ReadingBelow.

Section ReadErrors.
Import PyStr FilesystemServer Spec Props Examples.

Local Ltac innermost x :=
  lazymatch x with
  | context [match ?y with _ => _ end] => innermost y
  | _ => destruct x
  end.

Local Ltac branches :=
  repeat match goal with
         | |- context [match ?x with _ => _ end] => innermost x
         end.

(** X1.  Whatever the world, an empty URI is answered by ["Missing URI
    parameter"] and by nothing else, and a URI is answered by ["Invalid URI
    format: <uri>"] exactly when it is not empty and does not start with
    [file://resources/]. *)
Theorem malformed_uri_errors (w : World) (uri : string) :
  (read_resource w uri = Raise (ValueError "Missing URI parameter")
   <-> uri = EmptyString)
  /\ (read_resource w uri = Raise (ValueError ("Invalid URI format: " ++ uri))
      <-> uri <> EmptyString /\ startswith uri prefix = false).
Proof.
  unfold read_resource.
  destruct (String.eqb_spec uri EmptyString) as [->|Hne].
  { split; split; try reflexivity; [discriminate | intros [H _]; congruence]. }
  destruct (startswith uri prefix) eqn:Epre; cbn [negb].
  2:{ split; split; try discriminate; auto. intros H; congruence. }
  unfold exists_, read_text, read_bytes, denied.
  branches; (split; split; intros H; try discriminate H; try congruence;
             try (destruct H; congruence); try (cbn in H; discriminate H)).
Qed.



(** X3.  The URI of a directory below the folder, and [file://resources/]
    itself, which names the folder, pass the existence check and then fail
    with [IsADirectoryError]. *)
Theorem directory_read_raises (w : World) (folder : Path) (root : node)
    (rel : list string) (entries : list (string * node))
    (Hwf : wf_world w = true)
    (Hfolder : RESOURCE_FOLDER w = Some folder)
    (Hroot : node_at w folder = Some root)
    (Hrel : forallb valid_name rel = true)
    (Hdir : lookup root rel = Some (Dir entries)) :
  read_resource w ("file://resources/" ++ join "/" rel)
  = Raise IsADirectoryError.
Proof.
  change (read_resource w (uri_of rel) = Raise IsADirectoryError).
  now rewrite (read_resource_below w folder root Hwf Hfolder Hroot rel Hrel),
    Hdir.
Qed.

Lemma directory_read_raises_witness :
  read_resource mixed_world "file://resources/raw" = Raise IsADirectoryError
  /\ read_resource sample_world "file://resources/" = Raise IsADirectoryError.
Proof.
  split.
  - exact (directory_read_raises mixed_world (parse_path "./data")
             (Dir [ ("legacy.txt", File [x63; x61; x66; xe9]);
                    ("export.csv", File [xff; xfe; x61; x00]);
                    ("windows.txt", File [x61; x0d; x0a; x62; x0d]);
                    ("raw", Dir [("dump.bin", File [x00; xff; x10])]) ])
             ["raw"] [("dump.bin", File [x00; xff; x10])]
             eq_refl eq_refl eq_refl eq_refl eq_refl).
  - exact (directory_read_raises sample_world (parse_path "/srv/root")
             (Dir create_sample_files) [] create_sample_files
             eq_refl eq_refl eq_refl eq_refl eq_refl).
Defined.

(** X4.  On a file system of directories and regular files (no symbolic
    links), a file below the folder is also read through a detour
    [<name>/../], for every valid name: [resolve] drops [<name>/..]
    whether [<name>] is a directory of the folder, a regular file, or no
    entry at all. *)
Theorem detour_reads_same_file (w : World) (folder : Path) (root : node)
    (rel : list string) (data : list byte) (d : string)
    (Hwf : wf_world w = true)
    (Hfolder : RESOURCE_FOLDER w = Some folder)
    (Hroot : node_at w folder = Some root)
    (Hne : rel <> [])
    (Hfile : lookup root rel = Some (File data))
    (Hd : valid_name d = true) :
  read_resource w ("file://resources/" ++ d ++ "/../" ++ join "/" rel)
  = read_resource w ("file://resources/" ++ join "/" rel).
Proof.
  pose proof (below_names w folder root Hwf Hfolder Hroot rel _ Hne Hfile)
    as Hrel.
  change (read_resource w ("file://resources/" ++ join "/" rel))
    with (read_resource w (uri_of rel)).
  rewrite (read_resource_below w folder root Hwf Hfolder Hroot rel Hrel), Hfile.
  assert (d ++ "/../" ++ join "/" rel = join "/" (d :: ".." :: rel)) as ->
    by (destruct rel; [congruence | reflexivity]).
  assert (forallb path_component (d :: ".." :: rel) = true) as Hcomp.
  { cbn [forallb]. rewrite (valid_name_component d Hd).
    now rewrite (forallb_names_components rel Hrel). }
  destruct (components_forall _ Hcomp) as (_ & _ & Hnul).
  assert (String.eqb d ".." = false) as Hdd.
  { unfold valid_name in Hd. repeat (apply andb_true_iff in Hd as [Hd ?]).
    now apply negb_true_iff. }
  rewrite (read_resource_resolved w folder root Hwf Hfolder Hroot _ rel);
    [now rewrite Hfile | now apply contains_join | | assumption].
  assert (parse_path (join "/" (d :: ".." :: rel))
          = mkPath false (d :: ".." :: rel)) as ->
    by exact (parse_str_path (mkPath false (d :: ".." :: rel)) Hcomp).
  unfold resolve, truediv. cbn [absolute parts].
  change (walk_up (start w folder) (parts folder ++ d :: ".." :: rel)
          = (canonical w folder ++ rel)%list).
  rewrite walk_up_app. fold (canonical w folder).
  cbn [walk_up]. rewrite Hdd. cbn [tl].
  change (String.eqb ".." "..") with true. cbv iota.
  now rewrite (walk_up_plain _ _ Hrel), rev_involutive.
Qed.

Lemma detour_reads_same_file_witness :
  read_resource sample_world "file://resources/ghost/../notes.txt"
  = read_resource sample_world "file://resources/notes.txt".
Proof.
  exact (detour_reads_same_file sample_world (parse_path "/srv/root")
           (Dir create_sample_files) ["notes.txt"]
           (list_byte_of_string notes_text) "ghost"
           eq_refl eq_refl eq_refl ltac:(discriminate) eq_refl eq_refl).
Defined.

(** X5.  A relative path that starts with a slash replaces the folder when
    the two are joined, so a file below the folder is also read under its
    absolute path on the server:
    [file://resources/] followed by [/<canonical folder>/<relative path>]. *)
Theorem absolute_path_is_accepted (w : World) (folder : Path) (root : node)
    (rel : list string) (data : list byte)
    (Hwf : wf_world w = true)
    (Hfolder : RESOURCE_FOLDER w = Some folder)
    (Hroot : node_at w folder = Some root)
    (Hne : rel <> [])
    (Hfile : lookup root rel = Some (File data)) :
  read_resource w ("file://resources/" ++ "/"
                   ++ join "/" (canonical w folder ++ rel))
  = read_resource w ("file://resources/" ++ join "/" rel).
Proof.
  pose proof (below_names w folder root Hwf Hfolder Hroot rel _ Hne Hfile)
    as Hrel.
  destruct (folder_facts w folder root Hwf Hfolder Hroot) as (_ & _ & Hnames).
  change (read_resource w ("file://resources/" ++ join "/" rel))
    with (read_resource w (uri_of rel)).
  rewrite (read_resource_below w folder root Hwf Hfolder Hroot rel Hrel), Hfile.
  assert (forallb valid_name (canonical w folder ++ rel) = true) as Hall
    by now rewrite forallb_app, Hnames, Hrel.
  pose proof (forallb_names_components _ Hall) as Hcomp.
  destruct (components_forall _ Hcomp) as (_ & _ & Hnul).
  change ("file://resources/" ++ "/" ++ join "/" (canonical w folder ++ rel))
    with (prefix ++ str_path (mkPath true (canonical w folder ++ rel))).
  rewrite (read_resource_resolved w folder root Hwf Hfolder Hroot _ rel);
    [now rewrite Hfile | | | assumption].
  - unfold str_path. cbn [absolute parts]. rewrite contains_append.
    now rewrite (contains_join (ascii_of_nat 0) _ eq_refl Hnul).
  - rewrite (parse_str_path (mkPath true _) Hcomp).
    unfold resolve, truediv. cbn [absolute parts start].
    now rewrite (walk_up_plain [] _ Hall).
Qed.

Lemma absolute_path_is_accepted_witness :
  read_resource sample_world "file://resources//srv/root/logo.png"
  = read_resource sample_world "file://resources/logo.png".
Proof.
  exact (absolute_path_is_accepted sample_world (parse_path "/srv/root")
           (Dir create_sample_files) ["logo.png"] minimal_png
           eq_refl eq_refl eq_refl ltac:(discriminate) eq_refl).
Defined.

End ReadErrors.

(** ** What a served text looks like *)

Section ServedText.
Import PyStr FilesystemServer Spec Props Examples MoreExamples.

Lemma universal_newlines_no_cr (t : text) : ~ In 13%N (universal_newlines t).
Proof.
  assert (forall n (l : text), List.length l <= n ->
            ~ In 13%N (universal_newlines l)) as Hgen.
  { induction n as [|n IH]; intros l Hl.
    - destruct l; [intros [] | simpl in Hl; lia].
    - destruct l as [|c l]; [intros []|]. cbn [universal_newlines].
      destruct (N.eqb_spec c 13) as [->|Hc].
      + destruct l as [|d l]; [intros [H|[]]; discriminate|].
        destruct (d =? 10)%N; intros [H|H]; try discriminate H;
          revert H; apply IH; simpl in *; lia.
      + intros [H|H]; [congruence|]. revert H. apply IH. simpl in Hl. lia. }
  apply (Hgen (List.length t)). lia.
Qed.

Local Ltac innermost_in H x :=
  lazymatch x with
  | context [match ?y with _ => _ end] => innermost_in H y
  | _ => destruct x
  end.

(** X6.  No text that [read_resource] returns contains a carriage return,
    whatever the world and the URI. *)
Theorem text_has_no_carriage_return (w : World) (uri : string)
    (result : ReadResourceResult) (t : text)
    (Hread : read_resource w uri = Return result)
    (Hin : In (TextContent t) (contents result)) :
  ~ In 13%N t.
Proof.
  unfold read_resource, read_text, read_bytes in Hread.
  repeat match type of Hread with
         | context [match ?x with _ => _ end] => innermost_in Hread x
         end; try discriminate Hread;
    injection Hread as <-; destruct Hin as [Hin|[]]; try discriminate Hin.
  injection Hin as <-. apply universal_newlines_no_cr.
Qed.

Lemma text_has_no_carriage_return_witness :
  ~ In 13%N [97; 10; 98; 10]%N.
Proof.
  exact (text_has_no_carriage_return mixed_world "file://resources/windows.txt"
           (mkReadResourceResult [TextContent [97; 10; 98; 10]%N])
           [97; 10; 98; 10]%N eq_refl (or_introl eq_refl)).
Defined.

Lemma utf8_decode_ascii (data : list byte) :
  forallb (fun b => (Byte.to_N b <? 128)%N) data = true ->
  utf8_decode data = Some (map Byte.to_N data).
Proof.
  induction data as [|b data IH]; [reflexivity|]. cbn [forallb].
  intros H. apply andb_true_iff in H as [Hb Hd].
  cbn [utf8_decode map]. rewrite Hb, (IH Hd). reflexivity.
Qed.

Lemma universal_newlines_plain (t : text) :
  forallb (fun c => negb (c =? 13)%N) t = true -> universal_newlines t = t.
Proof.
  induction t as [|c t IH]; [reflexivity|]. cbn [forallb].
  intros H. apply andb_true_iff in H as [Hc Ht].
  cbn [universal_newlines]. apply negb_true_iff in Hc. rewrite Hc.
  now rewrite (IH Ht).
Qed.

(** X7.  A file of a text type whose bytes are ASCII without carriage
    returns is returned as it is, one character for each byte. *)
Theorem ascii_text_served_verbatim (w : World) (folder : Path) (root : node)
    (rel : list string) (data : list byte)
    (Hwf : wf_world w = true)
    (Hfolder : RESOURCE_FOLDER w = Some folder)
    (Hroot : node_at w folder = Some root)
    (Hne : rel <> [])
    (Hfile : lookup root rel = Some (File data))
    (Htext : is_text_mime_type (mime_of_name (last rel EmptyString)) = true)
    (Hplain : plain_ascii data = true) :
  read_resource w ("file://resources/" ++ join "/" rel)
  = Return (mkReadResourceResult [TextContent (map Byte.to_N data)]).
Proof.
  change (read_resource w (uri_of rel)
          = Return (mkReadResourceResult [TextContent (map Byte.to_N data)])).
  rewrite (read_resource_file w folder root Hwf Hfolder Hroot rel data Hne Hfile).
  unfold content_of. rewrite Htext.
  unfold plain_ascii in Hplain. rewrite forallb_forall in Hplain.
  rewrite utf8_decode_ascii.
  - rewrite universal_newlines_plain; [reflexivity|].
    apply forallb_forall. intros c Hc. apply in_map_iff in Hc as (b & <- & Hb).
    specialize (Hplain b Hb). now apply andb_true_iff in Hplain.
  - apply forallb_forall. intros b Hb. specialize (Hplain b Hb).
    now apply andb_true_iff in Hplain.
Qed.

Lemma ascii_text_served_verbatim_witness :
  read_resource sample_world "file://resources/notes.txt"
  = Return (mkReadResourceResult
              [TextContent (map Byte.to_N (list_byte_of_string notes_text))]).
Proof.
  exact (ascii_text_served_verbatim sample_world (parse_path "/srv/root")
           (Dir create_sample_files) ["notes.txt"]
           (list_byte_of_string notes_text)
           eq_refl eq_refl eq_refl ltac:(discriminate) eq_refl eq_refl eq_refl).
Defined.

Lemma rfind_none (c : ascii) (s : string) :
  contains c s = false -> rfind c s = None.
Proof.
  induction s as [|d s IH]; [reflexivity|]. cbn [contains rfind].
  intros H. apply orb_false_iff in H as [Hd Hs].
  now rewrite (IH Hs), Ascii.eqb_sym, Hd.
Qed.

Lemma suffix_empty (name : string) :
  contains "." (drop 1 name) = false -> suffix name = EmptyString.
Proof.
  destruct name as [|c s]; [reflexivity|]. cbn [drop]. intros H.
  unfold suffix. cbn [rfind]. rewrite (rfind_none _ _ H).
  destruct (Ascii.eqb c "."); reflexivity.
Qed.

(** X8.  A file whose name has no dot after its first character (no
    extension, or a name such as [.bashrc]) has the type
    [application/octet-stream] and is returned as a blob, whatever it
    holds. *)
Theorem no_extension_is_binary (w : World) (folder : Path) (root : node)
    (rel : list string) (data : list byte)
    (Hwf : wf_world w = true)
    (Hfolder : RESOURCE_FOLDER w = Some folder)
    (Hroot : node_at w folder = Some root)
    (Hne : rel <> [])
    (Hfile : lookup root rel = Some (File data))
    (Hnodot : contains "." (drop 1 (last rel EmptyString)) = false) :
  get_mime_type (join "/" rel) = "application/octet-stream"
  /\ read_resource w ("file://resources/" ++ join "/" rel)
     = Return (mkReadResourceResult
                 [BlobContent (b64encode data) "application/octet-stream"]).
Proof.
  pose proof (below_names w folder root Hwf Hfolder Hroot rel _ Hne Hfile)
    as Hrel.
  assert (mime_of_name (last rel EmptyString) = "application/octet-stream")
    as Hmime by (unfold mime_of_name; now rewrite (suffix_empty _ Hnodot)).
  split.
  - assert (join "/" rel = str_path (mkPath false rel)) as ->
      by (destruct rel; [congruence | reflexivity]).
    rewrite get_mime_type_str by (now apply forallb_names_components).
    exact Hmime.
  - change (read_resource w (uri_of rel)
            = Return (mkReadResourceResult
                        [BlobContent (b64encode data)
                                     "application/octet-stream"])).
    rewrite (read_resource_file w folder root Hwf Hfolder Hroot rel data
               Hne Hfile), Hmime.
    reflexivity.
Qed.

Lemma no_extension_is_binary_witness :
  read_resource checkout_world "file://resources/.env"
  = Return (mkReadResourceResult
              [BlobContent (b64encode (list_byte_of_string "KEY=1"))
                           "application/octet-stream"]).
Proof.
  exact (proj2 (no_extension_is_binary checkout_world (parse_path "/work/app")
                  checkout_folder [".env"] (list_byte_of_string "KEY=1")
                  eq_refl eq_refl eq_refl ltac:(discriminate) eq_refl eq_refl)).
Defined.

End ServedText.

(** ** MIME types and letter case *)

Section MimeCase.
Import PyStr FilesystemServer Spec Props.

Lemma lower_char_idempotent (c : ascii) :
  lower_char (lower_char c) = lower_char c.
Proof. destruct c as [[] [] [] [] [] [] [] []]; reflexivity. Qed.

Lemma lower_char_slash (c : ascii) :
  Ascii.eqb (lower_char c) "/" = Ascii.eqb c "/".
Proof. destruct c as [[] [] [] [] [] [] [] []]; reflexivity. Qed.

Lemma lower_char_dot (c : ascii) :
  Ascii.eqb (lower_char c) "." = Ascii.eqb c ".".
Proof. destruct c as [[] [] [] [] [] [] [] []]; reflexivity. Qed.

Lemma lower_idempotent (s : string) : lower (lower s) = lower s.
Proof.
  induction s as [|c s IH]; [reflexivity|].
  cbn [lower]. now rewrite lower_char_idempotent, IH.
Qed.

Lemma lower_length (s : string) : String.length (lower s) = String.length s.
Proof. induction s; simpl; congruence. Qed.

Lemma lower_drop (n : nat) (s : string) : drop n (lower s) = lower (drop n s).
Proof.
  revert s. induction n as [|n IH]; intros s; [reflexivity|].
  destruct s; [reflexivity | apply IH].
Qed.

Lemma lower_empty (s : string) :
  String.eqb (lower s) EmptyString = String.eqb s EmptyString.
Proof. now destruct s. Qed.

Lemma lower_is_dot (s : string) : String.eqb (lower s) "." = String.eqb s ".".
Proof.
  destruct s as [|c s]; [reflexivity|].
  cbn [lower String.eqb]. rewrite lower_char_dot. f_equal.
  destruct s; reflexivity.
Qed.

Lemma split_lower (s : string) :
  split (lower s) "/" = map lower (split s "/").
Proof.
  induction s as [|c s IH]; [reflexivity|].
  cbn [lower]. rewrite !split_cons, lower_char_slash, IH.
  pose proof (split_not_nil s "/") as Hne.
  destruct (split s "/") as [|h t]; [congruence|].
  destruct (Ascii.eqb c "/"); reflexivity.
Qed.

Lemma rfind_lower (s : string) : rfind "." (lower s) = rfind "." s.
Proof.
  induction s as [|c s IH]; [reflexivity|].
  cbn [lower rfind]. now rewrite IH, lower_char_dot.
Qed.

Lemma suffix_lower (name : string) : suffix (lower name) = lower (suffix name).
Proof.
  unfold suffix. rewrite rfind_lower, lower_length.
  destruct (rfind "." name) as [i|]; [|reflexivity].
  destruct ((0 <? i) && (i <? String.length name - 1)); [|reflexivity].
  apply lower_drop.
Qed.

Lemma path_name_lower (s : string) :
  path_name (parse_path (lower s)) = lower (path_name (parse_path s)).
Proof.
  unfold path_name, parse_path. cbn [parts]. rewrite split_lower.
  induction (split s "/") as [|p l IH]; [reflexivity|].
  cbn [map filter].
  assert (is_component (lower p) = is_component p) as ->
    by (unfold is_component; now rewrite lower_empty, lower_is_dot).
  destruct (is_component p); [|exact IH].
  cbn [last]. rewrite IH.
  assert (filter is_component (map lower l) = map lower (filter is_component l))
    as ->.
  { clear. induction l as [|q l IH]; [reflexivity|]. cbn [map filter].
    assert (is_component (lower q) = is_component q) as ->
      by (unfold is_component; now rewrite lower_empty, lower_is_dot).
    destruct (is_component q); cbn [map]; now rewrite IH. }
  destruct (filter is_component l); reflexivity.
Qed.

(** X9.  The MIME type of a path does not depend on the case of its
    letters: a path and its lower-cased form get the same type. *)
Theorem mime_type_ignores_case (file_path : string) :
  get_mime_type (lower file_path) = get_mime_type file_path.
Proof.
  unfold get_mime_type.
  now rewrite path_name_lower, suffix_lower, lower_idempotent.
Qed.

End MimeCase.

(** ** The numbers a size is shown with *)

Section ShownSizes.
Import PyStr FilesystemServer Spec Props.
Local Open Scope Z_scope.

Lemma round_half_even_bounds (n d : Z) :
  0 < d -> n / d <= round_half_even n d <= n / d + 1.
Proof.
  intros Hd. unfold round_half_even.
  destruct (2 * (n mod d) <? d); [lia|].
  destruct (d <? 2 * (n mod d)); [lia|].
  destruct (Z.even (n / d)); lia.
Qed.

Lemma float_of_small (size : Z) :
  0 <= size < 2 ^ 53 -> float_of_int size = Return (inject_Z size).
Proof.
  intros H. unfold float_of_int.
  destruct (Z.ltb_spec size 0); [lia|]. now rewrite nearest_double_exact.
Qed.

(** X10.  A size below 1024 is shown as the number of bytes itself, with
    [.0 B] after it. *)
Theorem bytes_are_shown_exactly (size : Z)
    (Hlo : 0 <= size) (Hhi : size < 1024) :
  format_file_size size = Return (decimal size ++ ".0 B")%string.
Proof.
  rewrite (format_of_double size size Hlo)
    by (apply float_of_small; split; [assumption|];
        apply Z.lt_trans with 1024; [assumption | reflexivity]).
  unfold size_text, steps. destruct (Z.ltb_spec size 1024); [|lia].
  cbv zeta. change (1024 ^ Z.of_nat 0) with 1.
  assert (round_half_even (10 * size) 1 = 10 * size) as ->.
  { unfold round_half_even. rewrite Z.mod_1_r, Z.div_1_r. reflexivity. }
  replace (10 * size / 10) with size by (symmetry; rewrite Z.mul_comm; apply Z.div_mul; lia).
  replace ((10 * size) mod 10) with 0 by (symmetry; rewrite Z.mul_comm; apply Z.mod_mul; lia).
  reflexivity.
Qed.

Lemma bytes_are_shown_exactly_witness :
  format_file_size 1023 = Return "1023.0 B"%string.
Proof.
  exact (bytes_are_shown_exactly 1023 ltac:(discriminate) eq_refl).
Defined.

(** X11.  From 1024 bytes up to the last byte before 1 GB, the unit is KB
    or MB and the number in front of it lies between 1.0 and 1024.0.  The
    unit is chosen before the number is rounded, so 1024.0 is reached:
    1048575 bytes are shown as ["1024.0 KB"]. *)
Theorem shown_number_bounds (size : Z)
    (Hlo : 1024 <= size) (Hhi : size < 1024 ^ 3) :
  exists (tenths : Z) (unit : string),
    format_file_size size
    = Return (decimal (tenths / 10) ++ "." ++ decimal (tenths mod 10)
              ++ " " ++ unit)%string
    /\ 10 <= tenths <= 10240
    /\ (unit = "KB"%string \/ unit = "MB"%string)
    /\ format_file_size 1048575 = Return "1024.0 KB"%string.
Proof.
  assert (1024 ^ 3 < 2 ^ 53) as Hbig by reflexivity.
  exists (round_half_even (10 * size) (1024 ^ Z.of_nat (steps size))),
         (nth (steps size) suffixes EmptyString).
  split.
  { rewrite (format_of_double size size) by (try apply float_of_small; lia).
    reflexivity. }
  split; [|split; [|reflexivity]]; unfold steps;
    destruct (Z.ltb_spec size 1024); try lia;
    destruct (Z.ltb_spec size (1024 ^ 2)).
  - change (1024 ^ Z.of_nat 1) with 1024.
    pose proof (round_half_even_bounds (10 * size) 1024 ltac:(lia)).
    assert (10 <= 10 * size / 1024) by (apply Z.div_le_lower_bound; lia).
    assert (10 * size / 1024 < 10240) by (apply Z.div_lt_upper_bound; lia).
    lia.
  - destruct (Z.ltb_spec size (1024 ^ 3)); [|lia].
    change (1024 ^ Z.of_nat 2) with 1048576.
    pose proof (round_half_even_bounds (10 * size) 1048576 ltac:(lia)).
    assert (10 <= 10 * size / 1048576) by (apply Z.div_le_lower_bound; lia).
    assert (10 * size / 1048576 < 10240) by (apply Z.div_lt_upper_bound; lia).
    lia.
  - now left.
  - destruct (Z.ltb_spec size (1024 ^ 3)); [now right | lia].
Qed.

Lemma shown_number_bounds_witness :
  exists (tenths : Z) (unit : string),
    format_file_size 1572864
    = Return (decimal (tenths / 10) ++ "." ++ decimal (tenths mod 10)
              ++ " " ++ unit)%string
    /\ 10 <= tenths <= 10240.
Proof.
  destruct (shown_number_bounds 1572864 ltac:(discriminate) eq_refl)
    as (tenths & unit & H1 & H2 & _).
  exists tenths, unit. split; assumption.
Defined.

End ShownSizes.

(** ** Templates: letter case and the listed patterns *)

Section Templates.
Import PyStr ResourceServer Spec Props.








(** X13.  Each listed template can be used: with any identifier put in the
    place of the braces, the URI is read without error, as the preferences
    or the settings of the identifier up to its first slash. *)
Theorem listed_templates_readable (id : string) :
  map (fun t => read_resource (fill (uriTemplate t) id))
      list_resource_templates
  = [ text_result (Json.dumps (Json.JDict
                     (get_user_preferences (first_piece id))));
      text_result (Json.dumps (Json.JDict
                     (get_project_settings (first_piece id)))) ].
Proof.
  cbn [map list_resource_templates uriTemplate].
  change (fill "config://user/{userId}/preferences" id) with (user_uri id).
  change (fill "config://project/{projectId}/settings" id)
    with (project_uri id).
  now rewrite read_user_uri, read_project_uri.
Qed.

End Templates.

(** ** The start of the file system server: what [main] and
    [create_sample_files] leave on the disk *)

Section Writes.
Import PyStr FilesystemServer Spec Examples Bootstrap.

Lemma find_set_entry_same (name : string) (new : node)
    (es : list (string * node)) :
  find_entry name (set_entry name new es) = Some new.
Proof.
  induction es as [|[k n] es IH]; cbn [set_entry find_entry].
  - now rewrite String.eqb_refl.
  - destruct (String.eqb k name) eqn:E; cbn [find_entry]; rewrite E;
      [reflexivity | exact IH].
Qed.

Lemma find_set_entry_other (k name : string) (new : node)
    (es : list (string * node)) :
  k <> name -> find_entry k (set_entry name new es) = find_entry k es.
Proof.
  intros Hne. induction es as [|[k' n] es IH]; cbn [set_entry find_entry].
  - destruct (String.eqb name k) eqn:E; [|reflexivity].
    apply String.eqb_eq in E. congruence.
  - destruct (String.eqb k' name) eqn:E; cbn [find_entry].
    + apply String.eqb_eq in E. subst k'.
      destruct (String.eqb name k) eqn:E2; [|reflexivity].
      apply String.eqb_eq in E2. congruence.
    + now rewrite IH.
Qed.

Lemma names_set_entry (k name : string) (new : node)
    (es : list (string * node)) :
  k <> name ->
  existsb (String.eqb k) (map fst (set_entry name new es))
  = existsb (String.eqb k) (map fst es).
Proof.
  intros Hne. induction es as [|[k' n] es IH]; cbn [set_entry map fst existsb].
  - destruct (String.eqb k name) eqn:E; [|reflexivity].
    apply String.eqb_eq in E. congruence.
  - destruct (String.eqb k' name); cbn [map fst existsb]; [reflexivity|].
    now rewrite IH.
Qed.

Lemma wf_set_entry (name : string) (new : node) (es : list (string * node)) :
  wf_node (Dir es) = true -> valid_name name = true -> wf_node new = true ->
  wf_node (Dir (set_entry name new es)) = true.
Proof.
  rewrite !wf_node_dir. intros H Hname Hnew.
  apply andb_true_iff in H as [Hd Hf]. apply andb_true_iff. split.
  - clear Hf. induction es as [|[k n] es IH]; [reflexivity|].
    cbn [map fst names_distinct] in Hd. apply andb_true_iff in Hd as [Hk Hd].
    cbn [set_entry]. destruct (String.eqb k name) eqn:E.
    + cbn [map fst names_distinct]. now rewrite Hk, Hd.
    + cbn [map fst names_distinct]. rewrite names_set_entry, Hk, (IH Hd).
      * reflexivity.
      * intros ->. now rewrite String.eqb_refl in E.
  - clear Hd. induction es as [|[k n] es IH].
    + cbn. now rewrite Hname, Hnew.
    + cbn [forallb fst snd] in Hf. apply andb_true_iff in Hf as [Hk Hf].
      cbn [set_entry]. destruct (String.eqb k name) eqn:E.
      * apply String.eqb_eq in E. subst k. cbn [forallb fst snd].
        now rewrite Hname, Hnew, Hf.
      * cbn [forallb fst snd]. now rewrite Hk, (IH Hf).
Qed.

Lemma put_cons (es : list (string * node)) (d x : string) (xs : list string)
    (new : node) :
  put (Dir es) (d :: x :: xs) new
  = match find_entry d es with
    | Some c =>
        match put c (x :: xs) new with
        | Some c' => Some (Dir (set_entry d c' es))
        | None => None
        end
    | None => None
    end.
Proof. reflexivity. Qed.

Lemma put_in_dir (name : string) (new : node) (dir : list string) :
  forall (root : node) (es : list (string * node)),
    lookup root dir = Some (Dir es) ->
    exists root',
      put root (dir ++ [name]) new = Some root'
      /\ lookup root' dir = Some (Dir (set_entry name new es)).
Proof.
  induction dir as [|d dir IH]; intros root es H.
  - cbn in H. injection H as ->. eexists. split; reflexivity.
  - destruct root as [|es0]; [discriminate|]. cbn [lookup] in H.
    destruct (find_entry d es0) as [c|] eqn:F; [|discriminate].
    destruct (IH c es H) as (c' & Hput & Hlook).
    cbn [app]. remember (dir ++ [name])%list as q eqn:Hq.
    destruct q as [|x xs]; [destruct dir; discriminate|].
    rewrite put_cons, F, Hput. eexists. split; [reflexivity|].
    cbn [lookup]. now rewrite find_set_entry_same.
Qed.

Lemma put_reaches (new : node) (path : list string) :
  forall root root' : node,
    put root path new = Some root' -> lookup root' path = Some new.
Proof.
  induction path as [|p ps IH]; intros root root' H.
  - cbn in H. now injection H as ->.
  - destruct root as [|es]; [discriminate|]. destruct ps as [|x xs].
    + cbn in H. injection H as <-. cbn [lookup].
      now rewrite find_set_entry_same.
    + rewrite put_cons in H.
      destruct (find_entry p es) as [c|]; [|discriminate].
      destruct (put c (x :: xs) new) as [c'|] eqn:P; [|discriminate].
      injection H as <-. cbn [lookup]. rewrite find_set_entry_same.
      exact (IH c c' P).
Qed.

Lemma wf_put (name : string) (new : node) (dir : list string) :
  valid_name name = true -> wf_node new = true ->
  forall (root root' : node) (es : list (string * node)),
    wf_node root = true -> lookup root dir = Some (Dir es) ->
    put root (dir ++ [name]) new = Some root' -> wf_node root' = true.
Proof.
  intros Hname Hnew. induction dir as [|d dir IH]; intros root root' es Hwf H P.
  - cbn in H. injection H as ->. cbn in P. injection P as <-.
    now apply wf_set_entry.
  - destruct root as [|es0]; [discriminate|]. cbn [lookup] in H.
    destruct (find_entry d es0) as [c|] eqn:F; [|discriminate].
    cbn [app] in P. remember (dir ++ [name])%list as q eqn:Hq.
    destruct q as [|x xs]; [destruct dir; discriminate|].
    rewrite put_cons, F in P.
    destruct (put c (x :: xs) new) as [c'|] eqn:Pc; [|discriminate].
    injection P as <-.
    destruct (wf_child es0 d c Hwf (find_entry_in _ _ _ F)) as [Hd Hc].
    apply wf_set_entry; [assumption..|].
    exact (IH c c' es Hc H Pc).
Qed.

(** Writing into a directory where the name is free or names a file
    leaves every directory a directory. *)
Lemma put_keeps_dirs (name : string) (new : node) (dir : list string) :
  forall (root root' : node) (es : list (string * node)),
    lookup root dir = Some (Dir es) ->
    (forall e0, find_entry name es <> Some (Dir e0)) ->
    put root (dir ++ [name]) new = Some root' ->
    forall q e, lookup root q = Some (Dir e) ->
                exists e', lookup root' q = Some (Dir e').
Proof.
  induction dir as [|d dir IH]; intros root root' es H Hfree P q e Hq.
  - cbn in H. injection H as ->. cbn in P. injection P as <-.
    destruct q as [|k q]; [eexists; reflexivity|].
    cbn [lookup] in Hq |- *.
    destruct (String.eqb k name) eqn:E.
    + apply String.eqb_eq in E. subst k.
      destruct (find_entry name es) as [[data|e0]|] eqn:F.
      * destruct q; discriminate.
      * now destruct (Hfree e0).
      * discriminate.
    + rewrite find_set_entry_other; [eauto|].
      intros ->. now rewrite String.eqb_refl in E.
  - destruct root as [|es0]; [discriminate|]. cbn [lookup] in H.
    destruct (find_entry d es0) as [c|] eqn:F; [|discriminate].
    cbn [app] in P. remember (dir ++ [name])%list as r eqn:Hr.
    destruct r as [|x xs]; [destruct dir; discriminate|].
    rewrite put_cons, F in P.
    destruct (put c (x :: xs) new) as [c'|] eqn:Pc; [|discriminate].
    injection P as <-.
    destruct q as [|k q]; [eexists; reflexivity|].
    cbn [lookup] in Hq |- *.
    destruct (String.eqb k d) eqn:E.
    + apply String.eqb_eq in E. subst k. rewrite F in Hq.
      rewrite find_set_entry_same. exact (IH c c' es H Hfree Pc q e Hq).
    + rewrite find_set_entry_other; [eauto|].
      intros ->. now rewrite String.eqb_refl in E.
Qed.

Lemma os_walk_kept (root root' : node) :
  (forall q e, lookup root q = Some (Dir e) ->
               exists e', lookup root' q = Some (Dir e')) ->
  forall (ps acc c : list string),
    os_walk root acc ps = Some c -> os_walk root' acc ps = Some c.
Proof.
  intros Hkept. induction ps as [|p ps IH]; intros acc c H; [exact H|].
  cbn [os_walk] in H |- *.
  destruct (lookup root (rev acc)) as [[data|e]|] eqn:E; try discriminate.
  destruct (Hkept _ _ E) as [e' ->].
  destruct (String.eqb p ".."); now apply IH.
Qed.

Lemma os_enter_walk (root : node) :
  forall (ps acc c : list string) (es : list (string * node)),
    os_walk root acc ps = Some c -> lookup root c = Some (Dir es) ->
    os_enter root acc ps = Done c.
Proof.
  induction ps as [|p ps IH]; intros acc c es H Hc.
  - cbn in H. injection H as <-. cbn [os_enter]. now rewrite Hc.
  - cbn [os_walk] in H. cbn [os_enter].
    destruct (lookup root (rev acc)) as [[data|e]|]; try discriminate.
    destruct (String.eqb p ".."); now apply IH with es.
Qed.

Lemma os_enter_done (root : node) :
  forall (ps acc c : list string),
    os_enter root acc ps = Done c ->
    os_walk root acc ps = Some c
    /\ exists es, lookup root c = Some (Dir es).
Proof.
  induction ps as [|p ps IH]; intros acc c H.
  - cbn [os_enter] in H.
    destruct (lookup root (rev acc)) as [[data|e]|] eqn:E; try discriminate.
    injection H as <-. split; [reflexivity|]. eauto.
  - cbn [os_enter] in H. cbn [os_walk].
    destruct (lookup root (rev acc)) as [[data|e]|]; try discriminate.
    destruct (String.eqb p ".."); now apply IH.
Qed.

Lemma valid_name_not_up (name : string) :
  valid_name name = true -> String.eqb name ".." = false.
Proof.
  unfold valid_name. intros H.
  destruct (String.eqb name ".."); [|reflexivity].
  now rewrite !andb_false_r in H.
Qed.

Lemma child_parts (folder : Path) (name : string) :
  valid_name name = true ->
  child folder name = mkPath (absolute folder) (parts folder ++ [name]).
Proof.
  intros H. unfold child.
  assert (parse_path name = mkPath false [name]) as ->; [|reflexivity].
  apply (parse_str_path (mkPath false [name])). cbn.
  now rewrite (valid_name_component name H).
Qed.

Lemma write_in_folder (w : World) (folder : Path) (name : string)
    (data : list byte) (es : list (string * node)) :
  node_at w folder = Some (Dir es) ->
  valid_name name = true ->
  (forall e0, find_entry name es <> Some (Dir e0)) ->
  exists w',
    write_bytes w (child folder name) data = Done w'
    /\ node_at w' folder = Some (Dir (set_entry name (File data) es))
    /\ cwd w' = cwd w
    /\ RESOURCE_FOLDER w' = RESOURCE_FOLDER w
    /\ (wf_node (fs w) = true -> wf_node (File data) = true ->
        wf_node (fs w') = true).
Proof.
  intros Hdir Hname Hfree. unfold node_at in Hdir.
  destruct (os_walk (fs w) (start w folder) (parts folder)) as [c|] eqn:W;
    [|discriminate].
  unfold write_bytes. rewrite (child_parts folder name Hname).
  cbn [parts]. rewrite rev_app_distr. cbn [rev app]. rewrite rev_involutive.
  change (start w (mkPath (absolute folder) (parts folder ++ [name])))
    with (start w folder).
  rewrite (os_enter_walk _ _ _ _ _ W Hdir), (valid_name_not_up name Hname).
  destruct (put_in_dir name (File data) c (fs w) es Hdir)
    as (tree & Hput & Hlook).
  assert (Hnow : lookup (fs w) (c ++ [name]) = find_entry name es).
  { rewrite lookup_app, Hdir. cbn [lookup].
    destruct (find_entry name es); reflexivity. }
  exists (with_fs w tree). split; [|split; [|split; [|split]]];
    try reflexivity.
  - rewrite Hnow, Hput.
    destruct (find_entry name es) as [[d|e0]|] eqn:F; try reflexivity.
    now destruct (Hfree e0).
  - unfold node_at. cbn [with_fs fs].
    change (start (with_fs w tree) folder) with (start w folder).
    rewrite (os_walk_kept (fs w) tree
               (put_keeps_dirs name (File data) c (fs w) tree es
                  Hdir Hfree Hput) _ _ _ W).
    exact Hlook.
  - intros Hwf Hdata. cbn [with_fs fs].
    exact (wf_put name (File data) c Hname Hdata (fs w) tree es Hwf Hdir Hput).
Qed.

Lemma encode_seed_texts :
  encode readme_text = list_byte_of_string readme_text
  /\ encode config_text = list_byte_of_string config_text
  /\ encode notes_text = list_byte_of_string notes_text.
Proof. repeat split; vm_compute; reflexivity. Qed.

(** What the four writes make of a directory listing. *)
Lemma create_sample_files_steps (w : World) (folder : Path)
    (es : list (string * node)) :
  node_at w folder = Some (Dir es) ->
  (forall k e0, In k (map fst FilesystemServer.create_sample_files) ->
                find_entry k es <> Some (Dir e0)) ->
  exists w',
    create_sample_files w folder = Done w'
    /\ node_at w' folder
       = Some (Dir (fold_left (fun l e => set_entry (fst e) (snd e) l)
                      FilesystemServer.create_sample_files es))
    /\ cwd w' = cwd w
    /\ RESOURCE_FOLDER w' = RESOURCE_FOLDER w
    /\ (wf_node (fs w) = true -> wf_node (fs w') = true).
Proof.
  intros Hdir Hfree.
  destruct encode_seed_texts as (E1 & E2 & E3).
  unfold create_sample_files, write_text. rewrite E1, E2, E3.
  destruct (write_in_folder w folder "readme.md"
              (list_byte_of_string readme_text) es Hdir eq_refl)
    as (w1 & -> & H1 & C1 & R1 & W1).
  { intros e0. apply Hfree. cbn. tauto. }
  destruct (write_in_folder w1 folder "config.json"
              (list_byte_of_string config_text) _ H1 eq_refl)
    as (w2 & -> & H2 & C2 & R2 & W2).
  { intros e0. rewrite find_set_entry_other by discriminate.
    apply Hfree. cbn. tauto. }
  destruct (write_in_folder w2 folder "notes.txt"
              (list_byte_of_string notes_text) _ H2 eq_refl)
    as (w3 & -> & H3 & C3 & R3 & W3).
  { intros e0. rewrite !find_set_entry_other by discriminate.
    apply Hfree. cbn. tauto. }
  destruct (write_in_folder w3 folder "logo.png" minimal_png _ H3 eq_refl)
    as (w4 & -> & H4 & C4 & R4 & W4).
  { intros e0. rewrite !find_set_entry_other by discriminate.
    apply Hfree. cbn. tauto. }
  exists w4. split; [reflexivity|]. split; [exact H4|].
  split; [congruence|]. split; [congruence|].
  intros Hwf. apply W4; [|reflexivity]. apply W3; [|reflexivity].
  apply W2; [|reflexivity]. apply W1; [exact Hwf|reflexivity].
Qed.


Lemma os_mkdir_done (w w' : World) (p : Path) :
  forallb valid_name (parts p) = true -> wf_node (fs w) = true ->
  os_mkdir w p = Done w' ->
  node_at w' p = Some (Dir [])
  /\ cwd w' = cwd w /\ RESOURCE_FOLDER w' = RESOURCE_FOLDER w
  /\ wf_node (fs w') = true.
Proof.
  intros Hnames Hwf. unfold os_mkdir.
  destruct (rev (parts p)) as [|name rparent] eqn:R; [discriminate|].
  assert (Hparts : parts p = (rev rparent ++ [name])%list).
  { rewrite <- (rev_involutive (parts p)), R. reflexivity. }
  rewrite Hparts, forallb_app in Hnames.
  apply andb_true_iff in Hnames as [Hparent Hname]. cbn in Hname.
  rewrite andb_true_r in Hname.
  destruct (os_enter (fs w) (start w p) (rev rparent)) as [dir|e] eqn:E;
    [|discriminate].
  destruct (os_enter_done _ _ _ _ E) as [W [es Hdir]].
  rewrite (valid_name_not_up name Hname).
  destruct (lookup (fs w) (dir ++ [name])) eqn:L; [discriminate|].
  destruct (put (fs w) (dir ++ [name]) (Dir [])) as [tree|] eqn:P;
    [|discriminate].
  intros H. injection H as <-. cbn [with_fs cwd RESOURCE_FOLDER fs].
  split; [|split; [reflexivity|split; [reflexivity|]]].
  - pose proof (os_walk_canonical _ _ _ _ W) as Hc.
    rewrite (walk_up_plain _ _ Hparent) in Hc.
    pose proof (put_reaches _ _ _ _ P) as Hnew.
    rewrite Hc, <- app_assoc, <- Hparts in Hnew.
    unfold node_at.
    change (fs (with_fs w tree)) with tree.
    change (start (with_fs w tree) p) with (start w p).
    rewrite (os_walk_names tree (Dir []) (start w p) (parts p)).
    + exact Hnew.
    + rewrite Hparts, forallb_app, Hparent. cbn. now rewrite Hname.
    + exact Hnew.
  - exact (wf_put name (Dir []) dir Hname eq_refl (fs w) tree es Hwf Hdir P).
Qed.

Lemma mkdir_done (w w' : World) (p : Path) (exist_ok : bool) :
  forallb valid_name (parts p) = true -> wf_node (fs w) = true ->
  mkdir w p exist_ok = Done w' ->
  (exists es, node_at w' p = Some (Dir es) /\ (exist_ok = false -> es = []))
  /\ cwd w' = cwd w /\ RESOURCE_FOLDER w' = RESOURCE_FOLDER w
  /\ wf_node (fs w') = true.
Proof.
  intros Hnames Hwf. unfold mkdir.
  destruct (os_mkdir w p) as [w1|e] eqn:M.
  - intros H. injection H as <-.
    destruct (os_mkdir_done w w1 p Hnames Hwf M) as (Hn & Hrest).
    split; [|exact Hrest]. exists []. split; [exact Hn|reflexivity].
  - unfold is_dir.
    destruct e, exist_ok; cbn [andb]; try discriminate;
      (destruct (node_at w p) as [[data|es]|] eqn:N; try discriminate;
       intros H; injection H as <-;
       split; [exists es; split; [exact N|discriminate] | now repeat split]).
Qed.

Lemma mkdir_parents_nil (w : World) (is_absolute exist_ok : bool) :
  mkdir_parents w is_absolute [] exist_ok
  = mkdir w (mkPath is_absolute []) exist_ok.
Proof. reflexivity. Qed.

Lemma mkdir_parents_cons (w : World) (is_absolute exist_ok : bool)
    (r : string) (rparent : list string) :
  mkdir_parents w is_absolute (r :: rparent) exist_ok
  = let self := mkPath is_absolute (rev (r :: rparent)) in
    match os_mkdir w self with
    | Done w' => Done w'
    | Failed ENOENT =>
        match mkdir_parents w is_absolute rparent true with
        | Failed e => Failed e
        | Done w1 => mkdir w1 self exist_ok
        end
    | Failed e => if exist_ok && is_dir w self then Done w else Failed e
    end.
Proof. reflexivity. Qed.

(** When [mkdir(parents=True)] returns, the directory is there; it is
    empty unless an existing one was accepted. *)
Lemma mkdir_parents_done (is_absolute : bool) (rparts : list string) :
  forallb valid_name rparts = true ->
  forall (w w' : World) (exist_ok : bool),
    wf_node (fs w) = true ->
    mkdir_parents w is_absolute rparts exist_ok = Done w' ->
    (exists es, node_at w' (mkPath is_absolute (rev rparts)) = Some (Dir es)
                /\ (exist_ok = false -> es = []))
    /\ cwd w' = cwd w /\ RESOURCE_FOLDER w' = RESOURCE_FOLDER w
    /\ wf_node (fs w') = true.
Proof.
  induction rparts as [|r rparent IH]; intros Hnames w w' exist_ok Hwf.
  - rewrite mkdir_parents_nil. now apply mkdir_done.
  - assert (Hself : forallb valid_name
                      (parts (mkPath is_absolute (rev (r :: rparent)))) = true).
    { cbn [parts]. rewrite forallb_forall in Hnames |- *.
      intros x Hx. apply Hnames. now apply in_rev. }
    cbn [forallb] in Hnames. apply andb_true_iff in Hnames as [_ Hparent].
    rewrite mkdir_parents_cons. cbv zeta.
    destruct (os_mkdir w (mkPath is_absolute (rev (r :: rparent))))
      as [w1|e] eqn:M.
    + intros H. injection H as <-.
      destruct (os_mkdir_done _ _ _ Hself Hwf M) as (Hn & Hrest).
      split; [|exact Hrest]. exists []. split; [exact Hn|reflexivity].
    + destruct e.
      * destruct (mkdir_parents w is_absolute rparent true) as [w1|e1] eqn:R;
          [|discriminate].
        destruct (IH Hparent w w1 true Hwf R) as (_ & C1 & R1 & W1).
        intros H.
        destruct (mkdir_done _ _ _ _ Hself W1 H) as (Hes & C2 & R2 & W2).
        split; [exact Hes|]. repeat split; congruence.
      * unfold is_dir.
        destruct exist_ok; cbn [andb]; try discriminate.
        destruct (node_at w _) as [[data|es]|] eqn:N; try discriminate.
        intros H; injection H as <-.
        split; [exists es; split; [exact N|discriminate] | now repeat split].
      * unfold is_dir.
        destruct exist_ok; cbn [andb]; try discriminate.
        destruct (node_at w _) as [[data|es]|] eqn:N; try discriminate.
        intros H; injection H as <-.
        split; [exists es; split; [exact N|discriminate] | now repeat split].
      * unfold is_dir.
        destruct exist_ok; cbn [andb]; try discriminate.
        destruct (node_at w _) as [[data|es]|] eqn:N; try discriminate.
        intros H; injection H as <-.
        split; [exists es; split; [exact N|discriminate] | now repeat split].
Qed.

(** The listing of a folder that holds the seed files and nothing else. *)
Lemma collect_seed (folder : Path) :
  forallb path_component (parts folder) = true ->
  collect folder (rglob (Dir FilesystemServer.create_sample_files))
  = Return sample_listing.
Proof.
  intros H.
  assert (Hr : rglob (Dir FilesystemServer.create_sample_files)
               = map (fun e => ([fst e], snd e))
                     FilesystemServer.create_sample_files) by reflexivity.
  rewrite Hr. unfold FilesystemServer.create_sample_files.
  cbn [map fst snd collect].
  rewrite (resource_of_file folder ["readme.md"] _ 262 H)
    by (try discriminate; vm_compute; reflexivity).
  rewrite (resource_of_file folder ["config.json"] _ 213 H)
    by (try discriminate; vm_compute; reflexivity).
  rewrite (resource_of_file folder ["notes.txt"] _ 393 H)
    by (try discriminate; vm_compute; reflexivity).
  rewrite (resource_of_file folder ["logo.png"] _ 69 H)
    by (try discriminate; vm_compute; reflexivity).
  vm_compute. reflexivity.
Qed.

Lemma wf_world_parts (w : World) :
  wf_world w = true ->
  wf_node (fs w) = true /\ forallb valid_name (cwd w) = true.
Proof.
  unfold wf_world. intros H.
  apply andb_true_iff in H as [H _]. now apply andb_true_iff in H.
Qed.

Lemma main_done_facts (w w' : World) (argv : list string) :
  wf_world w = true ->
  forallb valid_name (parts (resource_folder w argv)) = true ->
  exists_ w (resource_folder w argv) = false ->
  main w argv = Done w' ->
  RESOURCE_FOLDER w' = Some (resource_folder w argv)
  /\ cwd w' = cwd w
  /\ node_at w' (resource_folder w argv)
     = Some (Dir FilesystemServer.create_sample_files)
  /\ wf_world w' = true.
Proof.
  intros Hwf Hnames Habs. unfold main. cbv zeta.
  destruct (wf_world_parts w Hwf) as [Hfs Hcwd].
  remember (resource_folder w argv) as folder eqn:Hf.
  change (exists_ (mkWorld (fs w) (cwd w) (Some folder)) folder)
    with (exists_ w folder).
  rewrite Habs. cbn [negb].
  destruct (mkdir_parents _ (absolute folder) (rev (parts folder)) false)
    as [w1|e] eqn:M; [|discriminate].
  intros C.
  apply mkdir_parents_done in M; [| |exact Hfs].
  2:{ rewrite forallb_forall in Hnames |- *. intros x Hx. apply Hnames.
      now apply in_rev. }
  destruct M as ((es & N & Hes) & C1 & R1 & W1).
  rewrite (Hes eq_refl), rev_involutive in N.
  assert (Hsame : mkPath (absolute folder) (parts folder) = folder)
    by now destruct folder.
  rewrite Hsame in N. cbn [cwd RESOURCE_FOLDER] in C1, R1.
  destruct (create_sample_files_steps w1 folder [] N) as (w4 & C4 & N4 & C5 & R5 & W5).
  { intros k e0 _. discriminate. }
  rewrite C4 in C. injection C as <-.
  split; [congruence|]. split; [congruence|]. split; [exact N4|].
  unfold wf_world. rewrite R5, R1, C5, C1, (W5 W1), Hcwd.
  cbn [andb]. now apply forallb_names_components.
Qed.

(** X14.  In a directory that exists, [create_sample_files] leaves the four
    seed files with their content, in the place of files of those names,
    and no other entry of the directory is changed, provided that none of
    the four names is a directory there. *)
Theorem sample_files_written (w : World) (folder : Path)
    (es : list (string * node))
    (Hwf : wf_world w = true)
    (Hdir : node_at w folder = Some (Dir es))
    (Hfree : forallb (fun k => match find_entry k es with
                               | Some (Dir _) => false
                               | _ => true
                               end)
               (map fst FilesystemServer.create_sample_files) = true) :
  exists (w' : World) (es' : list (string * node)),
    create_sample_files w folder = Done w'
    /\ node_at w' folder = Some (Dir es')
    /\ (forall k n, In (k, n) FilesystemServer.create_sample_files ->
                    find_entry k es' = Some n)
    /\ (forall k, ~ In k (map fst FilesystemServer.create_sample_files) ->
                  find_entry k es' = find_entry k es)
    /\ wf_world w' = true.
Proof.
  destruct (wf_world_parts w Hwf) as [Hfs Hcwd].
  destruct (create_sample_files_steps w folder es Hdir)
    as (w' & C & N & Cw & Rw & W).
  { intros k e0 Hk F. rewrite forallb_forall in Hfree.
    specialize (Hfree k Hk). now rewrite F in Hfree. }
  exists w'. eexists. split; [exact C|]. split; [exact N|].
  cbn [fold_left FilesystemServer.create_sample_files fst snd].
  split; [|split].
  - intros k n [H|[H|[H|[H|[]]]]]; injection H as <- <-.
    + rewrite !find_set_entry_other by discriminate.
      apply find_set_entry_same.
    + rewrite !find_set_entry_other by discriminate.
      apply find_set_entry_same.
    + rewrite !find_set_entry_other by discriminate.
      apply find_set_entry_same.
    + apply find_set_entry_same.
  - intros k Hk. cbn in Hk.
    rewrite !find_set_entry_other; [reflexivity| | | |];
      intros ->; apply Hk; tauto.
  - unfold wf_world in Hwf |- *. rewrite Rw, Cw, (W Hfs), Hcwd.
    apply andb_true_iff in Hwf as [_ Hwf]. exact Hwf.
Qed.

Lemma sample_files_written_witness :
  exists (w' : World) (es' : list (string * node)),
    create_sample_files StartExamples.stocked_world (parse_path "root")
    = Done w'
    /\ node_at w' (parse_path "root") = Some (Dir es')
    /\ (forall k n, In (k, n) FilesystemServer.create_sample_files ->
                    find_entry k es' = Some n)
    /\ (forall k, ~ In k (map fst FilesystemServer.create_sample_files) ->
                  find_entry k es'
                  = find_entry k StartExamples.stocked_entries)
    /\ wf_world w' = true.
Proof.
  exact (sample_files_written StartExamples.stocked_world (parse_path "root")
           StartExamples.stocked_entries eq_refl eq_refl eq_refl).
Defined.

(** X15.  When [main] finds no folder and gets as far as the web server,
    the folder holds the four seed files and nothing else: the server
    lists the four sample resources (in the order of the directory,
    whatever that is), each of them is read without error, and a second
    start on the same arguments finds the folder and changes nothing. *)
Theorem first_start_creates_samples (w w' : World) (argv : list string)
    (Hwf : wf_world w = true)
    (Hnames : forallb valid_name (parts (resource_folder w argv)) = true)
    (Habsent : exists_ w (resource_folder w argv) = false)
    (Hmain : main w argv = Done w') :
  (exists es,
     node_at w' (resource_folder w argv) = Some (Dir es)
     /\ Permutation es FilesystemServer.create_sample_files)
  /\ (exists rs,
        list_resources w' = Return rs /\ Permutation rs sample_listing)
  /\ forallb (fun r => succeeds (read_resource w' (uri r))) sample_listing
     = true
  /\ main w' argv = Done w'.
Proof.
  destruct (main_done_facts w w' argv Hwf Hnames Habsent Hmain)
    as (HR & HC & HN & Hwf').
  split; [eexists; split; [exact HN|apply Permutation_refl]|].
  split; [|split].
  - eexists. split; [|apply Permutation_refl].
    unfold list_resources. rewrite HR, HN. apply collect_seed.
    now apply forallb_names_components.
  - unfold sample_listing. cbn [forallb uri].
    change "file://resources/readme.md" with (uri_of ["readme.md"]).
    change "file://resources/config.json" with (uri_of ["config.json"]).
    change "file://resources/notes.txt" with (uri_of ["notes.txt"]).
    change "file://resources/logo.png" with (uri_of ["logo.png"]).
    rewrite (read_resource_file w' _ _ Hwf' HR HN ["readme.md"]
               (list_byte_of_string readme_text))
      by (discriminate || reflexivity).
    rewrite (read_resource_file w' _ _ Hwf' HR HN ["config.json"]
               (list_byte_of_string config_text))
      by (discriminate || reflexivity).
    rewrite (read_resource_file w' _ _ Hwf' HR HN ["notes.txt"]
               (list_byte_of_string notes_text))
      by (discriminate || reflexivity).
    rewrite (read_resource_file w' _ _ Hwf' HR HN ["logo.png"] minimal_png)
      by (discriminate || reflexivity).
    vm_compute. reflexivity.
  - unfold main. cbv zeta.
    assert (Hf : resource_folder w' argv = resource_folder w argv)
      by (unfold resource_folder; now rewrite HC).
    rewrite Hf.
    change (exists_ (mkWorld (fs w') (cwd w')
                       (Some (resource_folder w argv)))
                    (resource_folder w argv))
      with (exists_ w' (resource_folder w argv)).
    unfold exists_. rewrite HN. cbn [negb]. rewrite <- HR.
    now destruct w'.
Qed.

Lemma first_start_creates_samples_witness :
  exists rs,
    list_resources
      (StartExamples.started StartExamples.fresh_world
         ["server.py"; "a/b/c"])
    = Return rs
    /\ Permutation rs sample_listing.
Proof.
  apply (first_start_creates_samples StartExamples.fresh_world
           (StartExamples.started StartExamples.fresh_world
              ["server.py"; "a/b/c"])
           ["server.py"; "a/b/c"] eq_refl eq_refl eq_refl).
  vm_compute. reflexivity.
Defined.



Lemma write_on_directory (w : World) (folder : Path) (name : string)
    (data : list byte) (es e0 : list (string * node)) :
  node_at w folder = Some (Dir es) ->
  valid_name name = true ->
  find_entry name es = Some (Dir e0) ->
  write_bytes w (child folder name) data = Failed EISDIR.
Proof.
  intros Hdir Hname F. unfold node_at in Hdir.
  destruct (os_walk (fs w) (start w folder) (parts folder)) as [c|] eqn:W;
    [|discriminate].
  unfold write_bytes. rewrite (child_parts folder name Hname).
  cbn [parts]. rewrite rev_app_distr. cbn [rev app]. rewrite rev_involutive.
  change (start w (mkPath (absolute folder) (parts folder ++ [name])))
    with (start w folder).
  rewrite (os_enter_walk _ _ _ _ _ W Hdir), (valid_name_not_up name Hname).
  rewrite lookup_app, Hdir. cbn [lookup]. now rewrite F.
Qed.

(** X17.  [create_sample_files] replaces no directory: if one of the four
    names is a directory of the folder, the call fails with
    [IsADirectoryError]. *)
Theorem sample_files_replace_no_directory (w : World) (folder : Path)
    (es : list (string * node))
    (Hdir : node_at w folder = Some (Dir es))
    (Htaken : existsb (fun k => match find_entry k es with
                                | Some (Dir _) => true
                                | _ => false
                                end)
                (map fst FilesystemServer.create_sample_files) = true) :
  create_sample_files w folder = Failed EISDIR.
Proof.
  destruct encode_seed_texts as (E1 & E2 & E3).
  unfold create_sample_files, write_text. rewrite E1, E2, E3.
  cbn [FilesystemServer.create_sample_files map fst existsb] in Htaken.
  destruct (find_entry "readme.md" es) as [[d1|e1]|] eqn:F1.
  2:{ now rewrite (write_on_directory w folder "readme.md" _ es e1 Hdir
                     eq_refl F1). }
  all: destruct (write_in_folder w folder "readme.md"
                   (list_byte_of_string readme_text) es Hdir eq_refl)
         as (w1 & -> & H1 & _); [intros e0; rewrite F1; discriminate|].
  all: cbn [orb] in Htaken.
  all: destruct (find_entry "config.json" es) as [[d2|e2]|] eqn:F2.
  all: try (rewrite (write_on_directory w1 folder "config.json" _ _ e2 H1
                       eq_refl); [reflexivity|];
            rewrite find_set_entry_other by discriminate; exact F2).
  all: destruct (write_in_folder w1 folder "config.json"
                   (list_byte_of_string config_text) _ H1 eq_refl)
         as (w2 & -> & H2 & _);
       [intros e0; rewrite find_set_entry_other by discriminate;
        rewrite F2; discriminate|].
  all: cbn [orb] in Htaken.
  all: destruct (find_entry "notes.txt" es) as [[d3|e3]|] eqn:F3.
  all: try (rewrite (write_on_directory w2 folder "notes.txt" _ _ e3 H2
                       eq_refl); [reflexivity|];
            rewrite !find_set_entry_other by discriminate; exact F3).
  all: destruct (write_in_folder w2 folder "notes.txt"
                   (list_byte_of_string notes_text) _ H2 eq_refl)
         as (w3 & -> & H3 & _);
       [intros e0; rewrite !find_set_entry_other by discriminate;
        rewrite F3; discriminate|].
  all: cbn [orb] in Htaken.
  all: destruct (find_entry "logo.png" es) as [[d4|e4]|] eqn:F4;
       try discriminate.
  all: apply (write_on_directory w3 folder "logo.png" _ _ e4 H3 eq_refl).
  all: rewrite !find_set_entry_other by discriminate; exact F4.
Qed.

Lemma sample_files_replace_no_directory_witness :
  create_sample_files
    (mkWorld (Dir [("root", Dir [("notes.txt", Dir [])])]) []
             (Some (parse_path "/root")))
    (parse_path "/root")
  = Failed EISDIR.
Proof.
  exact (sample_files_replace_no_directory
           (mkWorld (Dir [("root", Dir [("notes.txt", Dir [])])]) []
                    (Some (parse_path "/root")))
           (parse_path "/root") [("notes.txt", Dir [])] eq_refl eq_refl).
Defined.

(** X18.  After [create_sample_files] in the resource folder, the four seed
    URIs are read as the seed content, whatever the folder held under
    those names before: the three texts as they are written in the
    source, the image as the base64 of its 69 bytes. *)
Theorem seed_files_read_back (w : World) (folder : Path)
    (es : list (string * node))
    (Hwf : wf_world w = true)
    (Hfolder : RESOURCE_FOLDER w = Some folder)
    (Hdir : node_at w folder = Some (Dir es))
    (Hfree : forallb (fun k => match find_entry k es with
                               | Some (Dir _) => false
                               | _ => true
                               end)
               (map fst FilesystemServer.create_sample_files) = true) :
  exists w' : World,
    create_sample_files w folder = Done w'
    /\ read_resource w' "file://resources/readme.md"
       = Return (mkReadResourceResult
                   [TextContent
                      (map Byte.to_N (list_byte_of_string readme_text))])
    /\ read_resource w' "file://resources/config.json"
       = Return (mkReadResourceResult
                   [TextContent
                      (map Byte.to_N (list_byte_of_string config_text))])
    /\ read_resource w' "file://resources/notes.txt"
       = Return (mkReadResourceResult
                   [TextContent
                      (map Byte.to_N (list_byte_of_string notes_text))])
    /\ read_resource w' "file://resources/logo.png"
       = Return (mkReadResourceResult
                   [BlobContent (b64encode minimal_png) "image/png"]).
Proof.
  destruct (wf_world_parts w Hwf) as [Hfs Hcwd].
  destruct (create_sample_files_steps w folder es Hdir)
    as (w' & C & N & Cw & Rw & W).
  { intros k e0 Hk F. rewrite forallb_forall in Hfree.
    specialize (Hfree k Hk). now rewrite F in Hfree. }
  assert (Hwf' : wf_world w' = true).
  { unfold wf_world in Hwf |- *. rewrite Rw, Cw, (W Hfs), Hcwd.
    apply andb_true_iff in Hwf as [_ Hwf]. exact Hwf. }
  rewrite Hfolder in Rw.
  cbn [fold_left FilesystemServer.create_sample_files fst snd] in N.
  exists w'. split; [exact C|].
  change "file://resources/readme.md" with (uri_of ["readme.md"]).
  change "file://resources/config.json" with (uri_of ["config.json"]).
  change "file://resources/notes.txt" with (uri_of ["notes.txt"]).
  change "file://resources/logo.png" with (uri_of ["logo.png"]).
  rewrite (read_resource_file w' _ _ Hwf' Rw N ["readme.md"]
             (list_byte_of_string readme_text)).
  2: discriminate.
  2:{ cbn [lookup]. rewrite !find_set_entry_other by discriminate.
      now rewrite find_set_entry_same. }
  rewrite (read_resource_file w' _ _ Hwf' Rw N ["config.json"]
             (list_byte_of_string config_text)).
  2: discriminate.
  2:{ cbn [lookup]. rewrite !find_set_entry_other by discriminate.
      now rewrite find_set_entry_same. }
  rewrite (read_resource_file w' _ _ Hwf' Rw N ["notes.txt"]
             (list_byte_of_string notes_text)).
  2: discriminate.
  2:{ cbn [lookup]. rewrite !find_set_entry_other by discriminate.
      now rewrite find_set_entry_same. }
  rewrite (read_resource_file w' _ _ Hwf' Rw N ["logo.png"] minimal_png).
  2: discriminate.
  2:{ cbn [lookup]. now rewrite find_set_entry_same. }
  repeat split; vm_compute; reflexivity.
Qed.

Lemma seed_files_read_back_witness :
  exists w' : World,
    create_sample_files StartExamples.stocked_world (parse_path "root")
    = Done w'
    /\ read_resource w' "file://resources/readme.md"
       = Return (mkReadResourceResult
                   [TextContent
                      (map Byte.to_N (list_byte_of_string readme_text))])
    /\ read_resource w' "file://resources/config.json"
       = Return (mkReadResourceResult
                   [TextContent
                      (map Byte.to_N (list_byte_of_string config_text))])
    /\ read_resource w' "file://resources/notes.txt"
       = Return (mkReadResourceResult
                   [TextContent
                      (map Byte.to_N (list_byte_of_string notes_text))])
    /\ read_resource w' "file://resources/logo.png"
       = Return (mkReadResourceResult
                   [BlobContent (b64encode minimal_png) "image/png"]).
Proof.
  exact (seed_files_read_back StartExamples.stocked_world (parse_path "root")
           StartExamples.stocked_entries eq_refl eq_refl eq_refl eq_refl).
Defined.

End Writes.

Section FolderIsFile.
Import PyStr FilesystemServer Spec.



End FolderIsFile.

(** ** The echo servers *)

Section Echo.
Import PyStr EchoServer.

Lemma text_of_length (s : string) :
  List.length (text_of s) = String.length s.
Proof.
  unfold text_of. rewrite length_map.
  induction s as [|c s IH]; [reflexivity|]. cbn. now rewrite IH.
Qed.

Lemma text_of_cons (c : ascii) (s : string) :
  text_of (String c s) = N_of_ascii c :: text_of s.
Proof. reflexivity. Qed.

Variable upper_above : N -> text.

Lemma upper_char_length (n : N) :
  (n < 256)%N -> 1 <= List.length (upper_char upper_above n) <= 2.
Proof.
  intros H. unfold upper_char.
  replace (n <? 256)%N with true by (symmetry; now apply N.ltb_lt).
  repeat match goal with
         | |- context [if ?b then _ else _] => destruct b
         end; cbn; lia.
Qed.

Lemma upper_char_capital (n : N) :
  (n < 256)%N ->
  Forall (fun c => ~ (97 <= c <= 122)%N) (upper_char upper_above n).
Proof.
  intros H. unfold upper_char.
  replace (n <? 256)%N with true by (symmetry; now apply N.ltb_lt).
  destruct (((97 <=? n) && (n <=? 122))
            || ((224 <=? n) && (n <=? 254) && negb (n =? 247)))%N eqn:E.
  - repeat constructor. intros [H1 H2].
    apply orb_true_iff in E as [E|E].
    + apply andb_true_iff in E as [E1 E2].
      apply N.leb_le in E1, E2. lia.
    + apply andb_true_iff in E as [E _].
      apply andb_true_iff in E as [E1 E2].
      apply N.leb_le in E1, E2. lia.
  - apply orb_false_iff in E as [E _].
    destruct (n =? 181)%N; [repeat constructor; lia|].
    destruct (n =? 223)%N; [repeat constructor; lia|].
    destruct (n =? 255)%N; [repeat constructor; lia|].
    repeat constructor. intros [H1 H2].
    apply andb_false_iff in E as [E|E]; apply N.leb_gt in E; lia.
Qed.

Lemma upper_length (s : text) :
  latin1 s ->
  List.length s <= List.length (upper upper_above s) <= 2 * List.length s.
Proof.
  induction 1 as [|c s Hc _ IH]; [cbn; lia|].
  cbn [upper List.length]. rewrite length_app.
  pose proof (upper_char_length c Hc). lia.
Qed.

Lemma upper_capital (s : text) :
  latin1 s ->
  Forall (fun c => ~ (97 <= c <= 122)%N) (upper upper_above s).
Proof.
  induction 1 as [|c s Hc _ IH]; [constructor|].
  cbn [upper]. apply Forall_app. split; [now apply upper_char_capital|exact IH].
Qed.

Lemma upper_char_lower (c : ascii) :
  upper_char upper_above (N_of_ascii (lower_char c))
  = upper_char upper_above (N_of_ascii c).
Proof. destruct c as [[] [] [] [] [] [] [] []]; reflexivity. Qed.

Lemma upper_lower (s : string) :
  upper upper_above (text_of (lower s)) = upper upper_above (text_of s).
Proof.
  induction s as [|c s IH]; [reflexivity|].
  cbn [lower]. rewrite !text_of_cons. cbn [upper].
  now rewrite upper_char_lower, IH.
Qed.

Lemma text_of_lower_empty (s : string) :
  match text_of (lower s) with [] => true | _ :: _ => false end
  = match text_of s with [] => true | _ :: _ => false end.
Proof. destruct s; reflexivity. Qed.

(** X20.  For the tool [echo] the handler never raises and answers with one
    text.  That text is ["No message provided"] exactly when there is no
    message or an empty one; otherwise it is ["Echo: "] followed by the
    message itself or, when [uppercase] is true, by its upper-case form.
    For a message of characters below U+0100 that form has no letter a-z
    and is at least as long as the message and at most twice as long. *)
Theorem echo_reply (arguments : Arguments) :
  (call_tool upper_above "echo" arguments
   = Return [mkTextContent (text_of "No message provided")]
   <-> message arguments = None \/ message arguments = Some [])
  /\ forall m, message arguments = Some m -> m <> [] ->
       exists body,
         call_tool upper_above "echo" arguments
         = Return [mkTextContent (text_of "Echo: " ++ body)%list]
         /\ (uppercase arguments <> Some true -> body = m)
         /\ (uppercase arguments = Some true ->
             body = upper upper_above m
             /\ (latin1 m ->
                 List.length m <= List.length body <= 2 * List.length m
                 /\ Forall (fun c => ~ (97 <= c <= 122)%N) body)).
Proof.
  destruct arguments as [[m|] u]; unfold call_tool; cbn [message uppercase].
  - change (String.eqb "echo" "echo") with true. cbv iota.
    destruct m as [|c m].
    + split.
      * split; [now right|reflexivity].
      * intros m H. injection H as <-. intros Hne. now destruct Hne.
    + split.
      * split.
        -- intros H. injection H as H. discriminate H.
        -- intros [H|H]; discriminate.
      * intros m' H. injection H as <-. intros _.
        destruct u as [[|]|].
        -- exists (upper upper_above (c :: m)). split; [reflexivity|].
           split; [congruence|]. intros _. split; [reflexivity|].
           intros Hl. split; [now apply upper_length|now apply upper_capital].
        -- exists (c :: m). split; [reflexivity|].
           split; [reflexivity|discriminate].
        -- exists (c :: m). split; [reflexivity|].
           split; [reflexivity|discriminate].
  - change (String.eqb "echo" "echo") with true. cbv iota.
    split; [split; [now left|reflexivity]|discriminate].
Qed.

(** X21.  With [uppercase] true the answer does not depend on the case of
    a message of characters below U+0100: two such messages with the same
    lower-case form are echoed alike.  (Beyond U+0100 this fails.) *)
Theorem echo_uppercase_ignores_case (a b : string)
    (Hcase : lower a = lower b) :
  call_tool upper_above "echo"
    (mkArguments (Some (text_of a)) (Some true))
  = call_tool upper_above "echo"
      (mkArguments (Some (text_of b)) (Some true)).
Proof.
  unfold call_tool. cbn [message uppercase].
  change (String.eqb "echo" "echo") with true. cbv iota.
  pose proof (text_of_lower_empty a) as Ha.
  pose proof (text_of_lower_empty b) as Hb.
  rewrite Hcase in Ha. rewrite Hb in Ha.
  pose proof (upper_lower a) as Ua. pose proof (upper_lower b) as Ub.
  rewrite Hcase in Ua. rewrite Ub in Ua.
  destruct (text_of a) as [|ca ta], (text_of b) as [|cb tb];
    try discriminate; [reflexivity|].
  now rewrite Ua.
Qed.

End Echo.

Section EchoExample.
Import PyStr EchoServer.

Lemma echo_uppercase_ignores_case_witness :
  call_tool (fun n => [n]) "echo"
    (mkArguments (Some (text_of "Hello")) (Some true))
  = call_tool (fun n => [n]) "echo"
      (mkArguments (Some (text_of "hELLO")) (Some true)).
Proof.
  exact (echo_uppercase_ignores_case (fun n => [n]) "Hello" "hELLO" eq_refl).
Defined.

End EchoExample.

(** ** The chat client: the history over a session *)

Section ClientTurns.
Import PyStr Chat ChatProps Client.

Variable A : Type.
Variable chat : list (Message A) -> list (Reply A).
Variable chat_final : list (Message A) -> list (Reply A).
Variable call_tool : nat -> ToolCall A -> outcome (list Content).

Lemma returned_le {C : Type} (f : nat -> ToolCall A -> outcome C)
    (calls : list (ToolCall A)) :
  forall position, returned f position calls <= List.length calls.
Proof.
  induction calls as [|c rest IH]; intros position; cbn [returned List.length];
    [lia|].
  specialize (IH (S position)). destruct (succeeds (f position c)); lia.
Qed.

Lemma tool_loop_shape (calls : list (ToolCall A)) :
  forall (position : nat) (messages : list (Message A)),
  exists tools,
    tool_loop A call_tool position calls messages = (messages ++ tools)%list
    /\ forallb (is_role "tool") tools = true
    /\ List.length tools = returned call_tool position calls.
Proof.
  induction calls as [|c rest IH]; intros position messages.
  - exists []. cbn. now rewrite app_nil_r.
  - cbn [tool_loop returned].
    destruct (call_tool position c) as [result|e]; cbn [succeeds].
    + destruct (IH (S position)
                  (messages ++ [tool (tool_text result EmptyString)])%list)
        as (tools & -> & Hall & Hlen).
      exists (tool (tool_text result EmptyString) :: tools).
      rewrite <- app_assoc. cbn [app forallb List.length].
      split; [reflexivity|]. split; [exact Hall|]. now rewrite Hlen.
    + destruct (IH (S position) messages) as (tools & -> & Hall & Hlen).
      exists tools. now repeat split.
Qed.

(** What a turn adds to the history. *)
Lemma turn_shape (messages : list (Message A)) (user_prompt : string) :
  (blank user_prompt = true
   /\ turn A chat chat_final call_tool messages user_prompt = messages)
  \/ (blank user_prompt = false
      /\ exists reply,
           (turn A chat chat_final call_tool messages user_prompt
            = messages ++ [user user_prompt;
                           mkMessage "assistant" (Some reply) None])%list)
  \/ (blank user_prompt = false
      /\ exists first calls tools reply,
           stream (chat (messages ++ [user user_prompt])) EmptyString None
           = (first, Some calls)
           /\ calls <> []
           /\ forallb (is_role "tool") tools = true
           /\ List.length tools = returned call_tool 0 calls
           /\ (turn A chat chat_final call_tool messages user_prompt
               = messages
                 ++ user user_prompt
                    :: mkMessage "assistant" (Some first) (Some calls)
                    :: tools
                 ++ [mkMessage "assistant" (Some reply) None])%list).
Proof.
  unfold turn, blank.
  destruct (String.eqb (strip user_prompt) EmptyString); [now left|right].
  destruct (stream (chat (messages ++ [user user_prompt])) EmptyString None)
    as [first calls] eqn:S.
  destruct calls as [[|c cs]|]; cbn [some_calls].
  - left. split; [reflexivity|]. exists first. now rewrite <- app_assoc.
  - right. split; [reflexivity|].
    destruct (tool_loop_shape (c :: cs) 0
                ((messages ++ [user user_prompt])
                 ++ [mkMessage "assistant" (Some first) (Some (c :: cs))]))
      as (tools & Hloop & Hall & Hlen).
    rewrite Hloop. eexists first, (c :: cs), tools, _.
    split; [reflexivity|]. split; [discriminate|].
    split; [exact Hall|]. split; [exact Hlen|].
    rewrite <- !app_assoc. reflexivity.
  - left. split; [reflexivity|]. exists first. now rewrite <- app_assoc.
Qed.

Lemma tools_not_users (tools : list (Message A)) :
  forallb (is_role "tool") tools = true ->
  filter (is_role "user") tools = [] /\ filter closing tools = []
  /\ filter (is_role "tool") tools = tools.
Proof.
  induction tools as [|m tools IH]; [now repeat split|].
  cbn [forallb filter]. intros H. apply andb_true_iff in H as [Hm H].
  destruct (IH H) as (H1 & H2 & H3). rewrite H1, H2, H3, Hm.
  unfold is_role in Hm. apply String.eqb_eq in Hm.
  unfold is_role, closing. rewrite Hm. now repeat split.
Qed.

Lemma session_from (prompts : list string) :
  forall messages : list (Message A),
    filter (is_role "user")
      (fold_left (turn A chat chat_final call_tool) prompts messages)
    = (filter (is_role "user") messages
       ++ map user (filter (fun p => negb (blank p)) prompts))%list
    /\ List.length
         (filter closing
            (fold_left (turn A chat chat_final call_tool) prompts messages))
       = List.length (filter closing messages)
         + List.length (filter (fun p => negb (blank p)) prompts)
    /\ (messages = []
        \/ closing (last messages (user EmptyString)) = true ->
        fold_left (turn A chat chat_final call_tool) prompts messages = []
        \/ closing (last (fold_left (turn A chat chat_final call_tool)
                            prompts messages)
                         (user EmptyString)) = true).
Proof.
  induction prompts as [|p prompts IH]; intros messages.
  - cbn. rewrite app_nil_r. now repeat split.
  - cbn [fold_left filter].
    destruct (turn_shape messages p)
      as [[Hb Ht] | [[Hb [reply Ht]] | [Hb H]]].
    + rewrite Ht, Hb. cbn [negb]. apply IH.
    + rewrite Ht, Hb. cbn [negb].
      destruct (IH (messages ++ [user p; mkMessage "assistant" (Some reply) None])%list)
        as (IHu & IHc & IHl).
      rewrite IHu, IHc. rewrite !filter_app. cbn [filter map List.length].
      rewrite !length_app.
      change (is_role "user" (user p)) with true.
      change (closing (user p)) with false.
      change (is_role "user" (mkMessage "assistant" (Some reply) None))
        with false.
      change (closing (mkMessage (A:=A) "assistant" (Some reply) None))
        with true.
      cbv iota. cbn [List.length].
      split; [now rewrite <- app_assoc|]. split; [lia|].
      intros _. apply IHl. right.
      change (messages ++ [user p; mkMessage "assistant" (Some reply) None])%list
        with (messages ++ [user p] ++ [mkMessage "assistant" (Some reply) None])%list.
      now rewrite app_assoc, last_last.
    + destruct H as (first & calls & tools & reply & _ & _ & Hall & _ & Ht).
      rewrite Ht, Hb. cbn [negb].
      destruct (tools_not_users tools Hall) as (Hu & Hc & _).
      destruct (IH (messages
                    ++ user p
                       :: mkMessage "assistant" (Some first) (Some calls)
                       :: tools
                    ++ [mkMessage "assistant" (Some reply) None])%list)
        as (IHu & IHc & IHl).
      rewrite IHu, IHc. rewrite !filter_app. cbn [filter].
      change (is_role "user" (user p)) with true.
      change (closing (user p)) with false.
      change (is_role "user" (mkMessage "assistant" (Some first) (Some calls)))
        with false.
      change (closing (mkMessage "assistant" (Some first) (Some calls)))
        with false.
      cbv iota. rewrite !filter_app, Hu, Hc. cbn [filter map app List.length].
      change (is_role "user" (mkMessage "assistant" (Some reply) None))
        with false.
      change (closing (mkMessage (A:=A) "assistant" (Some reply) None))
        with true.
      cbv iota. rewrite !length_app. cbn [List.length app].
      split; [now rewrite <- app_assoc|]. split; [lia|].
      intros _. apply IHl. right.
      change (user p :: mkMessage "assistant" (Some first) (Some calls)
                :: tools ++ [mkMessage "assistant" (Some reply) None])%list
        with ((user p :: mkMessage "assistant" (Some first) (Some calls)
                 :: tools) ++ [mkMessage "assistant" (Some reply) None])%list.
      now rewrite app_assoc, last_last.
Qed.

(** X22.  Over a session the user messages of the history are the prompts
    that are not blank, in their order and as they were typed (not
    stripped); blank prompts leave no trace.  There is one answer of the
    assistant without tool calls for each of them, and a history that is
    not empty ends with such an answer. *)
Theorem session_history (prompts : list string) :
  filter (is_role "user") (session A chat chat_final call_tool prompts)
  = map user (filter (fun p => negb (blank p)) prompts)
  /\ List.length (filter closing (session A chat chat_final call_tool prompts))
     = List.length (filter (fun p => negb (blank p)) prompts)
  /\ (session A chat chat_final call_tool prompts = []
      \/ closing (last (session A chat chat_final call_tool prompts)
                       (user EmptyString)) = true).
Proof.
  unfold session.
  destruct (session_from prompts []) as (Hu & Hc & Hl).
  split; [exact Hu|]. split; [exact Hc|]. apply Hl. now left.
Qed.

(** X23.  In a turn in which the assistant asks for tools, the history
    gets one tool message for each call that returns and none for a call
    that raises: the tool messages can be fewer than the calls the
    assistant message names. *)
Theorem failed_calls_leave_no_message (messages : list (Message A))
    (user_prompt first : string) (calls : list (ToolCall A))
    (Hprompt : blank user_prompt = false)
    (Hasked : stream (chat (messages ++ [user user_prompt])) EmptyString None
              = (first, Some calls))
    (Hcalls : calls <> []) :
  List.length (filter (is_role "tool")
                 (turn A chat chat_final call_tool messages user_prompt))
  = List.length (filter (is_role "tool") messages)
    + returned call_tool 0 calls
  /\ returned call_tool 0 calls <= List.length calls
  /\ In (mkMessage "assistant" (Some first) (Some calls))
        (turn A chat chat_final call_tool messages user_prompt).
Proof.
  split; [|split; [apply returned_le|]].
  - unfold turn. unfold blank in Hprompt. rewrite Hprompt, Hasked.
    destruct calls as [|c cs]; [now destruct Hcalls|]. cbn [some_calls].
    destruct (tool_loop_shape (c :: cs) 0
                ((messages ++ [user user_prompt])
                 ++ [mkMessage "assistant" (Some first) (Some (c :: cs))]))
      as (tools & -> & Hall & Hlen).
    destruct (tools_not_users tools Hall) as (_ & _ & Ht).
    rewrite !filter_app, Ht. cbn [filter].
    change (is_role "tool" (user user_prompt)) with false.
    change (is_role "tool"
              (mkMessage "assistant" (Some first) (Some (c :: cs))))
      with false.
    match goal with
    | |- context [is_role "tool" (mkMessage "assistant" ?x None)] =>
        change (is_role "tool" (mkMessage "assistant" x None)) with false
    end.
    cbv iota. rewrite !length_app. cbn [List.length]. lia.
  - unfold turn. unfold blank in Hprompt. rewrite Hprompt, Hasked.
    destruct calls as [|c cs]; [now destruct Hcalls|]. cbn [some_calls].
    destruct (tool_loop_shape (c :: cs) 0
                ((messages ++ [user user_prompt])
                 ++ [mkMessage "assistant" (Some first) (Some (c :: cs))]))
      as (tools & -> & _).
    rewrite !in_app_iff. left. left. right. now left.
Qed.

End ClientTurns.

Section ClientExample.
Import PyStr Chat ChatProps Client.

Lemma failed_calls_leave_no_message_witness :
  List.length
    (filter (is_role "tool")
       (turn unit
          (fun _ => [mkReply None
                       (Some [mkToolCall "echo" tt; mkToolCall "nope" tt])])
          (fun _ => [mkReply (Some "done") None])
          (fun _ c => if String.eqb (function_name c) "echo"
                      then Return [TextItem "Echo: hi"]
                      else Raise (ValueError "Unknown tool: nope"))
          [] "hi"))
  = 0 + 1.
Proof.
  apply (failed_calls_leave_no_message unit
           (fun _ => [mkReply None
                        (Some [mkToolCall "echo" tt; mkToolCall "nope" tt])])
           (fun _ => [mkReply (Some "done") None])
           (fun _ c => if String.eqb (function_name c) "echo"
                       then Return [TextItem "Echo: hi"]
                       else Raise (ValueError "Unknown tool: nope"))
           [] "hi" EmptyString
           [mkToolCall "echo" tt; mkToolCall "nope" tt] eq_refl eq_refl).
  discriminate.
Defined.

End ClientExample.

(** ** The client that lets the model read resources *)

Section ModelResource.
Import PyStr Chat ChatProps ModelResourceClient.

Lemma server_read_cases (uri : string) :
  (exists t, ResourceServer.read_resource uri = ResourceServer.text_result t)
  \/ ResourceServer.read_resource uri = ResourceServer.not_found uri.
Proof.
  unfold ResourceServer.read_resource.
  repeat match goal with
         | |- context [if ?b then _ else _] => destruct b
         end; eauto.
Qed.

(** X24.  Against the resource server the tool [read_resource] of the
    model never raises: for every URI it returns a string, the text of the
    resource when the server has one, and otherwise the sentence
    ["Error reading resource: Resource not found: <uri>"]. *)
Theorem read_tool_on_resource_server (uri : string) :
  exists fetched,
    session_read_resource uri = Some fetched
    /\ ((exists t, ResourceServer.read_resource uri
                   = ResourceServer.text_result t
                   /\ read_resource_tool (fun _ => fetched) uri = t)
        \/ (ResourceServer.read_resource uri = ResourceServer.not_found uri
            /\ read_resource_tool (fun _ => fetched) uri
               = "Error reading resource: Resource not found: " ++ uri)).
Proof.
  unfold session_read_resource, read_resource_tool.
  destruct (server_read_cases uri) as [[t H]|H]; rewrite H.
  - eexists. split; [reflexivity|]. left. exists t. split; reflexivity.
  - eexists. split; [reflexivity|]. right. split; reflexivity.
Qed.

Variable resources : list ResourceServer.Resource.
Variable templates : list ResourceServer.ResourceTemplate.
Variable read_resource : string -> Fetched.
Variable chat : list (Message Arguments) -> Reply Arguments.
Variable chat_final : list (Message Arguments) -> list (Reply Arguments).

Lemma tool_loop_map (calls : list (ToolCall Arguments)) :
  forall messages,
    tool_loop resources templates read_resource calls messages
    = (messages
       ++ map (fun c => tool (run_tool resources templates read_resource c))
              calls)%list.
Proof.
  induction calls as [|c rest IH]; intros messages; cbn [tool_loop map].
  - now rewrite app_nil_r.
  - now rewrite IH, <- app_assoc.
Qed.

(** X25.  In a turn in which the model asks for tools, every call gets its
    tool message, in the order of the calls: also a call of a tool the
    client does not have, which is answered ["Unknown tool: <name>"]. *)
Theorem every_call_is_answered (messages : list (Message Arguments))
    (user_prompt : string) (said : option string)
    (calls : list (ToolCall Arguments))
    (Hasked : chat (messages ++ [user user_prompt])
              = mkReply said (Some calls))
    (Hcalls : calls <> []) :
  filter (is_role "tool")
    (turn resources templates read_resource chat chat_final
          messages user_prompt)
  = (filter (is_role "tool") messages
     ++ map (fun c => tool (run_tool resources templates read_resource c))
            calls)%list
  /\ forall c,
       In c calls ->
       ~ In (function_name c)
            ["list_resources"; "list_resource_templates"; "read_resource"] ->
       In (tool ("Unknown tool: " ++ function_name c))
          (turn resources templates read_resource chat chat_final
                messages user_prompt).
Proof.
  unfold turn. rewrite Hasked. cbn [reply_tool_calls reply_content].
  destruct calls as [|c0 cs]; [now destruct Hcalls|]. cbn [some_calls].
  rewrite tool_loop_map. split.
  - rewrite !filter_app. cbn [filter].
    change (is_role "tool" (user user_prompt)) with false.
    match goal with
    | |- context [is_role "tool" (mkMessage "assistant" ?x (Some ?y))] =>
        change (is_role "tool" (mkMessage "assistant" x (Some y))) with false
    end.
    match goal with
    | |- context [is_role "tool" (mkMessage "assistant" ?x None)] =>
        change (is_role "tool" (mkMessage "assistant" x None)) with false
    end.
    cbv iota. rewrite !app_nil_r. f_equal.
    generalize (c0 :: cs). intros l. induction l as [|c l IH]; [reflexivity|].
    cbn [map filter]. change (is_role "tool" (tool _)) with true.
    cbv iota. now rewrite IH.
  - intros c Hin Hname. rewrite !in_app_iff. left. right.
    apply in_map_iff. exists c. split; [|exact Hin].
    unfold run_tool. cbn [In] in Hname.
    destruct (String.eqb (function_name c) "list_resources") eqn:E1;
      [apply String.eqb_eq in E1; exfalso; apply Hname; now left|].
    destruct (String.eqb (function_name c) "list_resource_templates") eqn:E2;
      [apply String.eqb_eq in E2; exfalso; apply Hname; right; now left|].
    destruct (String.eqb (function_name c) "read_resource") eqn:E3;
      [apply String.eqb_eq in E3; exfalso; apply Hname; right; right; now left|].
    reflexivity.
Qed.

Lemma space_keeps_case (c : ascii) :
  is_space c = true -> lower_char c = c.
Proof. destruct c as [[] [] [] [] [] [] [] []]; (reflexivity || discriminate). Qed.

Lemma quit_is_not_blank (q : string) :
  lower q = "quit" -> String.eqb (strip q) EmptyString = false.
Proof.
  destruct q as [|c1 [|c2 [|c3 [|c4 [|c5 q]]]]]; try discriminate.
  cbn [lower]. intros H. injection H as H1 H2 H3 H4.
  assert (S1 : is_space c1 = false).
  { destruct (is_space c1) eqn:E; [|reflexivity].
    rewrite (space_keeps_case c1 E) in H1. now subst c1. }
  assert (S4 : is_space c4 = false).
  { destruct (is_space c4) eqn:E; [|reflexivity].
    rewrite (space_keeps_case c4 E) in H4. now subst c4. }
  unfold strip. cbn [lstrip]. rewrite S1. cbn [rstrip]. rewrite S4.
  reflexivity.
Qed.

(** X26.  The session ends at the first line that is [quit] in any case of
    its letters: what is typed after it has no effect, and the line itself
    is not shown to the model. *)
Theorem quit_ends_session (before after : list string) (q : string)
    (Hquit : lower q = "quit") :
  session resources templates read_resource chat chat_final
          (before ++ q :: after)
  = session resources templates read_resource chat chat_final before.
Proof.
  unfold session. generalize [mkMessage (A:=Arguments) "system"
                                (Some system_message) None].
  induction before as [|p before IH]; intros messages.
  - cbn [app loop]. rewrite (quit_is_not_blank q Hquit), Hquit. reflexivity.
  - cbn [app loop].
    destruct (String.eqb (strip p) EmptyString); [apply IH|].
    destruct (String.eqb (lower p) "quit"); [reflexivity|apply IH].
Qed.

End ModelResource.

Section ModelResourceExample.
Import PyStr Chat ChatProps ModelResourceClient.

Lemma every_call_is_answered_witness :
  filter (is_role "tool")
    (turn [] [] (fun _ => Failure "no server")
          (fun _ => mkReply None
                      (Some [mkToolCall "delete_resource" (mkArguments None)]))
          (fun _ => []) [] "hi")
  = [tool "Unknown tool: delete_resource"].
Proof.
  apply (every_call_is_answered [] [] (fun _ => Failure "no server")
           (fun _ => mkReply None
                       (Some [mkToolCall "delete_resource" (mkArguments None)]))
           (fun _ => []) [] "hi" None
           [mkToolCall "delete_resource" (mkArguments None)] eq_refl).
  discriminate.
Defined.

Lemma quit_ends_session_witness :
  session [] [] (fun _ => Failure "no server")
          (fun _ => mkReply (Some "hello") None) (fun _ => [])
          ["hi"; "QUIT"; "more"]
  = session [] [] (fun _ => Failure "no server")
            (fun _ => mkReply (Some "hello") None) (fun _ => [])
            ["hi"].
Proof.
  exact (quit_ends_session [] [] (fun _ => Failure "no server")
           (fun _ => mkReply (Some "hello") None) (fun _ => [])
           ["hi"] ["more"] "QUIT" eq_refl).
Defined.

End ModelResourceExample.

(** ** The clients that inject a resource *)

Section Injected.
Import PyStr Injection.

Lemma enumerate_in {T : Type} (l : list T) :
  forall (start n : Z) (r : T),
    In (n, r) (enumerate l start)
    <-> (start <= n)%Z /\ nth_error l (Z.to_nat (n - start)) = Some r.
Proof.
  induction l as [|x rest IH]; intros start n r; cbn [enumerate In].
  - split; [tauto|]. intros [_ H]. now destruct (Z.to_nat (n - start)).
  - rewrite IH. split.
    + intros [H|[Hle H]].
      * injection H as <- <-. split; [lia|]. now rewrite Z.sub_diag.
      * split; [lia|].
        replace (Z.to_nat (n - start)) with (S (Z.to_nat (n - (start + 1))))
          by lia.
        exact H.
    + intros [Hle H]. destruct (Z.eq_dec n start) as [->|Hne].
      * left. rewrite Z.sub_diag in H. cbn in H. now injection H as ->.
      * right. split; [lia|].
        replace (Z.to_nat (n - start)) with (S (Z.to_nat (n - (start + 1))))
          in H by lia.
        exact H.
Qed.

(** X27.  The choice of a resource never fails with [IndexError] and never
    counts from the end of the list: a resource is chosen exactly when
    [int] reads the selection as the number that was printed with it. *)
Theorem choice_is_the_numbered_resource {T : Type}
    (int : string -> option Z) (resources : list T) (selection : string) :
  choose int resources selection <> IndexError
  /\ forall r,
       choose int resources selection = Selected r
       <-> exists n, int selection = Some n
                     /\ In (n, r) (enumerate resources 1).
Proof.
  unfold choose. destruct (int selection) as [n|].
  2:{ split; [discriminate|]. intros r. split; [discriminate|].
      intros (n & H & _). discriminate. }
  cbv zeta.
  destruct ((n - 1 <? 0)%Z || (Z.of_nat (List.length resources) <=? n - 1)%Z)
    eqn:E.
  - split; [discriminate|]. intros r. split; [discriminate|].
    intros (n' & H & Hin). injection H as <-.
    apply enumerate_in in Hin as [Hle Hnth].
    assert (Hlt : Z.to_nat (n - 1) < List.length resources).
    { apply nth_error_Some. now rewrite Hnth. }
    apply orb_true_iff in E as [E|E]; lia.
  - apply orb_false_iff in E as [E1 E2].
    unfold getitem. rewrite E1.
    destruct (nth_error resources (Z.to_nat (n - 1))) as [r0|] eqn:Hnth.
    + split; [discriminate|]. intros r. split.
      * intros H. injection H as <-. exists n. split; [reflexivity|].
        apply enumerate_in. split; [lia|exact Hnth].
      * intros (n' & H & Hin). injection H as <-.
        apply enumerate_in in Hin as [_ Hin]. congruence.
    + apply nth_error_None in Hnth. lia.
Qed.

Lemma take_length (n : nat) (s : string) :
  String.length (take n s) = Nat.min n (String.length s).
Proof.
  revert s. induction n as [|n IH]; intros [|c s]; cbn; try reflexivity.
  now rewrite IH.
Qed.

Lemma blanks_length (n : nat) : String.length (blanks n) = n.
Proof. induction n as [|n IH]; cbn; [reflexivity|now rewrite IH]. Qed.

Lemma cell_length (line : string) : String.length (cell line) = 60.
Proof.
  unfold cell. rewrite length_append, blanks_length.
  destruct (60 <? String.length line) eqn:E.
  - apply Nat.ltb_lt in E. rewrite take_length. lia.
  - apply Nat.ltb_ge in E. lia.
Qed.

(** X28.  The rows printed for the lines of a content are all as wide as
    the line that closes the box, 64 characters: a line of up to 60
    characters stands in its row in full, and of a longer line only the
    first 60 characters, with no mark that it was cut.  (The title line
    above the rows is not covered.) *)
Theorem content_rows_fit_the_border (content : string) :
  Forall (fun r => List.length r = List.length closing_line) (rows content)
  /\ List.length closing_line = 64
  /\ (forall line, String.length line <= 60 ->
        cell line = line ++ blanks (60 - String.length line))
  /\ (forall line, 60 < String.length line -> cell line = take 60 line).
Proof.
  split; [|split; [reflexivity|split]].
  - unfold rows. apply Forall_map, Forall_forall. intros line _.
    unfold row. rewrite !length_app, text_of_length, cell_length.
    reflexivity.
  - intros line H. unfold cell.
    destruct (60 <? String.length line) eqn:E; [|reflexivity].
    apply Nat.ltb_lt in E. lia.
  - intros line H. unfold cell. apply Nat.ltb_lt in H. rewrite H.
    rewrite take_length. apply Nat.ltb_lt in H.
    replace (60 - Nat.min 60 (String.length line)) with 0 by lia.
    cbn [blanks]. clear. induction (take 60 line) as [|c s IH];
      [reflexivity|]. cbn. now rewrite IH.
Qed.

End Injected.

(** ** The resource server keeps no state *)

Section Stateless.
Import PyStr Heap.

Lemma display_list (items : list Json.value) :
  display (Json.JList items)
  = bind (display_items items) (fun vs => new (ListObj vs)).
Proof. reflexivity. Qed.

Lemma display_dict (members : list (string * Json.value)) :
  display (Json.JDict members)
  = bind (display_members members) (fun vs => new (DictObj vs)).
Proof. reflexivity. Qed.

Lemma load_ref (fuel : nat) (h : heap) (a : nat) :
  load (S fuel) h (Ref a)
  = match nth_error h a with
    | Some (ListObj items) => option_map Json.JList (load_items fuel h items)
    | Some (DictObj members) =>
        option_map Json.JDict (load_members fuel h members)
    | None => None
    end.
Proof.
  cbn [load]. destruct (nth_error h a) as [[members|items]|]; [| |reflexivity].
  - f_equal. induction members as [|[k x] rest IH]; [reflexivity|].
    cbn [load_members]. now rewrite <- IH.
  - f_equal. induction items as [|x rest IH]; [reflexivity|].
    cbn [load_items]. now rewrite <- IH.
Qed.

Lemma size_list (items : list Json.value) :
  size (Json.JList items) = S (sizes items).
Proof. reflexivity. Qed.

Lemma size_dict (members : list (string * Json.value)) :
  size (Json.JDict members) = S (sizes_members members).
Proof. reflexivity. Qed.

Lemma nth_error_middle (h more : heap) (o : pyobj) :
  nth_error (h ++ o :: more) (List.length h) = Some o.
Proof.
  rewrite nth_error_app2 by lia. now rewrite Nat.sub_diag.
Qed.

Lemma displayed_items (items : list Json.value) :
  Forall displayed items ->
  forall h : heap,
    exists vs added,
      display_items items h = (vs, (h ++ added)%list)
      /\ List.length added = sizes items
      /\ forall more fuel,
           sizes items <= fuel ->
           load_items fuel (h ++ added ++ more)%list vs = Some items.
Proof.
  induction 1 as [|x rest Hx _ IH]; intros h.
  - exists [], []. cbn. rewrite app_nil_r. now repeat split.
  - destruct (Hx h) as (v & a1 & Hv & Hl1 & Hload1).
    destruct (IH (h ++ a1)%list) as (vs & a2 & Hvs & Hl2 & Hload2).
    exists (v :: vs), (a1 ++ a2)%list.
    cbn [display_items]. unfold bind at 1. rewrite Hv.
    unfold bind at 1. rewrite Hvs. unfold ret.
    split; [now rewrite app_assoc|].
    split; [rewrite length_app; cbn [sizes]; lia|].
    intros more fuel Hfuel. cbn [sizes] in Hfuel. cbn [load_items].
    rewrite <- (app_assoc a1 a2 more).
    rewrite (Hload1 (a2 ++ more)%list fuel) by lia.
    rewrite (app_assoc h a1 (a2 ++ more)).
    now rewrite (Hload2 more fuel) by lia.
Qed.

Lemma displayed_members (members : list (string * Json.value)) :
  Forall (fun m => displayed (snd m)) members ->
  forall h : heap,
    exists vs added,
      display_members members h = (vs, (h ++ added)%list)
      /\ List.length added = sizes_members members
      /\ forall more fuel,
           sizes_members members <= fuel ->
           load_members fuel (h ++ added ++ more)%list vs = Some members.
Proof.
  induction 1 as [|[k x] rest Hx _ IH]; intros h.
  - exists [], []. cbn. rewrite app_nil_r. now repeat split.
  - cbn [snd] in Hx.
    destruct (Hx h) as (v & a1 & Hv & Hl1 & Hload1).
    destruct (IH (h ++ a1)%list) as (vs & a2 & Hvs & Hl2 & Hload2).
    exists ((k, v) :: vs), (a1 ++ a2)%list.
    cbn [display_members]. unfold bind at 1. rewrite Hv.
    unfold bind at 1. rewrite Hvs. unfold ret.
    split; [now rewrite app_assoc|].
    split; [rewrite length_app; cbn [sizes_members]; lia|].
    intros more fuel Hfuel. cbn [sizes_members] in Hfuel.
    cbn [load_members].
    rewrite <- (app_assoc a1 a2 more).
    rewrite (Hload1 (a2 ++ more)%list fuel) by lia.
    rewrite (app_assoc h a1 (a2 ++ more)).
    now rewrite (Hload2 more fuel) by lia.
Qed.

Lemma display_load (e : Json.value) : displayed e.
Proof.
  induction e using value_induction.
  - intros h. exists (Str s), [].
    split; [cbn; unfold ret; now rewrite app_nil_r|].
    split; [reflexivity|]. intros more fuel _. now destruct fuel.
  - intros h. exists (Bool b), [].
    split; [cbn; unfold ret; now rewrite app_nil_r|].
    split; [reflexivity|]. intros more fuel _. now destruct fuel.
  - intros h.
    destruct (displayed_items items H h) as (vs & added & Hvs & Hl & Hload).
    exists (Ref (List.length (h ++ added))), (added ++ [ListObj vs])%list.
    rewrite display_list. unfold bind. rewrite Hvs. unfold new.
    split; [now rewrite app_assoc|].
    split; [rewrite length_app, size_list; cbn [List.length]; lia|].
    intros more fuel Hfuel. rewrite size_list in Hfuel.
    destruct fuel as [|fuel]; [lia|]. rewrite load_ref.
    replace (h ++ (added ++ [ListObj vs]) ++ more)%list
      with ((h ++ added) ++ ListObj vs :: more)%list
      by (now rewrite <- !app_assoc).
    rewrite nth_error_middle.
    rewrite <- app_assoc.
    change (ListObj vs :: more) with ([ListObj vs] ++ more)%list.
    now rewrite (Hload ([ListObj vs] ++ more)%list fuel) by lia.
  - intros h.
    destruct (displayed_members members H h)
      as (vs & added & Hvs & Hl & Hload).
    exists (Ref (List.length (h ++ added))), (added ++ [DictObj vs])%list.
    rewrite display_dict. unfold bind. rewrite Hvs. unfold new.
    split; [now rewrite app_assoc|].
    split; [rewrite length_app, size_dict; cbn [List.length]; lia|].
    intros more fuel Hfuel. rewrite size_dict in Hfuel.
    destruct fuel as [|fuel]; [lia|]. rewrite load_ref.
    replace (h ++ (added ++ [DictObj vs]) ++ more)%list
      with ((h ++ added) ++ DictObj vs :: more)%list
      by (now rewrite <- !app_assoc).
    rewrite nth_error_middle.
    rewrite <- app_assoc.
    change (DictObj vs :: more) with ([DictObj vs] ++ more)%list.
    now rewrite (Hload ([DictObj vs] ++ more)%list fuel) by lia.
Qed.

(** A display that is dumped at once: the text is the text of the display,
    and the heap has its new objects and is otherwise as before. *)
Lemma dumps_of_display (e : Json.value) (h : heap) :
  exists added,
    bind (display e) (fun v =>
    bind (json_dumps v) (fun text =>
    ret (ResourceServerRun.text_result text))) h
    = (ResourceServer.text_result (Json.dumps e), (h ++ added)%list).
Proof.
  destruct (display_load e h) as (v & added & Hv & Hl & Hload).
  exists added. unfold bind at 1. rewrite Hv.
  unfold bind, json_dumps, ret.
  specialize (Hload [] (List.length (h ++ added))).
  rewrite app_nil_r in Hload. rewrite Hload; [reflexivity|].
  rewrite length_app. lia.
Qed.

Lemma read_resource_run (uri : string) (h : heap) :
  exists added,
    ResourceServerRun.read_resource uri h
    = (ResourceServer.read_resource uri, (h ++ added)%list).
Proof.
  unfold ResourceServerRun.read_resource, ResourceServer.read_resource.
  unfold ResourceServerRun.get_user_preferences,
    ResourceServerRun.get_project_settings.
  repeat match goal with
         | |- context [if ?b then _ else _] => destruct b
         end;
    try (exists []; unfold ret; now rewrite app_nil_r);
    apply dumps_of_display.
Qed.

Lemma serve_run (session : list ResourceServer.Request) :
  forall h : heap,
    exists added,
      ResourceServerRun.serve session h
      = (ResourceServer.serve session, (h ++ added)%list).
Proof.
  induction session as [|q rest IH]; intros h.
  - exists []. cbn. unfold ret. now rewrite app_nil_r.
  - cbn [ResourceServerRun.serve].
    assert (Hq : exists a1,
               ResourceServerRun.handle q h
               = (ResourceServer.handle q, (h ++ a1)%list)).
    { destruct q as [| |u]; cbn [ResourceServerRun.handle ResourceServer.handle].
      - exists []. unfold ret. now rewrite app_nil_r.
      - exists []. unfold ret. now rewrite app_nil_r.
      - destruct (read_resource_run u h) as (a1 & Hu). exists a1.
        unfold bind. rewrite Hu. reflexivity. }
    destruct Hq as (a1 & Hq).
    destruct (IH (h ++ a1)%list) as (a2 & Hrest).
    exists (a1 ++ a2)%list. unfold bind at 1. rewrite Hq.
    unfold bind at 1. rewrite Hrest. unfold ret.
    now rewrite app_assoc.
Qed.

(** C9.  Whatever objects the process holds when a read starts, the read
    of a URI returns what [read_resource] of the URI alone says, so two
    reads of the same URI return the same; it makes new objects and
    changes none that was there.  In a session, run from any heap, two
    reads of one URI get the same answer wherever they stand. *)
Theorem read_is_deterministic (uri : string) (h1 h2 : heap) :
  fst (ResourceServerRun.read_resource uri h1)
  = fst (ResourceServerRun.read_resource uri h2)
  /\ fst (ResourceServerRun.read_resource uri h1)
     = ResourceServer.read_resource uri
  /\ (exists added,
        snd (ResourceServerRun.read_resource uri h1) = (h1 ++ added)%list)
  /\ forall (session : list ResourceServer.Request) (h : heap) (i j : nat),
       nth_error session i = Some (ResourceServer.ReadResource uri) ->
       nth_error session j = Some (ResourceServer.ReadResource uri) ->
       nth_error (fst (ResourceServerRun.serve session h)) i
       = Some (ResourceServer.Read
                 (fst (ResourceServerRun.read_resource uri h1)))
       /\ nth_error (fst (ResourceServerRun.serve session h)) j
          = nth_error (fst (ResourceServerRun.serve session h)) i.
Proof.
  destruct (read_resource_run uri h1) as (a1 & H1).
  destruct (read_resource_run uri h2) as (a2 & H2).
  rewrite H1, H2. cbn [fst snd].
  split; [reflexivity|]. split; [reflexivity|]. split; [now exists a1|].
  intros session h i j Hi Hj.
  destruct (serve_run session h) as (a & Hs). rewrite Hs. cbn [fst].
  unfold ResourceServer.serve.
  rewrite (map_nth_error ResourceServer.handle _ _ Hi),
    (map_nth_error ResourceServer.handle _ _ Hj).
  split; reflexivity.
Qed.

End Stateless.
